(** * Airflow receiver: retry executor, health tracker, StatsD aggregator,
      REST fan-out and incremental log adapter

    A shallow embedding of the scrapers of [internal/scraper] and the
    properties their specification states about them.  Go values are
    modelled as the code has them: [int], [int64] and [time.Duration] as
    [Z] (with the 64-bit wrap-around written out where the code does
    arithmetic on them), [float64] as the primitive binary64 floats,
    [string] and [[]byte] as [string], [map[string]T] as [gmap string T],
    [error] as an inductive with [nil] as [None]. *)

From Stdlib Require Import ZArith String Ascii List Lia Bool Sorted.
From Stdlib Require Import PrimFloat Uint63 FloatOps SpecFloat DecimalString.
From stdpp Require Import gmap strings list.
Import ListNotations.

Open Scope string_scope.
Open Scope list_scope.
Open Scope Z_scope.

(** ** 64-bit integers and float64 conversions *)

Definition min_int64 : Z := - 2 ^ 63.
Definition max_int64 : Z := 2 ^ 63 - 1.

(** Two's-complement wrap-around of [int64] arithmetic. *)
Definition wrap64 (z : Z) : Z := (z + 2 ^ 63) mod 2 ^ 64 - 2 ^ 63.

(** [int64(f)]: truncation towards zero.  Go leaves the result unspecified
    when the value does not fit; amd64 yields the minimum [int64], which is
    what this definition returns there. *)
Definition Float64ToInt64 (f : float) : Z :=
  match Prim2SF f with
  | S754_zero _ => 0
  | S754_finite s m e =>
      let mag := Z.shiftl (Z.pos m) e in
      let v := if s then - mag else mag in
      if (min_int64 <=? v) && (v <=? max_int64) then v else min_int64
  | _ => min_int64
  end.

(** [float64(z)] for an [int64] [z]: the nearest binary64 value. *)
Definition Int64ToFloat64 (z : Z) : float :=
  let mag := Z.abs z in
  let f :=
    if mag <? 2 ^ 63 then of_uint63 (Uint63.of_Z mag)
    else PrimFloat.mul (of_uint63 (Uint63.of_Z (2 ^ 62))) 2%float in
  if z <? 0 then PrimFloat.opp f else f.

(** [%d] of [fmt]. *)
Definition itoa (z : Z) : string := NilZero.string_of_int (Z.to_int z).

(** ** Errors and log entries *)

(** A Go [error]: [errors.New]/[fmt.Errorf] without [%w] give an
    [errorString]; [fmt.Errorf] with [%w] gives a [wrapError] that keeps the
    wrapped error next to the formatted text. *)
Inductive error : Type :=
| errorString (msg : string)
| wrapError (msg : string) (err : error).

Definition Error (e : error) : string :=
  match e with
  | errorString msg => msg
  | wrapError msg _ => msg
  end.

Inductive Level : Type := DebugLevel | InfoLevel | WarnLevel | ErrorLevel.

(** The [zap] fields the scrapers attach to their log entries. *)
Inductive Field : Type :=
| zString (key val : string)
| zInt (key : string) (val : Z)
| zInt64 (key : string) (val : Z)
| zDuration (key : string) (val : Z)
| zError (err : option error).

Record Entry : Type := mkEntry {
  level : Level;
  message : string;
  fields : list Field
}.

(** What a piece of code does to the outside, in the order it does it:
    log entries, the two ways the [select] of the retry executor ends (the
    timer fires after [d], or the context is done first), and calls of the
    operation handed to the executor. *)
Inductive Event : Type :=
| Logged (e : Entry)
| Slept (d : Z)
| Cancelled
| Invoked.

(** The part of Go's library the scrapers call into: [math.Pow],
    [strconv.ParseFloat(s, 64)] ([None] when it returns an error),
    [strings.TrimSpace] and [t.Format(time.RFC3339)] of a time given in
    nanoseconds since the zero time. *)
Class Platform : Type := {
  Pow : float -> float -> float;
  ParseFloat : string -> option float;
  TrimSpace : string -> string;
  FormatRFC3339 : Z -> string
}.

(** ** Time *)

(** A [time.Time] as the nanoseconds since the zero time (January 1, year 1,
    00:00 UTC); a [time.Duration] as [int64] nanoseconds. *)
Definition Time : Type := Z.
Definition Duration : Type := Z.

(** [time.Second]. *)
Definition Second : Duration := 1000000000.

Definition zeroTime : Time := 0.
Definition IsZero (t : Time) : bool := t =? 0.

Definition Minute : Duration := 60 * Second.

(** [t.Sub(u)]: the difference, clamped to what a Duration can hold. *)
Definition Sub (t u : Time) : Duration :=
  Z.max min_int64 (Z.min max_int64 (t - u)).

(** [d.Seconds()]. *)
Definition Seconds (d : Duration) : float :=
  PrimFloat.add (Int64ToFloat64 (Z.quot d Second))
    (PrimFloat.div (Int64ToFloat64 (Z.rem d Second)) 1e9%float).

(** Seconds from the zero time to January 1, 1970. *)
Definition unixEpoch : Z := 62135596800.

(** [pcommon.NewTimestampFromTime(t)], that is [uint64(t.UnixNano())]. *)
Definition NewTimestampFromTime (t : Time) : Z :=
  (t - unixEpoch * Second) mod 2 ^ 64.

(** ** Byte strings ([strings]) *)

Module Strings.

(** [strings.Split(s, sep)] for a separator of one byte. *)
Fixpoint Split (sep : ascii) (s : string) : list string :=
  match s with
  | EmptyString => [EmptyString]
  | String c s' =>
      if Ascii.eqb c sep then EmptyString :: Split sep s'
      else
        match Split sep s' with
        | part :: parts => String c part :: parts
        | [] => [String c EmptyString]
        end
  end.

(** [strings.SplitN(s, sep, 2)] for a separator of one byte: cut at the
    first separator, if there is one. *)
Fixpoint SplitN2 (sep : ascii) (s : string) : list string :=
  match s with
  | EmptyString => [EmptyString]
  | String c s' =>
      if Ascii.eqb c sep then [EmptyString; s']
      else
        match SplitN2 sep s' with
        | part :: parts => String c part :: parts
        | [] => [String c EmptyString]
        end
  end.

(** [strings.HasPrefix(s, prefix)] for a prefix of one byte. *)
Definition HasPrefix (s : string) (prefix : ascii) : bool :=
  match s with
  | String c _ => Ascii.eqb c prefix
  | EmptyString => false
  end.

(** [s[1:]] of a non-empty [s]. *)
Definition dropFirst (s : string) : string :=
  match s with
  | String _ s' => s'
  | EmptyString => EmptyString
  end.

(** [strings.Contains(s, substr)]. *)
Fixpoint Contains (s substr : string) : bool :=
  String.prefix substr s ||
  match s with
  | String _ s' => Contains s' substr
  | EmptyString => false
  end.

End Strings.

(** ** Retry executor ([retry.go]) *)

Module Retry.

Record RetryConfig : Type := mkRetryConfig {
  MaxAttempts : Z;
  InitialInterval : Duration;
  MaxInterval : Duration;
  Multiplier : float
}.

Definition DefaultRetryConfig : RetryConfig :=
  {| MaxAttempts := 3;
     InitialInterval := 1 * Second;
     MaxInterval := 10 * Second;
     Multiplier := 2.0%float |}.

(** The executor uses its context in one place, the [select] that guards
    each wait.  A context is what that [select] observes before attempt
    [a] (counted from 0): [Some e] when [<-ctx.Done()] is received, [e]
    being [ctx.Err()], and [None] when the timer fires. *)
Definition Context : Type := Z -> option error.

Record Outcome (St : Type) : Type := mkOutcome {
  result : option error;
  final : St;
  trace : list Event
}.
Arguments mkOutcome {St}.
Arguments result {St}.
Arguments final {St}.
Arguments trace {St}.

Definition after {St : Type} (evs : list Event) (o : Outcome St) : Outcome St :=
  {| result := result o; final := final o; trace := evs ++ trace o |}.

Section Executor.
Context `{Platform} {St : Type}.
Variable ctx : Context.
Variable cfg : RetryConfig.
Variable operation : string.
(** [fn]: a closure of type [func() error]; [St] holds whatever it reads
    and writes. *)
Variable fn : St -> option error * St.

(** The wait computed at the top of iteration [attempt > 0]. *)
Definition backoffAt (attempt : Z) : Z :=
  let backoff :=
    Float64ToInt64
      (PrimFloat.mul (Int64ToFloat64 (InitialInterval cfg))
         (Pow (Multiplier cfg) (Int64ToFloat64 (attempt - 1)))) in
  if MaxInterval cfg <? backoff then MaxInterval cfg else backoff.

Definition retrying (attempt backoff : Z) : Event :=
  Logged (mkEntry DebugLevel "Retrying operation after backoff"
            [zString "operation" operation; zInt "attempt" (attempt + 1);
             zInt "max_attempts" (MaxAttempts cfg); zDuration "backoff" backoff]).

Definition succeeded (attempt : Z) : Event :=
  Logged (mkEntry InfoLevel "Operation succeeded after retry"
            [zString "operation" operation; zInt "attempts" (attempt + 1)]).

Definition failed (attempt : Z) (lastErr : option error) : Event :=
  Logged (mkEntry WarnLevel "Operation failed"
            [zString "operation" operation; zInt "attempt" (attempt + 1);
             zError lastErr]).

Definition exhausted (lastErr : option error) : Event :=
  Logged (mkEntry ErrorLevel "Operation failed after all retries"
            [zString "operation" operation; zInt "attempts" (MaxAttempts cfg);
             zError lastErr]).

(** The body of the [for] loop from [attempt] on; [n] is the number of
    iterations left, [MaxAttempts - attempt]. *)
Fixpoint attemptsFrom (n : nat) (attempt : Z) (lastErr : option error) (s : St)
  : Outcome St :=
  match n with
  | O => {| result := lastErr; final := s; trace := [exhausted lastErr] |}
  | S n' =>
      let call (pre : list Event) :=
        let '(lastErr', s') := fn s in
        match lastErr' with
        | None =>
            {| result := None; final := s';
               trace := pre ++ Invoked ::
                        (if 0 <? attempt then [succeeded attempt] else []) |}
        | Some _ =>
            after (pre ++ [Invoked; failed attempt lastErr'])
                  (attemptsFrom n' (attempt + 1) lastErr' s')
        end in
      if 0 <? attempt then
        let backoff := backoffAt attempt in
        match ctx attempt with
        | Some e =>
            {| result := Some e; final := s;
               trace := [retrying attempt backoff; Cancelled] |}
        | None => call [retrying attempt backoff; Slept backoff]
        end
      else call []
  end.

Definition RetryWithBackoff (s : St) : Outcome St :=
  attemptsFrom (Z.to_nat (MaxAttempts cfg)) 0 None s.

(** The state after [k] successive calls of [fn] from [s], and the error
    of the [k]-th of them ([k >= 1]). *)
Fixpoint stateAfter (k : nat) (s : St) : St :=
  match k with
  | O => s
  | S k' => stateAfter k' (snd (fn s))
  end.

Definition nthError (k : nat) (s : St) : option error :=
  fst (fn (stateAfter (k - 1) s)).

(** What comes before the call of an iteration that is not cancelled: at
    the first nothing, later the log entry and the wait. *)
Definition preamble (attempt : Z) : list Event :=
  if 0 <? attempt
  then [retrying attempt (backoffAt attempt); Slept (backoffAt attempt)]
  else [].
End Executor.

(** The calls and waits of a trace, without the log entries. *)
Definition isEffect (ev : Event) : bool :=
  match ev with Logged _ => false | _ => true end.

Definition isInvoked (ev : Event) : bool :=
  match ev with Invoked => true | _ => false end.

Definition effects (tr : list Event) : list Event := List.filter isEffect tr.

(** How often the operation was called. *)
Definition invocations (tr : list Event) : Z :=
  Z.of_nat (length (List.filter isInvoked tr)).

(** The waits, in order. *)
Definition waits (tr : list Event) : list Z :=
  omap (fun ev => match ev with Slept d => Some d | _ => None end) tr.

(** An error that carries the name of the operation and the number of
    attempts in its text. *)
Definition annotated (operation : string) (attempts : Z) (e : error) : bool :=
  Strings.Contains (Error e) operation && Strings.Contains (Error e) (itoa attempts).

End Retry.

(** ** Emitted metrics ([pmetric]) *)

Module pmetric.

Inductive AttrValue : Type :=
| AStr (s : string)
| ABool (b : bool)
| AInt (z : Z).

Inductive Number : Type :=
| IntValue (z : Z)
| DoubleValue (f : float).

Record DataPoint : Type := mkDataPoint {
  Timestamp : Z;
  Value : Number;
  Attributes : gmap string AttrValue
}.

(** Every metric of the builder carries one data point, in a gauge or in
    a monotonic, cumulative sum. *)
Inductive Data : Type :=
| Gauge (dp : DataPoint)
| MonotonicCumulativeSum (dp : DataPoint).

Record Metric : Type := mkMetric {
  Name : string;
  Unit : string;
  Description : string;
  Payload : Data
}.

Definition point (m : Metric) : DataPoint :=
  match Payload m with Gauge dp => dp | MonotonicCumulativeSum dp => dp end.

(** What a metric reports, apart from the time: name, value, attributes. *)
Definition reading (m : Metric) : string * Number * gmap string AttrValue :=
  (Name m, Value (point m), Attributes (point m)).

(** One resource with its single scope. *)
Record ResourceMetrics : Type := mkResourceMetrics {
  resourceAttributes : gmap string AttrValue;
  scopeName : string;
  scopeVersion : string;
  scopeMetrics : list Metric
}.

(** The content of a [pmetric.Metrics]. *)
Abbreviation Metrics := (list ResourceMetrics).

End pmetric.

(** ** The world the scrapers run in *)

(** What the surroundings decide: the readings of the clock, what each
    [select] on a context observes, and the order in which each [range]
    over a map visits the keys (Go leaves it open and may change it from
    one [range] to the next): the [n]-th [range] visits the keys by
    increasing rank. *)
Class Surroundings : Type := {
  wallclock : nat -> Time;
  ctxDone : nat -> option error;
  rangeRank : nat -> string -> Z
}.

(** A [pmetric.Metrics] is a handle on a shared object: the store keeps the
    objects by address.  The counters tell how many clock readings,
    [select]s and [range]s there have been; [requests] lists the HTTP
    requests and SQL queries sent, oldest first. *)
Record World : Type := mkWorld {
  heap : gmap nat pmetric.Metrics;
  ticks : nat;
  selects : nat;
  ranges : nat;
  requests : list string
}.

Definition emptyWorld : World :=
  {| heap := ∅; ticks := 0%nat; selects := 0%nat; ranges := 0%nat; requests := [] |}.

(** A computation: from a world to a value, the world it leaves and the
    events it produces, oldest first. *)
Definition M (A : Type) : Type := World -> A * World * list Event.

Definition ret {A : Type} (a : A) : M A := fun w => (a, w, []).

Definition bind {A B : Type} (m : M A) (k : A -> M B) : M B :=
  fun w =>
    let '(a, w1, evs1) := m w in
    let '(b, w2, evs2) := k a w1 in
    (b, w2, evs1 ++ evs2).

Notation "x <- m ;; k" := (bind m (fun x => k))
  (at level 100, m at next level, right associativity).
Notation "m ;; k" := (bind m (fun _ => k))
  (at level 100, right associativity).

Definition valueOf {A : Type} (r : A * World * list Event) : A := fst (fst r).
Definition worldOf {A : Type} (r : A * World * list Event) : World := snd (fst r).
Definition eventsOf {A : Type} (r : A * World * list Event) : list Event := snd r.

Definition setHeap (h : gmap nat pmetric.Metrics) (w : World) : World :=
  {| heap := h; ticks := ticks w; selects := selects w; ranges := ranges w;
     requests := requests w |}.

Definition emit (evs : list Event) : M unit := fun w => (tt, w, evs).

Definition log (lvl : Level) (msg : string) (fs : list Field) : M unit :=
  emit [Logged (mkEntry lvl msg fs)].

(** Sequential [for] over a slice. *)
Fixpoint forEach {A : Type} (l : list A) (body : A -> M unit) : M unit :=
  match l with
  | [] => ret tt
  | x :: l' => body x ;; forEach l' body
  end.

(** A [for] over a slice that updates local variables of type [S]. *)
Fixpoint foldM {A S : Type} (l : list A) (body : S -> A -> M S) (s : S) : M S :=
  match l with
  | [] => ret s
  | x :: l' => s' <- body s x ;; foldM l' body s'
  end.

Fixpoint insertBy {V : Type} (rank : string -> Z) (x : string * V)
    (l : list (string * V)) : list (string * V) :=
  match l with
  | [] => [x]
  | y :: l' => if rank (fst x) <=? rank (fst y) then x :: l else y :: insertBy rank x l'
  end.

Definition sortBy {V : Type} (rank : string -> Z) (l : list (string * V))
    : list (string * V) :=
  foldr (insertBy rank) [] l.

(** The entry [x] comes before the entry [y] by rank. *)
Definition before {V : Type} (rank : string -> Z) (x y : string * V) : Prop :=
  rank (fst x) < rank (fst y).

(** The place of a key in a list of keys. *)
Fixpoint place (keys : list string) (k : string) : Z :=
  match keys with
  | [] => 0
  | k' :: keys' => if String.eqb k k' then 0 else 1 + place keys' k
  end.

Section Primitives.
Context `{Surroundings}.

(** [time.Now()]. *)
Definition timeNow : M Time :=
  fun w => (wallclock (ticks w),
            {| heap := heap w; ticks := S (ticks w); selects := selects w;
               ranges := ranges w; requests := requests w |},
            []).

(** The entries of a map in the order this [range] visits them. *)
Definition rangeMap {V : Type} (m : gmap string V) : M (list (string * V)) :=
  fun w => (sortBy (rangeRank (ranges w)) (map_to_list m),
            {| heap := heap w; ticks := ticks w; selects := selects w;
               ranges := S (ranges w); requests := requests w |},
            []).

(** The number of [select]s in a trace of the retry executor. *)
Definition selectsIn (tr : list Event) : nat :=
  length (List.filter
            (fun ev => match ev with Slept _ | Cancelled => true | _ => false end) tr).

(** [RetryWithBackoff] on a closure that reads and writes the variables
    [V] it has captured and the world, and logs nothing itself.  The
    [select] before attempt [a] is the next one of the world after the
    [a - 1] before it. *)
Definition retryM `{Platform} {V : Type} (cfg : Retry.RetryConfig) (operation : string)
    (fn : V -> World -> option error * V * World) (v : V) : M (option error * V) :=
  fun w =>
    let o :=
      Retry.RetryWithBackoff
        (fun a => ctxDone (selects w + Z.to_nat (a - 1)))
        cfg operation
        (fun '(v, w) => let '(err, v', w') := fn v w in (err, (v', w')))
        (v, w) in
    let '(v', w') := Retry.final o in
    ((Retry.result o, v'),
     {| heap := heap w'; ticks := ticks w';
        selects := selects w' + selectsIn (Retry.trace o);
        ranges := ranges w'; requests := requests w' |},
     Retry.trace o).
End Primitives.

(** ** Metrics builder ([metrics_builder.go]) *)

Module Builder.

(** A builder holds handles on one [pmetric.Metrics] and on the resource
    and the scope inside it: it is known by the address of that object. *)
Record MetricsBuilder : Type := mkMetricsBuilder { metrics : nat }.

Definition newResource : pmetric.ResourceMetrics :=
  {| pmetric.resourceAttributes :=
       <["airflow.component" := pmetric.AStr "receiver"]>
         (<["service.name" := pmetric.AStr "airflow"]> ∅);
     pmetric.scopeName := "github.com/npcomplete777/airflowreceiver";
     pmetric.scopeVersion := "0.0.1";
     pmetric.scopeMetrics := [] |}.

(** Allocation of a [pmetric.Metrics] with the given content. *)
Definition alloc (ms : pmetric.Metrics) : M nat :=
  fun w =>
    let a := fresh (dom (heap w)) in
    (a, setHeap (<[a := ms]> (heap w)) w, []).

Definition NewMetricsBuilder : M MetricsBuilder :=
  a <- alloc [newResource] ;; ret (mkMetricsBuilder a).

(** [mb.sm.Metrics().AppendEmpty()] and the setters that follow it: one
    more metric at the end of the builder's scope, which is the scope of
    the first resource of its object. *)
Definition appendMetric (m : pmetric.Metric) (ms : pmetric.Metrics) : pmetric.Metrics :=
  match ms with
  | rm :: rest =>
      {| pmetric.resourceAttributes := pmetric.resourceAttributes rm;
         pmetric.scopeName := pmetric.scopeName rm;
         pmetric.scopeVersion := pmetric.scopeVersion rm;
         pmetric.scopeMetrics := pmetric.scopeMetrics rm ++ [m] |} :: rest
  | [] => []
  end.

Definition append (mb : MetricsBuilder) (m : pmetric.Metric) : M unit :=
  fun w => (tt, setHeap (alter (appendMetric m) (metrics mb) (heap w)) w, []).

(** [Emit] returns the builder's own collection, not a copy. *)
Definition Emit (mb : MetricsBuilder) : M nat := ret (metrics mb).

(** The metrics in the scope of the builder (the scope of the first
    resource) of the object at address [a]: for an object made by
    [NewMetricsBuilder], all the metrics the handle shows. *)
Definition content (a : nat) (w : World) : list pmetric.Metric :=
  match heap w !! a with
  | Some (rm :: _) => pmetric.scopeMetrics rm
  | _ => []
  end.

(** The object of the builder is there, with its resource. *)
Definition ready (mb : MetricsBuilder) (w : World) : bool :=
  match heap w !! metrics mb with
  | Some (_ :: _) => true
  | _ => false
  end.

Definition gauge (name unit description : string) (ts : Z) (v : pmetric.Number)
    (attrs : gmap string pmetric.AttrValue) : pmetric.Metric :=
  pmetric.mkMetric name unit description (pmetric.Gauge (pmetric.mkDataPoint ts v attrs)).

Definition sum (name unit description : string) (ts : Z) (v : pmetric.Number)
    (attrs : gmap string pmetric.AttrValue) : pmetric.Metric :=
  pmetric.mkMetric name unit description (pmetric.MonotonicCumulativeSum (pmetric.mkDataPoint ts v attrs)).

(** [dp.Attributes().PutStr(k, v)] for every entry of [tags]; the
    attributes are kept as a map, so the order of the loop leaves no
    trace. *)
Definition putTags (tags : gmap string string) (attrs : gmap string pmetric.AttrValue)
    : gmap string pmetric.AttrValue :=
  (pmetric.AStr <$> tags) ∪ attrs.

Definition RecordGenericCounter (mb : MetricsBuilder) (value : Z) (metricName : string)
    (tags : gmap string string) (ts : Time) : M unit :=
  append mb (sum metricName "{count}" "StatsD counter metric"
               (NewTimestampFromTime ts) (pmetric.IntValue value) (putTags tags ∅)).

Definition RecordGenericGauge (mb : MetricsBuilder) (value : float) (metricName : string)
    (tags : gmap string string) (ts : Time) : M unit :=
  append mb (gauge metricName "{value}" "StatsD gauge metric"
               (NewTimestampFromTime ts) (pmetric.DoubleValue value) (putTags tags ∅)).

Definition RecordGenericTimer (mb : MetricsBuilder) (avg min max : float)
    (metricName : string) (tags : gmap string string) (ts : Time) : M unit :=
  append mb (gauge (metricName +:+ ".avg") "ms" "StatsD timer average"
               (NewTimestampFromTime ts) (pmetric.DoubleValue avg) (putTags tags ∅)) ;;
  append mb (gauge (metricName +:+ ".min") "ms" ""
               (NewTimestampFromTime ts) (pmetric.DoubleValue min) (putTags tags ∅)) ;;
  append mb (gauge (metricName +:+ ".max") "ms" ""
               (NewTimestampFromTime ts) (pmetric.DoubleValue max) (putTags tags ∅)).

Definition RecordPoolSlotsOpen (mb : MetricsBuilder)
    (value : Z) (poolName : string) (ts : Z) : M unit :=
  append mb (gauge "airflow.pool.slots.open" "{slots}"
    "Number of open slots in pool"
    ts (pmetric.IntValue value)
    (<["pool.name" := pmetric.AStr poolName]> ∅)).

Definition RecordPoolSlotsUsed (mb : MetricsBuilder)
    (value : Z) (poolName : string) (ts : Z) : M unit :=
  append mb (gauge "airflow.pool.slots.used" "{slots}"
    "Number of used slots in pool"
    ts (pmetric.IntValue value)
    (<["pool.name" := pmetric.AStr poolName]> ∅)).

Definition RecordSchedulerHeartbeatAge (mb : MetricsBuilder)
    (age : float) (ts : Time) : M unit :=
  append mb (gauge "airflow.scheduler.heartbeat.age" "s"
    "Age of scheduler heartbeat in seconds"
    (NewTimestampFromTime ts) (pmetric.DoubleValue age)
    ∅).

Definition RecordConnectionCount (mb : MetricsBuilder)
    (count : Z) (connType : string) (ts : Time) : M unit :=
  append mb (gauge "airflow.connections.count" "{connections}"
    "Number of connections by type"
    (NewTimestampFromTime ts) (pmetric.IntValue count)
    (<["connection.type" := pmetric.AStr connType]> ∅)).

Definition RecordVariableCount (mb : MetricsBuilder) (count : Z) (ts : Time) : M unit :=
  append mb (gauge "airflow.variables.count" "{variables}"
    "Total number of Airflow variables"
    (NewTimestampFromTime ts) (pmetric.IntValue count)
    ∅).

Definition RecordImportErrorCount (mb : MetricsBuilder)
    (count : Z) (ts : Time) : M unit :=
  append mb (gauge "airflow.import_errors.count" "{errors}"
    "Number of DAG import errors"
    (NewTimestampFromTime ts) (pmetric.IntValue count)
    ∅).

Definition RecordDAGCount (mb : MetricsBuilder)
    (count : Z) (status : string) (ts : Time) : M unit :=
  append mb (gauge "airflow.dags.count" "{dags}"
    "Total number of DAGs by status"
    (NewTimestampFromTime ts) (pmetric.IntValue count)
    (<["status" := pmetric.AStr status]> ∅)).

Definition RecordTaskInstancesByState (mb : MetricsBuilder)
    (count : Z) (dagID : string) (state : string) (ts : Time) : M unit :=
  append mb (gauge "airflow.task_instances.by_state" "{tasks}"
    "Number of task instances by state"
    (NewTimestampFromTime ts) (pmetric.IntValue count)
    (<["state" := pmetric.AStr state]> (<["dag.id" := pmetric.AStr dagID]> ∅))).

Definition RecordDAGRunsByState (mb : MetricsBuilder)
    (count : Z) (dagID : string) (state : string) (ts : Time) : M unit :=
  append mb (gauge "airflow.dag_runs.by_state" "{runs}"
    "Number of DAG runs by state"
    (NewTimestampFromTime ts) (pmetric.IntValue count)
    (<["state" := pmetric.AStr state]> (<["dag.id" := pmetric.AStr dagID]> ∅))).

Definition RecordPoolQueuedSlots (mb : MetricsBuilder)
    (value : Z) (poolName : string) (ts : Time) : M unit :=
  append mb (gauge "airflow.pool.slots.queued" "{slots}"
    "Number of queued slots in pool"
    (NewTimestampFromTime ts) (pmetric.IntValue value)
    (<["pool.name" := pmetric.AStr poolName]> ∅)).

Definition RecordPoolRunningSlots (mb : MetricsBuilder)
    (value : Z) (poolName : string) (ts : Time) : M unit :=
  append mb (gauge "airflow.pool.slots.running" "{slots}"
    "Number of running slots in pool"
    (NewTimestampFromTime ts) (pmetric.IntValue value)
    (<["pool.name" := pmetric.AStr poolName]> ∅)).

Definition RecordTaskInstanceDurationWithDimensions (mb : MetricsBuilder)
    (value : float) (dagID : string) (taskID : string) (dagRunID : string)
    (state : string) (operator : string) (pool : string) (queue : string)
    (tryNumber : Z) (ts : Z) : M unit :=
  append mb (gauge "airflow.task.instance.duration" "s"
    "Duration of task instance execution with full dimensions"
    ts (pmetric.DoubleValue value)
    (<["try_number" := pmetric.AInt tryNumber]>
      (<["queue" := pmetric.AStr queue]>
      (<["pool" := pmetric.AStr pool]>
      (<["operator" := pmetric.AStr operator]>
      (<["state" := pmetric.AStr state]>
      (<["dag_run.id" := pmetric.AStr dagRunID]>
      (<["task.id" := pmetric.AStr taskID]>
      (<["dag.id" := pmetric.AStr dagID]> ∅))))))))).

Definition RecordDAGRunDurationWithDimensions (mb : MetricsBuilder)
    (value : float) (dagID : string) (dagRunID : string) (runType : string)
    (state : string) (externalTrigger : bool) (ts : Z) : M unit :=
  append mb (gauge "airflow.dag.run.duration" "s"
    "Duration of DAG run execution with full dimensions"
    ts (pmetric.DoubleValue value)
    (<["external_trigger" := pmetric.ABool externalTrigger]>
      (<["state" := pmetric.AStr state]>
      (<["run.type" := pmetric.AStr runType]>
      (<["dag_run.id" := pmetric.AStr dagRunID]>
      (<["dag.id" := pmetric.AStr dagID]> ∅)))))).

Definition RecordPoolDeferredSlots (mb : MetricsBuilder)
    (value : Z) (poolName : string) (ts : Time) : M unit :=
  append mb (gauge "airflow.pool.slots.deferred" "{slots}"
    "Number of deferred slots in pool"
    (NewTimestampFromTime ts) (pmetric.IntValue value)
    (<["pool.name" := pmetric.AStr poolName]> ∅)).

Definition RecordPoolScheduledSlots (mb : MetricsBuilder)
    (value : Z) (poolName : string) (ts : Time) : M unit :=
  append mb (gauge "airflow.pool.slots.scheduled" "{slots}"
    "Number of scheduled slots in pool"
    (NewTimestampFromTime ts) (pmetric.IntValue value)
    (<["pool.name" := pmetric.AStr poolName]> ∅)).

Definition RecordTaskInstanceCountDB (mb : MetricsBuilder)
    (count : Z) (dagID : string) (taskID : string) (state : string)
    (operator : string) (pool : string) (ts : Time) : M unit :=
  append mb (gauge "airflow.task.instance.count.db" "{tasks}"
    "Task instance count from database aggregation (24h)"
    (NewTimestampFromTime ts) (pmetric.IntValue count)
    (<["pool" := pmetric.AStr pool]>
      (<["operator" := pmetric.AStr operator]>
      (<["state" := pmetric.AStr state]>
      (<["task.id" := pmetric.AStr taskID]>
      (<["dag.id" := pmetric.AStr dagID]> ∅)))))).

Definition RecordTaskInstanceAvgDuration (mb : MetricsBuilder)
    (avg : float) (dagID : string) (taskID : string) (state : string) (ts : Time) : M unit :=
  append mb (gauge "airflow.task.instance.duration.avg" "s"
    "Average task instance duration (24h)"
    (NewTimestampFromTime ts) (pmetric.DoubleValue avg)
    (<["state" := pmetric.AStr state]>
      (<["task.id" := pmetric.AStr taskID]>
      (<["dag.id" := pmetric.AStr dagID]> ∅)))).

Definition RecordTaskInstanceMaxDuration (mb : MetricsBuilder)
    (max : float) (dagID : string) (taskID : string) (state : string) (ts : Time) : M unit :=
  append mb (gauge "airflow.task.instance.duration.max" "s"
    "Maximum task instance duration (24h)"
    (NewTimestampFromTime ts) (pmetric.DoubleValue max)
    (<["state" := pmetric.AStr state]>
      (<["task.id" := pmetric.AStr taskID]>
      (<["dag.id" := pmetric.AStr dagID]> ∅)))).

Definition RecordDAGRunCountDB (mb : MetricsBuilder)
    (count : Z) (dagID : string) (state : string) (ts : Time) : M unit :=
  append mb (gauge "airflow.dag.run.count.db" "{runs}"
    "DAG run count from database (24h)"
    (NewTimestampFromTime ts) (pmetric.IntValue count)
    (<["state" := pmetric.AStr state]> (<["dag.id" := pmetric.AStr dagID]> ∅))).

Definition RecordDAGRunAvgDuration (mb : MetricsBuilder)
    (avg : float) (dagID : string) (state : string) (ts : Time) : M unit :=
  append mb (gauge "airflow.dag.run.duration.avg" "s"
    "Average DAG run duration (24h)"
    (NewTimestampFromTime ts) (pmetric.DoubleValue avg)
    (<["state" := pmetric.AStr state]> (<["dag.id" := pmetric.AStr dagID]> ∅))).

Definition RecordSchedulerTasksScheduled (mb : MetricsBuilder)
    (count : Z) (ts : Time) : M unit :=
  append mb (gauge "airflow.scheduler.tasks.scheduled" "{tasks}"
    "Number of scheduled tasks"
    (NewTimestampFromTime ts) (pmetric.IntValue count)
    ∅).

Definition RecordSchedulerTasksQueued (mb : MetricsBuilder)
    (count : Z) (ts : Time) : M unit :=
  append mb (gauge "airflow.scheduler.tasks.queued" "{tasks}"
    "Number of queued tasks"
    (NewTimestampFromTime ts) (pmetric.IntValue count)
    ∅).

Definition RecordSchedulerTasksRunning (mb : MetricsBuilder)
    (count : Z) (ts : Time) : M unit :=
  append mb (gauge "airflow.scheduler.tasks.running" "{tasks}"
    "Number of running tasks"
    (NewTimestampFromTime ts) (pmetric.IntValue count)
    ∅).

Definition RecordSchedulerTasksSuccess24h (mb : MetricsBuilder)
    (count : Z) (ts : Time) : M unit :=
  append mb (gauge "airflow.scheduler.tasks.success.24h" "{tasks}"
    "Number of successful tasks in last 24 hours"
    (NewTimestampFromTime ts) (pmetric.IntValue count)
    ∅).

Definition RecordSchedulerTasksFailed24h (mb : MetricsBuilder)
    (count : Z) (ts : Time) : M unit :=
  append mb (gauge "airflow.scheduler.tasks.failed.24h" "{tasks}"
    "Number of failed tasks in last 24 hours"
    (NewTimestampFromTime ts) (pmetric.IntValue count)
    ∅).

Definition RecordSchedulerTasksOrphaned (mb : MetricsBuilder)
    (count : Z) (ts : Time) : M unit :=
  append mb (gauge "airflow.scheduler.tasks.orphaned" "{tasks}"
    "Number of orphaned tasks (running >1 hour)"
    (NewTimestampFromTime ts) (pmetric.IntValue count)
    ∅).

Definition RecordSLAMissCount (mb : MetricsBuilder)
    (count : Z) (dagID : string) (ts : Time) : M unit :=
  append mb (gauge "airflow.sla.miss.count" "{misses}"
    "Number of SLA misses (24h)"
    (NewTimestampFromTime ts) (pmetric.IntValue count)
    (<["dag.id" := pmetric.AStr dagID]> ∅)).

Definition healthValue (status : string) : Z :=
  if String.eqb status "healthy" then 1 else 0.

Definition RecordSchedulerHealth (mb : MetricsBuilder) (status : string) (ts : Time)
    : M unit :=
  append mb (gauge "airflow.scheduler.health" "{status}"
    "Scheduler health status (1=healthy, 0=unhealthy)"
    (NewTimestampFromTime ts) (pmetric.IntValue (healthValue status))
    (<["status" := pmetric.AStr status]> ∅)).

Definition RecordDatabaseHealth (mb : MetricsBuilder) (status : string) (ts : Time)
    : M unit :=
  append mb (gauge "airflow.database.health" "{status}"
    "Database health status (1=healthy, 0=unhealthy)"
    (NewTimestampFromTime ts) (pmetric.IntValue (healthValue status))
    (<["status" := pmetric.AStr status]> ∅)).

Definition RecordPoolTotalSlots (mb : MetricsBuilder)
    (value : Z) (poolName description : string) (ts : Time) : M unit :=
  append mb (gauge "airflow.pool.slots.total" "{slots}"
    "Total capacity of pool"
    (NewTimestampFromTime ts) (pmetric.IntValue value)
    (let attrs := <["pool.name" := pmetric.AStr poolName]> ∅ in
     if String.eqb description "" then attrs
     else <["pool.description" := pmetric.AStr description]> attrs)).

(** The tags joined by commas. *)
Fixpoint joinTags (tags : list string) : string :=
  match tags with
  | [] => ""
  | [tag] => tag
  | tag :: tags' => tag +:+ "," +:+ joinTags tags'
  end.

Definition RecordDAGWithTags (mb : MetricsBuilder)
    (count : Z) (dagID : string) (tags : list string) (isPaused : bool) (ts : Time)
    : M unit :=
  append mb (gauge "airflow.dag.info" "{dag}"
    "DAG information with tags"
    (NewTimestampFromTime ts) (pmetric.IntValue count)
    (let attrs :=
       <["is_paused" := pmetric.ABool isPaused]> (<["dag.id" := pmetric.AStr dagID]> ∅) in
     match tags with
     | [] => attrs
     | _ => <["tags" := pmetric.AStr (joinTags tags)]> attrs
     end)).

(** [EmitMetrics] of the health tracker calls seven recorders of the
    builder whose declarations are not in the files at hand.  They are
    taken as given, as what every recorder of the builder is: a function
    that appends metrics to the builder's scope; a field tells which
    metrics the recorder appends for its arguments. *)
Class HealthRecorders : Type := {
  scraperTotalScrapes : Z -> string -> Time -> list pmetric.Metric;
  scraperSuccessfulScrapes : Z -> string -> Time -> list pmetric.Metric;
  scraperFailedScrapes : Z -> string -> Time -> list pmetric.Metric;
  scraperHealthStatus : Z -> string -> Time -> list pmetric.Metric;
  scraperLastDuration : float -> string -> Time -> list pmetric.Metric;
  scraperAvgDuration : float -> string -> Time -> list pmetric.Metric;
  scraperConsecutiveErrors : Z -> string -> Time -> list pmetric.Metric
}.

Definition appendAll (mb : MetricsBuilder) (ms : list pmetric.Metric) : M unit :=
  forEach ms (append mb).

Section Recorders.
Context `{HealthRecorders}.

Definition RecordScraperTotalScrapes (mb : MetricsBuilder) (value : Z)
    (scraperType : string) (ts : Time) : M unit :=
  appendAll mb (scraperTotalScrapes value scraperType ts).

Definition RecordScraperSuccessfulScrapes (mb : MetricsBuilder) (value : Z)
    (scraperType : string) (ts : Time) : M unit :=
  appendAll mb (scraperSuccessfulScrapes value scraperType ts).

Definition RecordScraperFailedScrapes (mb : MetricsBuilder) (value : Z)
    (scraperType : string) (ts : Time) : M unit :=
  appendAll mb (scraperFailedScrapes value scraperType ts).

Definition RecordScraperHealthStatus (mb : MetricsBuilder) (value : Z)
    (scraperType : string) (ts : Time) : M unit :=
  appendAll mb (scraperHealthStatus value scraperType ts).

Definition RecordScraperLastDuration (mb : MetricsBuilder) (value : float)
    (scraperType : string) (ts : Time) : M unit :=
  appendAll mb (scraperLastDuration value scraperType ts).

Definition RecordScraperAvgDuration (mb : MetricsBuilder) (value : float)
    (scraperType : string) (ts : Time) : M unit :=
  appendAll mb (scraperAvgDuration value scraperType ts).

Definition RecordScraperConsecutiveErrors (mb : MetricsBuilder) (value : Z)
    (scraperType : string) (ts : Time) : M unit :=
  appendAll mb (scraperConsecutiveErrors value scraperType ts).
End Recorders.

End Builder.

(** ** Health tracker ([ScraperHealth]) *)

Module Health.

Record ScraperHealth : Type := mkScraperHealth {
  scraperType : string;
  totalScrapes : Z;
  successfulScrapes : Z;
  failedScrapes : Z;
  lastScrapeDuration : Duration;
  avgScrapeDuration : Duration;
  maxScrapeDuration : Duration;
  lastError : option error;
  lastErrorTime : Time;
  consecutiveErrors : Z;
  lastSuccessTime : Time;
  healthy : bool
}.

Definition NewScraperHealth (scraperType : string) : ScraperHealth :=
  {| scraperType := scraperType;
     totalScrapes := 0; successfulScrapes := 0; failedScrapes := 0;
     lastScrapeDuration := 0; avgScrapeDuration := 0; maxScrapeDuration := 0;
     lastError := None; lastErrorTime := zeroTime;
     consecutiveErrors := 0;
     lastSuccessTime := zeroTime;
     healthy := true |}.

(** [RecordScrape(duration, err)] on the tracker [h]; [now] is what
    [time.Now()] returns in the branch taken.  The new tracker and the log
    entries written. *)
Definition RecordScrape (now : Time) (duration : Duration) (err : option error)
    (h : ScraperHealth) : ScraperHealth * list Event :=
  let total := wrap64 (totalScrapes h + 1) in
  match err with
  | Some e =>
      let consecutive := wrap64 (consecutiveErrors h + 1) in
      let unhealthy := 3 <=? consecutive in
      ({| scraperType := scraperType h;
          totalScrapes := total;
          successfulScrapes := successfulScrapes h;
          failedScrapes := wrap64 (failedScrapes h + 1);
          lastScrapeDuration := duration;
          avgScrapeDuration := avgScrapeDuration h;
          maxScrapeDuration := maxScrapeDuration h;
          lastError := Some e;
          lastErrorTime := now;
          consecutiveErrors := consecutive;
          lastSuccessTime := lastSuccessTime h;
          healthy := if unhealthy then false else healthy h |},
       if unhealthy then
         [Logged (mkEntry ErrorLevel "Scraper marked unhealthy"
                    [zString "scraper_type" (scraperType h);
                     zInt64 "consecutive_errors" consecutive;
                     zError (Some e)])]
       else [])
  | None =>
      ({| scraperType := scraperType h;
          totalScrapes := total;
          successfulScrapes := wrap64 (successfulScrapes h + 1);
          failedScrapes := failedScrapes h;
          lastScrapeDuration := duration;
          avgScrapeDuration :=
            if avgScrapeDuration h =? 0 then duration
            else Z.quot (wrap64 (wrap64 (avgScrapeDuration h * 9) + duration)) 10;
          maxScrapeDuration :=
            if maxScrapeDuration h <? duration then duration
            else maxScrapeDuration h;
          lastError := lastError h;
          lastErrorTime := lastErrorTime h;
          consecutiveErrors := 0;
          lastSuccessTime := now;
          healthy := true |},
       [])
  end.

Definition IsHealthy (h : ScraperHealth) : bool := healthy h.

Definition GetLastError (h : ScraperHealth) : option error * Time :=
  (lastError h, lastErrorTime h).

Definition Reset (h : ScraperHealth) : ScraperHealth :=
  {| scraperType := scraperType h;
     totalScrapes := 0; successfulScrapes := 0; failedScrapes := 0;
     lastScrapeDuration := 0; avgScrapeDuration := 0; maxScrapeDuration := 0;
     lastError := None; lastErrorTime := zeroTime;
     consecutiveErrors := 0;
     lastSuccessTime := lastSuccessTime h;
     healthy := true |}.

(** The tracker after a run of scrapes, oldest first; each scrape is the
    reading of the clock, the duration and the error. *)
Definition recordAll (scrapes : list (Time * Duration * option error))
    (h : ScraperHealth) : ScraperHealth :=
  fold_left (fun h '(now, duration, err) => fst (RecordScrape now duration err h))
    scrapes h.

(** A scrape of a run that ended with an error, and one that did not. *)
Definition failedScrape (x : Time * Duration * option error) : bool :=
  match snd x with Some _ => true | None => false end.

Definition successfulScrape (x : Time * Duration * option error) : bool :=
  negb (failedScrape x).

Section Tracking.
Context `{Surroundings} `{Builder.HealthRecorders}.

(** [EmitMetrics(mb, ts)]. *)
Definition EmitMetrics (h : ScraperHealth) (mb : Builder.MetricsBuilder) (ts : Time)
    : M unit :=
  Builder.RecordScraperTotalScrapes mb (totalScrapes h) (scraperType h) ts ;;
  Builder.RecordScraperSuccessfulScrapes mb (successfulScrapes h) (scraperType h) ts ;;
  Builder.RecordScraperFailedScrapes mb (failedScrapes h) (scraperType h) ts ;;
  Builder.RecordScraperHealthStatus mb (if healthy h then 1 else 0) (scraperType h) ts ;;
  (if 0 <? lastScrapeDuration h then
     Builder.RecordScraperLastDuration mb (Seconds (lastScrapeDuration h))
       (scraperType h) ts
   else ret tt) ;;
  (if 0 <? avgScrapeDuration h then
     Builder.RecordScraperAvgDuration mb (Seconds (avgScrapeDuration h))
       (scraperType h) ts
   else ret tt) ;;
  Builder.RecordScraperConsecutiveErrors mb (consecutiveErrors h) (scraperType h) ts.

(** [WithScrapeTracking(ctx, fn)]: what [fn] returned, and the tracker
    afterwards. *)
Definition WithScrapeTracking {A : Type} (h : ScraperHealth)
    (fn : M (A * option error)) : M (A * option error * ScraperHealth) :=
  start <- timeNow ;;
  r <- fn ;;
  finish <- timeNow ;;
  let duration := Sub finish start in
  now <- timeNow ;;
  let '(h', evs) := RecordScrape now duration (snd r) h in
  emit evs ;;
  (match snd r with
   | Some err =>
       log WarnLevel "Scrape failed"
         [zString "scraper_type" (scraperType h); zDuration "duration" duration;
          zError (Some err)]
   | None =>
       log DebugLevel "Scrape succeeded"
         [zString "scraper_type" (scraperType h); zDuration "duration" duration]
   end) ;;
  ret (r, h').
End Tracking.

End Health.

(** ** StatsD aggregator ([StatsDScraper]) *)

Module StatsD.

Record StatsDMetric : Type := mkStatsDMetric {
  Name : string;
  Value : float;
  Type' : string;
  SampleRate : float;
  Tags : gmap string string;
  Count : Z;
  Sum : float;
  Min : float;
  Max : float
}.

(** The scraper: its builder and the aggregation table.  The table maps a
    key to a pointer to a cell that nothing else holds; a cell is updated
    in place by writing the new cell under the key. *)
Record StatsDScraper : Type := mkStatsDScraper {
  mb : Builder.MetricsBuilder;
  metrics : gmap string StatsDMetric
}.

Definition NewStatsDScraper : M StatsDScraper :=
  b <- Builder.NewMetricsBuilder ;;
  ret {| mb := b; metrics := ∅ |}.

Definition setMetrics (t : gmap string StatsDMetric) (s : StatsDScraper) : StatsDScraper :=
  {| mb := mb s; metrics := t |}.

Section Aggregator.
Context `{Platform} `{Surroundings}.

(** The [#tag1:val1,tag2:val2] part: later pairs overwrite earlier ones
    with the same name, pairs without [:] are left out. *)
Definition parseTags (s : string) (tags : gmap string string) : gmap string string :=
  fold_left
    (fun tags pair =>
       match Strings.SplitN2 ":" pair with
       | [k; v] => <[k := v]> tags
       | _ => tags
       end)
    (Strings.Split "," s) tags.

(** The loop over [parts[2:]]. *)
Definition parseOptions (parts : list string) (metric : StatsDMetric) : StatsDMetric :=
  fold_left
    (fun metric part =>
       if Strings.HasPrefix part "@" then
         match ParseFloat (Strings.dropFirst part) with
         | Some rate =>
             {| Name := Name metric; Value := Value metric; Type' := Type' metric;
                SampleRate := rate; Tags := Tags metric; Count := Count metric;
                Sum := Sum metric; Min := Min metric; Max := Max metric |}
         | None => metric
         end
       else if Strings.HasPrefix part "#" then
         {| Name := Name metric; Value := Value metric; Type' := Type' metric;
            SampleRate := SampleRate metric;
            Tags := parseTags (Strings.dropFirst part) (Tags metric);
            Count := Count metric;
            Sum := Sum metric; Min := Min metric; Max := Max metric |}
       else metric)
    parts metric.

(** [nil] is [None]. *)
Definition parseStatsDLine (line : string) : option StatsDMetric :=
  match Strings.Split "|" line with
  | part0 :: part1 :: rest =>
      match Strings.SplitN2 ":" part0 with
      | [name; value] =>
          match ParseFloat value with
          | Some value =>
              Some (parseOptions rest
                      {| Name := name; Value := value; Type' := part1;
                         SampleRate := 1.0%float; Tags := ∅; Count := 0;
                         Sum := 0%float; Min := 0%float; Max := 0%float |})
          | None => None
          end
      | _ => None
      end
  | _ => None
  end.

(** The key of a metric when the [range] over its tags visits them in the
    order [visited]. *)
Definition keyOf (name : string) (visited : list (string * string)) : string :=
  fold_left (fun key '(k, v) => key +:+ "," +:+ k +:+ "=" +:+ v) visited name.

(** The update of an existing cell, by the type of the incoming metric. *)
Definition update (metric existing : StatsDMetric) : StatsDMetric :=
  if String.eqb (Type' metric) "c" then
    {| Name := Name existing;
       Value := PrimFloat.add (Value existing)
                  (PrimFloat.div (Value metric) (SampleRate metric));
       Type' := Type' existing; SampleRate := SampleRate existing;
       Tags := Tags existing; Count := Count existing; Sum := Sum existing;
       Min := Min existing; Max := Max existing |}
  else if String.eqb (Type' metric) "g" then
    {| Name := Name existing; Value := Value metric;
       Type' := Type' existing; SampleRate := SampleRate existing;
       Tags := Tags existing; Count := Count existing; Sum := Sum existing;
       Min := Min existing; Max := Max existing |}
  else if String.eqb (Type' metric) "ms" || String.eqb (Type' metric) "h" then
    {| Name := Name existing; Value := Value existing;
       Type' := Type' existing; SampleRate := SampleRate existing;
       Tags := Tags existing;
       Count := wrap64 (Count existing + 1);
       Sum := PrimFloat.add (Sum existing) (Value metric);
       Min := if PrimFloat.ltb (Value metric) (Min existing)
              then Value metric else Min existing;
       Max := if PrimFloat.ltb (Max existing) (Value metric)
              then Value metric else Max existing |}
  else existing.

(** The cell made at the first observation of a key. *)
Definition firstCell (metric : StatsDMetric) : StatsDMetric :=
  {| Name := Name metric; Value := Value metric; Type' := Type' metric;
     SampleRate := 0%float; Tags := Tags metric; Count := 1;
     Sum := Value metric; Min := Value metric; Max := Value metric |}.

(** The table after the metric has been put under [key]. *)
Definition aggregateAt (key : string) (metric : StatsDMetric)
    (table : gmap string StatsDMetric) : gmap string StatsDMetric :=
  match table !! key with
  | None => <[key := firstCell metric]> table
  | Some existing => <[key := update metric existing]> table
  end.

Definition aggregate (metric : StatsDMetric) (s : StatsDScraper) : M StatsDScraper :=
  visited <- rangeMap (Tags metric) ;;
  ret (setMetrics (aggregateAt (keyOf (Name metric) visited) metric (metrics s)) s).

(** What [parseAndAggregate] does with one line. *)
Definition ingest (s : StatsDScraper) (line : string) : M StatsDScraper :=
  if String.eqb line "" then ret s
  else
    match parseStatsDLine line with
    | Some metric => aggregate metric s
    | None => ret s
    end.

Definition parseAndAggregate (data : string) (s : StatsDScraper) : M StatsDScraper :=
  foldM (Strings.Split "010" (TrimSpace data)) ingest s.

(** The listener hands every datagram it reads to [parseAndAggregate]. *)
Definition listen (datagrams : list string) (s : StatsDScraper) : M StatsDScraper :=
  foldM datagrams (fun s data => parseAndAggregate data s) s.

(** What [Scrape] records for one cell. *)
Definition emitCell (b : Builder.MetricsBuilder) (metric : StatsDMetric) : M unit :=
  if String.eqb (Type' metric) "c" then
    now <- timeNow ;;
    Builder.RecordGenericCounter b (Float64ToInt64 (Value metric)) (Name metric)
      (Tags metric) now
  else if String.eqb (Type' metric) "g" then
    now <- timeNow ;;
    Builder.RecordGenericGauge b (Value metric) (Name metric) (Tags metric) now
  else if String.eqb (Type' metric) "ms" || String.eqb (Type' metric) "h" then
    if 0 <? Count metric then
      let avg := PrimFloat.div (Sum metric) (Int64ToFloat64 (Count metric)) in
      now <- timeNow ;;
      Builder.RecordGenericTimer b avg (Min metric) (Max metric) (Name metric)
        (Tags metric) now
    else ret tt
  else ret tt.

(** What a cell shows at a scrape, apart from the time: for each metric
    recorded its name, value and attributes. *)
Definition cellReadings (metric : StatsDMetric)
    : list (string * pmetric.Number * gmap string pmetric.AttrValue) :=
  let attrs := Builder.putTags (Tags metric) ∅ in
  if String.eqb (Type' metric) "c" then
    [(Name metric, pmetric.IntValue (Float64ToInt64 (Value metric)), attrs)]
  else if String.eqb (Type' metric) "g" then
    [(Name metric, pmetric.DoubleValue (Value metric), attrs)]
  else if String.eqb (Type' metric) "ms" || String.eqb (Type' metric) "h" then
    if 0 <? Count metric then
      [(Name metric +:+ ".avg",
        pmetric.DoubleValue (PrimFloat.div (Sum metric) (Int64ToFloat64 (Count metric))),
        attrs);
       (Name metric +:+ ".min", pmetric.DoubleValue (Min metric), attrs);
       (Name metric +:+ ".max", pmetric.DoubleValue (Max metric), attrs)]
    else []
  else [].

(** The handle returned, the error ([nil]) and the scraper. *)
Definition Scrape (s : StatsDScraper) : M (nat * option error * StatsDScraper) :=
  cells <- rangeMap (metrics s) ;;
  forEach cells (fun '(_, metric) => emitCell (mb s) metric) ;;
  log DebugLevel "Scraped StatsD metrics"
    [zInt "metric_count" (Z.of_nat (size (metrics s)))] ;;
  handle <- Builder.Emit (mb s) ;;
  ret (handle, None, s).
End Aggregator.

(** The scraper after the listener has read the datagrams, from a new
    scraper in an empty world. *)
Definition fed `{Platform} `{Surroundings} (datagrams : list string) : StatsDScraper :=
  valueOf ((s <- NewStatsDScraper ;; listen datagrams s) emptyWorld).

(** The sum the specification asks of a counter cell: [value / sampleRate]
    over the lines, in order. *)
Definition scaledSum (lines : list StatsDMetric) : float :=
  fold_left (fun acc line => PrimFloat.add acc (PrimFloat.div (Value line) (SampleRate line)))
    lines 0%float.

End StatsD.

(** ** Incremental log adapter ([LogsBuilder], [LogScraper]) *)

Module Logs.

(** Severity numbers of [plog]. *)
Definition SeverityNumberInfo : Z := 9.
Definition SeverityNumberWarn : Z := 13.
Definition SeverityNumberError : Z := 17.

Record LogRecord : Type := mkLogRecord {
  Timestamp : Z;
  ObservedTimestamp : Z;
  SeverityNumber : Z;
  SeverityText : string;
  Body : option string;
  Attributes : gmap string string
}.

(** The content of a [plog.Logs] made by the builder: one resource, one
    scope, the records. *)
Record PLogs : Type := mkPLogs {
  resourceAttributes : gmap string string;
  scopeName : string;
  scopeVersion : string;
  logRecords : list LogRecord
}.

Record LogsBuilder : Type := mkLogsBuilder { logs : PLogs }.

Definition NewLogsBuilder : LogsBuilder :=
  {| logs :=
       {| resourceAttributes :=
            <["airflow.component" := "event_logs"]> (<["service.name" := "airflow"]> ∅);
          scopeName := "github.com/npcomplete777/airflowreceiver/log_scraper";
          scopeVersion := "0.0.1";
          logRecords := [] |} |}.

Definition getSeverityFromEvent (event : string) : Z :=
  if String.eqb event "failed" || String.eqb event "failed_task" then SeverityNumberError
  else if String.eqb event "success" || String.eqb event "success_task" then SeverityNumberInfo
  else if String.eqb event "running" then SeverityNumberInfo
  else if String.eqb event "skipped" then SeverityNumberWarn
  else if String.eqb event "up_for_retry" || String.eqb event "retry" then SeverityNumberWarn
  else if String.eqb event "up_for_reschedule" then SeverityNumberInfo
  else SeverityNumberInfo.

Definition getSeverityText (severity : Z) : string :=
  if severity =? SeverityNumberError then "ERROR"
  else if severity =? SeverityNumberWarn then "WARN"
  else if severity =? SeverityNumberInfo then "INFO"
  else "INFO".

(** A JSON value as the scraper looks at it: a string or something else. *)
Inductive JsonValue : Type :=
| JString (s : string)
| JOther.

(** [json.Unmarshal] into a [map[string]interface{}] ([None] when it
    fails). *)
Class Codec : Type := {
  Unmarshal : string -> option (gmap string JsonValue)
}.

(** A row of the [log] table; [None] is SQL [NULL]. *)
Record Row : Type := mkRow {
  id : Z;
  dttm : option Time;
  dag_id : option string;
  task_id : option string;
  event : option string;
  execution_date : option Time;
  owner : option string;
  extra : option string
}.

(** The database at the time of a scrape: the table, whether the query is
    refused, and whether the iteration breaks off with an error after
    some rows of the answer. *)
Record Database : Type := mkDatabase {
  table : list Row;
  refused : option error;
  broken : option (nat * error)
}.

Fixpoint insertRow (r : Row) (l : list Row) : list Row :=
  match l with
  | [] => [r]
  | r' :: l' => if id r <=? id r' then r :: l else r' :: insertRow r l'
  end.

Definition orderById (l : list Row) : list Row := foldr insertRow [] l.

(** [SELECT ... FROM log WHERE id > $1 ORDER BY id ASC LIMIT 1000]. *)
Definition selectLogs (table : list Row) (arg : Z) : list Row :=
  firstn 1000 (orderById (List.filter (fun r => arg <? id r) table)).

(** The rows [rows.Next()] delivers and what [rows.Err()] returns after
    them. *)
Definition delivered (db : Database) (arg : Z) : list Row * option error :=
  match broken db with
  | Some (n, e) => (firstn n (selectLogs (table db) arg), Some e)
  | None => (selectLogs (table db) arg, None)
  end.

(** The values [rows.Scan] stores: a [NULL] goes into the [sql.Null...]
    destinations as their zero value; [dttm] is scanned into a plain
    [time.Time], which a [NULL] cannot be stored in. *)
Record Scanned : Type := mkScanned {
  sId : Z;
  sDttm : Time;
  sDagID : string;
  sTaskID : string;
  sEvent : string;
  sExecutionDate : Time;
  sOwner : string;
  sExtra : option string
}.

Definition Scan (r : Row) : error + Scanned :=
  match dttm r with
  | None => inl (errorString "sql: Scan error on column index 1: unsupported Scan, storing driver.Value type <nil> into type *time.Time")
  | Some t =>
      inr {| sId := id r; sDttm := t;
             sDagID := default "" (dag_id r);
             sTaskID := default "" (task_id r);
             sEvent := default "" (event r);
             sExecutionDate := default zeroTime (execution_date r);
             sOwner := default "" (owner r);
             sExtra := extra r |}
  end.

(** The order of the answer. *)
Definition byId (r1 r2 : Row) : Prop := id r1 <= id r2.

(** The row is one [rows.Scan] accepts. *)
Definition scans (r : Row) : bool :=
  match Scan r with
  | inr _ => true
  | inl _ => false
  end.

(** The highest of [w] and the ids of the rows that scan. *)
Definition highest (rows : list Row) (w : Z) : Z :=
  fold_left (fun w r => if scans r then Z.max w (id r) else w) rows w.

Record LogScraper : Type := mkLogScraper {
  lb : LogsBuilder;
  lastScrapedLogID : Z
}.

Definition NewLogScraper : LogScraper :=
  {| lb := NewLogsBuilder; lastScrapedLogID := 0 |}.

Section Adapter.
Context `{Platform} `{Codec} `{Surroundings}.

Definition putIf (cond : bool) (k v : string) (attrs : gmap string string)
    : gmap string string :=
  if cond then <[k := v]> attrs else attrs.

Definition nonEmpty (s : string) : bool := negb (String.eqb s "").

Definition RecordEventLog (timestamp : Time) (dagID taskID event owner : string)
    (executionDate : Time) (extra : gmap string string) (b : LogsBuilder)
    : M LogsBuilder :=
  now <- timeNow ;;
  let severity := getSeverityFromEvent event in
  let attrs :=
    putIf (nonEmpty owner) "owner" owner
      (putIf (negb (IsZero executionDate)) "execution.date" (FormatRFC3339 executionDate)
         (putIf (nonEmpty event) "airflow.event" event
            (putIf (nonEmpty taskID) "task.id" taskID
               (putIf (nonEmpty dagID) "dag.id" dagID
                  (<["airflow.log.source" := "database"]> ∅))))) in
  let attrs :=
    map_fold (fun key value attrs => <["extra." +:+ key := value]> attrs) attrs extra in
  let lr :=
    {| Timestamp := NewTimestampFromTime timestamp;
       ObservedTimestamp := NewTimestampFromTime now;
       SeverityNumber := severity;
       SeverityText := getSeverityText severity;
       Body := if nonEmpty event then Some ("Airflow event: " +:+ event) else None;
       Attributes := attrs |} in
  ret {| logs :=
           {| resourceAttributes := resourceAttributes (logs b);
              scopeName := scopeName (logs b);
              scopeVersion := scopeVersion (logs b);
              logRecords := logRecords (logs b) ++ [lr] |} |}.

Definition Emit (b : LogsBuilder) : PLogs := logs b.

(** The string-valued entries of the [extra] column. *)
Definition extraMapOf (extra : option string) : gmap string string :=
  match extra with
  | Some text =>
      if nonEmpty text then
        match Unmarshal text with
        | Some extraData =>
            omap (fun value => match value with JString s => Some s | JOther => None end)
              extraData
        | None => ∅
        end
      else ∅
  | None => ∅
  end.

(** The body of the [for rows.Next()] loop; the local [logCount] goes
    along with the scraper. *)
Definition scanRow (st : LogScraper * Z) (r : Row) : M (LogScraper * Z) :=
  let '(s, logCount) := st in
  match Scan r with
  | inl err => log WarnLevel "Failed to scan log row" [zError (Some err)] ;; ret (s, logCount)
  | inr v =>
      let extraMap := extraMapOf (sExtra v) in
      b <- RecordEventLog (sDttm v) (sDagID v) (sTaskID v) (sEvent v) (sOwner v)
             (sExecutionDate v) extraMap (lb s) ;;
      ret ({| lb := b;
              lastScrapedLogID :=
                if lastScrapedLogID s <? sId v then sId v else lastScrapedLogID s |},
           logCount + 1)
  end.

(** One scrape against the database as it is then: the logs returned, the
    error returned and the scraper afterwards. *)
Definition Scrape (db : Database) (s : LogScraper)
    : M (PLogs * option error * LogScraper) :=
  let s := {| lb := NewLogsBuilder; lastScrapedLogID := lastScrapedLogID s |} in
  match refused db with
  | Some err =>
      ret (Emit (lb s),
           Some (wrapError ("failed to query logs: " +:+ Error err) err), s)
  | None =>
      let '(rows, rowsErr) := delivered db (lastScrapedLogID s) in
      st <- foldM rows scanRow (s, 0) ;;
      let '(s, logCount) := st in
      match rowsErr with
      | Some err =>
          ret (Emit (lb s),
               Some (wrapError ("error iterating log rows: " +:+ Error err) err), s)
      | None =>
          log DebugLevel "Scraped event logs"
            [zInt "count" logCount; zInt64 "last_log_id" (lastScrapedLogID s)] ;;
          ret (Emit (lb s), None, s)
      end
  end.
End Adapter.

End Logs.

(** ** REST fan-out adapter ([RESTAPIScraper]) *)

Module REST.

(** The response types of the API, with the fields the scraper reads. *)
Module Tag.
Record t : Type := mk { Name : string }.
End Tag.

Module DAG.
Record t : Type := mk {
  DAGID : string;
  IsPaused : bool;
  Tags : list Tag.t
}.
End DAG.

Module DAGRun.
Record t : Type := mk {
  DAGID : string;
  DAGRunID : string;
  State : string;
  StartDate : Time;
  EndDate : Time;
  RunType : string;
  ExternalTrigger : bool
}.
End DAGRun.

Module TaskInstance.
Record t : Type := mk {
  TaskID : string;
  DAGID : string;
  DAGRunID : string;
  State : string;
  Duration : float;
  Pool : string;
  Queue : string;
  Operator : string;
  TryNumber : Z
}.
End TaskInstance.

Module Pool.
Record t : Type := mk {
  Name : string;
  Slots : Z;
  OccupiedSlots : Z;
  RunningSlots : Z;
  QueuedSlots : Z;
  OpenSlots : Z;
  DeferredSlots : Z;
  ScheduledSlots : Z;
  Description : string
}.
End Pool.

Module HealthResponse.
Record t : Type := mk {
  MetadatabaseStatus : string;
  SchedulerStatus : string;
  LatestSchedulerHeartbeat : Time
}.
End HealthResponse.

Module Connection.
Record t : Type := mk { ConnectionID : string; ConnType : string }.
End Connection.

(** [Variable] of the API; the name is a keyword here. *)
Module Variable'.
Record t : Type := mk { Key : string; Description : string }.
End Variable'.

Module ImportError.
Record t : Type := mk { ImportErrorID : Z; Filename : string }.
End ImportError.

Record RESTAPIConfig : Type := mkRESTAPIConfig {
  Endpoint : string;
  Username : string;
  Password : string;
  CollectionInterval : Duration;
  IncludePastRuns : bool;
  PastRunsLookback : Duration
}.

Record RESTAPIScraper : Type := mkRESTAPIScraper {
  cfg : RESTAPIConfig;
  mb : Builder.MetricsBuilder;
  retryConfig : Retry.RetryConfig;
  health : Health.ScraperHealth
}.

(** What [client.Do] hands back when it returns no error: the status code
    and what [io.ReadAll] makes of the body. *)
Record Response : Type := mkResponse {
  StatusCode : Z;
  Body : string;
  ReadError : option error
}.

(** The network: whether [http.NewRequestWithContext] rejects a URL, and
    what [client.Do] returns for a URL after the requests sent before. *)
Class Network : Type := {
  NewRequest : string -> option error;
  Do : list string -> string -> error + Response
}.

(** [json.Unmarshal] into each of the response types. *)
Class Decoder : Type := {
  decodeDAGs : string -> error + list DAG.t;
  decodeDAGRuns : string -> error + list DAGRun.t;
  decodeTaskInstances : string -> error + list TaskInstance.t;
  decodePools : string -> error + list Pool.t;
  decodeHealth : string -> error + HealthResponse.t;
  decodeConnections : string -> error + list Connection.t;
  decodeVariables : string -> error + list Variable'.t;
  decodeImportErrors : string -> error + list ImportError.t
}.

Definition setHealth (h : Health.ScraperHealth) (s : RESTAPIScraper) : RESTAPIScraper :=
  {| cfg := cfg s; mb := mb s; retryConfig := retryConfig s; health := h |}.

(** The run has a correlation identifier. *)
Definition identified (run : DAGRun.t) : bool := negb (String.eqb (DAGRun.DAGRunID run) "").

(** The warning written for a run without one. *)
Definition isSkipWarning (ev : Event) : bool :=
  match ev with
  | Logged e => String.eqb (message e) "Empty dag_run_id, skipping"
  | _ => false
  end.

(** [exceptWarnings evs1 evs2]: the events [evs2] are the events [evs1]
    without some of the warnings for runs without identifier. *)
Inductive exceptWarnings : list Event -> list Event -> Prop :=
| exceptWarnings_nil : exceptWarnings [] []
| exceptWarnings_keep (ev : Event) (evs1 evs2 : list Event) :
    exceptWarnings evs1 evs2 -> exceptWarnings (ev :: evs1) (ev :: evs2)
| exceptWarnings_drop (ev : Event) (evs1 evs2 : list Event) :
    isSkipWarning ev = true -> exceptWarnings evs1 evs2 -> exceptWarnings (ev :: evs1) evs2.

(** Two runs of computations that end with the same value in the same
    world, the second without some of those warnings of the first. *)
Definition alike {A : Type} (r1 r2 : A * World * list Event) : Prop :=
  valueOf r1 = valueOf r2 /\ worldOf r1 = worldOf r2 /\
  exceptWarnings (eventsOf r1) (eventsOf r2).

(** The decoder that drops the runs without identifier from the lists of
    runs [d] decodes. *)
Definition identifiedOnly (d : Decoder) : Decoder :=
  {| decodeDAGs := @decodeDAGs d;
     decodeDAGRuns := fun body =>
       match @decodeDAGRuns d body with
       | inl err => inl err
       | inr dagRuns => inr (List.filter identified dagRuns)
       end;
     decodeTaskInstances := @decodeTaskInstances d;
     decodePools := @decodePools d;
     decodeHealth := @decodeHealth d;
     decodeConnections := @decodeConnections d;
     decodeVariables := @decodeVariables d;
     decodeImportErrors := @decodeImportErrors d |}.

(** [m[k]++] on a [map[string]int64]. *)
Definition increment (k : string) (m : gmap string Z) : gmap string Z :=
  <[k := wrap64 (default 0 (m !! k) + 1)]> m.

Section Scraper.
Context `{Platform} `{Surroundings} `{Network} `{Decoder} `{Builder.HealthRecorders}.

Definition NewRESTAPIScraper (cfg : RESTAPIConfig) : M RESTAPIScraper :=
  b <- Builder.NewMetricsBuilder ;;
  ret {| cfg := cfg; mb := b; retryConfig := Retry.DefaultRetryConfig;
         health := Health.NewScraperHealth "rest_api" |}.

(** The closure [doRequest] hands to the retry executor; [body] is the
    variable it has captured. *)
Definition request (url : string) (body : string) (w : World)
    : option error * string * World :=
  match NewRequest url with
  | Some err => (Some err, body, w)
  | None =>
      let w' := {| heap := heap w; ticks := ticks w; selects := selects w;
                   ranges := ranges w; requests := requests w ++ [url] |} in
      match Do (requests w) url with
      | inl err => (Some err, body, w')
      | inr resp =>
          if negb (StatusCode resp =? 200) then
            if (StatusCode resp =? 401) || (StatusCode resp =? 403) then
              (Some (errorString ("authentication failed: status code "
                                  +:+ itoa (StatusCode resp))), "", w')
            else
              (Some (errorString ("unexpected status code: "
                                  +:+ itoa (StatusCode resp))), body, w')
          else (ReadError resp, Body resp, w')
      end
  end.

Definition doRequest (s : RESTAPIScraper) (path : string) : M (string * option error) :=
  let url := Endpoint (cfg s) +:+ path in
  r <- retryM (retryConfig s) ("GET " +:+ path) (request url) "" ;;
  ret (snd r, fst r).

(** [doRequest] followed by [json.Unmarshal]. *)
Definition fetch {A : Type} (decode : string -> error + A) (s : RESTAPIScraper)
    (path : string) : M (error + A) :=
  r <- doRequest s path ;;
  match snd r with
  | Some err => ret (inl err)
  | None => ret (decode (fst r))
  end.

Definition getDags (s : RESTAPIScraper) : M (error + list DAG.t) :=
  fetch decodeDAGs s "/api/v1/dags".

Definition getDAGRuns (s : RESTAPIScraper) (dagID : string)
    : M (error + list DAGRun.t) :=
  let path := "/api/v1/dags/" +:+ dagID +:+ "/dagRuns?limit=100" in
  path <- (if IncludePastRuns (cfg s) then
             now <- timeNow ;;
             let startDate := now + wrap64 (- PastRunsLookback (cfg s)) in
             ret (path +:+ "&start_date_gte=" +:+ FormatRFC3339 startDate)
           else ret path) ;;
  fetch decodeDAGRuns s path.

Definition getTaskInstances (s : RESTAPIScraper) (dagID dagRunID : string)
    : M (error + list TaskInstance.t) :=
  fetch decodeTaskInstances s
    ("/api/v1/dags/" +:+ dagID +:+ "/dagRuns/" +:+ dagRunID +:+ "/taskInstances").

Definition getPools (s : RESTAPIScraper) : M (error + list Pool.t) :=
  fetch decodePools s "/api/v1/pools".

Definition getHealth (s : RESTAPIScraper) : M (error + HealthResponse.t) :=
  fetch decodeHealth s "/api/v1/health".

Definition getConnections (s : RESTAPIScraper) : M (error + list Connection.t) :=
  fetch decodeConnections s "/api/v1/connections?limit=100".

Definition getVariables (s : RESTAPIScraper) : M (error + list Variable'.t) :=
  fetch decodeVariables s "/api/v1/variables?limit=100".

Definition getImportErrors (s : RESTAPIScraper) : M (error + list ImportError.t) :=
  fetch decodeImportErrors s "/api/v1/importErrors?limit=100".

Definition scrapeHealthMetrics (s : RESTAPIScraper) (ts : Z) : M unit :=
  r <- getHealth s ;;
  match r with
  | inl err => log WarnLevel "Failed to get health" [zError (Some err)]
  | inr health =>
      now <- timeNow ;;
      Builder.RecordSchedulerHealth (mb s) (HealthResponse.SchedulerStatus health) now ;;
      now <- timeNow ;;
      Builder.RecordDatabaseHealth (mb s) (HealthResponse.MetadatabaseStatus health) now ;;
      if negb (IsZero (HealthResponse.LatestSchedulerHeartbeat health)) then
        now <- timeNow ;;
        let heartbeatAge :=
          Seconds (Sub now (HealthResponse.LatestSchedulerHeartbeat health)) in
        now <- timeNow ;;
        Builder.RecordSchedulerHeartbeatAge (mb s) heartbeatAge now
      else ret tt
  end.
(** The body of the first loop over the runs of a DAG; [runsByState] is
    the local map. *)
Definition tallyRun (s : RESTAPIScraper) (ts : Z) (runsByState : gmap string Z)
    (run : DAGRun.t) : M (gmap string Z) :=
  if String.eqb (DAGRun.DAGRunID run) "" then
    log WarnLevel "Empty dag_run_id, skipping"
      [zString "dag_id" (DAGRun.DAGID run); zString "state" (DAGRun.State run)] ;;
    ret runsByState
  else
    let runsByState := increment (DAGRun.State run) runsByState in
    (if (String.eqb (DAGRun.State run) "success" || String.eqb (DAGRun.State run) "failed")
        && negb (IsZero (DAGRun.EndDate run)) && negb (IsZero (DAGRun.StartDate run))
     then
       let duration := Seconds (Sub (DAGRun.EndDate run) (DAGRun.StartDate run)) in
       if PrimFloat.ltb 0%float duration then
         Builder.RecordDAGRunDurationWithDimensions (mb s) duration (DAGRun.DAGID run)
           (DAGRun.DAGRunID run) (DAGRun.RunType run) (DAGRun.State run)
           (DAGRun.ExternalTrigger run) ts
       else ret tt
     else ret tt) ;;
    ret runsByState.

(** The body of the loop over the task instances of a run. *)
Definition tallyTask (s : RESTAPIScraper) (ts : Z) (tasksByState : gmap string Z)
    (task : TaskInstance.t) : M (gmap string Z) :=
  let tasksByState := increment (TaskInstance.State task) tasksByState in
  (if PrimFloat.ltb 0%float (TaskInstance.Duration task)
      && negb (String.eqb (TaskInstance.TaskID task) "")
      && negb (String.eqb (TaskInstance.DAGRunID task) "")
   then
     Builder.RecordTaskInstanceDurationWithDimensions (mb s)
       (TaskInstance.Duration task) (TaskInstance.DAGID task)
       (TaskInstance.TaskID task) (TaskInstance.DAGRunID task)
       (TaskInstance.State task) (TaskInstance.Operator task)
       (TaskInstance.Pool task) (TaskInstance.Queue task)
       (TaskInstance.TryNumber task) ts
   else ret tt) ;;
  ret tasksByState.

(** The body of the second loop over the runs of a DAG. *)
Definition scrapeTasks (s : RESTAPIScraper) (ts : Z) (dag : DAG.t) (run : DAGRun.t)
    : M unit :=
  if String.eqb (DAGRun.DAGRunID run) "" then ret tt
  else
    wanted <- (if String.eqb (DAGRun.State run) "running" then ret true
               else now <- timeNow ;;
                    ret (Sub now (DAGRun.StartDate run) <? 5 * Minute)) ;;
    if wanted : bool then
      r <- getTaskInstances s (DAG.DAGID dag) (DAGRun.DAGRunID run) ;;
      match r with
      | inl _ => ret tt
      | inr tasks =>
          tasksByState <- foldM tasks (tallyTask s ts) ∅ ;;
          entries <- rangeMap tasksByState ;;
          forEach entries
            (fun '(state, count) =>
               now <- timeNow ;;
               Builder.RecordTaskInstancesByState (mb s) count (DAG.DAGID dag) state now)
      end
    else ret tt.

(** What the loop over the DAGs does with the runs of one DAG. *)
Definition scrapeRuns (s : RESTAPIScraper) (ts : Z) (dag : DAG.t)
    (dagRuns : list DAGRun.t) : M unit :=
  runsByState <- foldM dagRuns (tallyRun s ts) ∅ ;;
  entries <- rangeMap runsByState ;;
  forEach entries
    (fun '(state, count) =>
       now <- timeNow ;;
       Builder.RecordDAGRunsByState (mb s) count (DAG.DAGID dag) state now) ;;
  forEach dagRuns (scrapeTasks s ts dag).

Definition scrapeDAGMetrics (s : RESTAPIScraper) (ts : Z) : M unit :=
  r <- getDags s ;;
  match r with
  | inl err => log ErrorLevel "Failed to get DAGs" [zError (Some err)]
  | inr dags =>
      log InfoLevel "Scraping comprehensive DAG metrics"
        [zInt "dag_count" (Z.of_nat (length dags))] ;;
      counts <-
        foldM dags
          (fun '(pausedCount, activeCount) dag =>
             now <- timeNow ;;
             Builder.RecordDAGWithTags (mb s) 1 (DAG.DAGID dag)
               (List.map Tag.Name (DAG.Tags dag)) (DAG.IsPaused dag) now ;;
             ret (if DAG.IsPaused dag then (wrap64 (pausedCount + 1), activeCount)
                  else (pausedCount, wrap64 (activeCount + 1))))
          (0, 0) ;;
      now <- timeNow ;;
      Builder.RecordDAGCount (mb s) (fst counts) "paused" now ;;
      now <- timeNow ;;
      Builder.RecordDAGCount (mb s) (snd counts) "active" now ;;
      forEach dags
        (fun dag =>
           r <- getDAGRuns s (DAG.DAGID dag) ;;
           match r with
           | inl _ => ret tt
           | inr dagRuns => scrapeRuns s ts dag dagRuns
           end)
  end.

Definition recordEnhancedPoolMetrics (s : RESTAPIScraper) (pools : list Pool.t) (ts : Z)
    : M unit :=
  forEach pools
    (fun pool =>
       if String.eqb (Pool.Name pool) "" then ret tt
       else
         Builder.RecordPoolSlotsOpen (mb s) (Pool.OpenSlots pool) (Pool.Name pool) ts ;;
         Builder.RecordPoolSlotsUsed (mb s) (Pool.OccupiedSlots pool) (Pool.Name pool) ts ;;
         now <- timeNow ;;
         Builder.RecordPoolQueuedSlots (mb s) (Pool.QueuedSlots pool) (Pool.Name pool) now ;;
         now <- timeNow ;;
         Builder.RecordPoolRunningSlots (mb s) (Pool.RunningSlots pool) (Pool.Name pool) now ;;
         now <- timeNow ;;
         Builder.RecordPoolTotalSlots (mb s) (Pool.Slots pool) (Pool.Name pool)
           (Pool.Description pool) now ;;
         now <- timeNow ;;
         Builder.RecordPoolDeferredSlots (mb s) (Pool.DeferredSlots pool)
           (Pool.Name pool) now ;;
         now <- timeNow ;;
         Builder.RecordPoolScheduledSlots (mb s) (Pool.ScheduledSlots pool)
           (Pool.Name pool) now).

Definition scrapeConnectionMetrics (s : RESTAPIScraper) (ts : Z) : M unit :=
  r <- getConnections s ;;
  match r with
  | inl err => log WarnLevel "Failed to get connections" [zError (Some err)]
  | inr connections =>
      let connByType :=
        fold_left
          (fun connByType conn =>
             if String.eqb (Connection.ConnType conn) "" then connByType
             else increment (Connection.ConnType conn) connByType)
          connections ∅ in
      entries <- rangeMap connByType ;;
      forEach entries
        (fun '(connType, count) =>
           now <- timeNow ;;
           Builder.RecordConnectionCount (mb s) count connType now)
  end.

Definition scrapeConfigMetrics (s : RESTAPIScraper) (ts : Z) : M unit :=
  r <- getVariables s ;;
  (match r with
   | inr variables =>
       now <- timeNow ;;
       Builder.RecordVariableCount (mb s) (Z.of_nat (length variables)) now
   | inl _ => ret tt
   end) ;;
  r <- getImportErrors s ;;
  match r with
  | inr importErrors =>
      now <- timeNow ;;
      Builder.RecordImportErrorCount (mb s) (Z.of_nat (length importErrors)) now
  | inl _ => ret tt
  end.

Definition scrapeComprehensive (s : RESTAPIScraper) (now : Time) : M unit :=
  let ts := NewTimestampFromTime now in
  scrapeHealthMetrics s ts ;;
  scrapeDAGMetrics s ts ;;
  r <- getPools s ;;
  (match r with
   | inr pools => recordEnhancedPoolMetrics s pools ts
   | inl _ => ret tt
   end) ;;
  scrapeConnectionMetrics s ts ;;
  scrapeConfigMetrics s ts.

(** The handle returned, the error returned and the scraper afterwards. *)
Definition Scrape (s : RESTAPIScraper) : M (nat * option error * RESTAPIScraper) :=
  r <- Health.WithScrapeTracking (health s)
         (now <- timeNow ;;
          scrapeComprehensive s now ;;
          handle <- Builder.Emit (mb s) ;;
          ret (handle, None)) ;;
  let '(metrics, err, h) := r in
  now <- timeNow ;;
  Health.EmitMetrics h (mb s) now ;;
  ret (metrics, err, setHealth h s).
End Scraper.

End REST.

(** ** SQL aggregation adapter ([DatabaseScraper]) *)

Module Database.

Module TaskInstanceStats.
Record t : Type := mk {
  DAGID : string;
  TaskID : string;
  State : string;
  Operator : string;
  Pool : string;
  Queue : string;
  Count : Z;
  AvgDuration : float;
  MaxDuration : float;
  MinDuration : float
}.
End TaskInstanceStats.

Module DAGRunStats.
Record t : Type := mk {
  DAGID : string;
  State : string;
  Count : Z;
  AvgDuration : float;
  MaxDuration : float
}.
End DAGRunStats.

Record SchedulerMetrics : Type := mkSchedulerMetrics {
  ScheduledTasks : Z;
  QueuedTasks : Z;
  RunningTasks : Z;
  SuccessTasks24h : Z;
  FailedTasks24h : Z;
  OrphanedTasks : Z
}.

(** The answer to a query that was not refused: for each row what
    [rows.Scan] makes of it, and what [rows.Err()] returns after the
    rows. *)
Definition Rows (A : Type) : Type := list (error + A) * option error.

(** The database: what each of the four queries returns after the queries
    sent before (a query is listed in [requests] by the table it reads). *)
Class SqlServer : Type := {
  queryTaskInstances : list string -> error + Rows TaskInstanceStats.t;
  queryDAGRuns : list string -> error + Rows DAGRunStats.t;
  querySchedulerMetrics : list string -> error + SchedulerMetrics;
  querySLAMisses : list string -> error + Rows (string * Z)
}.

(** A scraper whose [Start] has set [db]; the queries of [Scrape] go to
    it. *)
Record DatabaseScraper : Type := mkDatabaseScraper {
  mb : Builder.MetricsBuilder;
  retryConfig : Retry.RetryConfig
}.

Section Scraper.
Context `{Platform} `{Surroundings} `{SqlServer}.

Definition NewDatabaseScraper : M DatabaseScraper :=
  b <- Builder.NewMetricsBuilder ;;
  ret {| mb := b; retryConfig := Retry.DefaultRetryConfig |}.

(** The closure around [s.db.QueryContext]; [rows] is the variable it
    has captured. *)
Definition query {A : Type} (name : string) (server : list string -> error + Rows A)
    (rows : option (Rows A)) (w : World) : option error * option (Rows A) * World :=
  let w' := {| heap := heap w; ticks := ticks w; selects := selects w;
               ranges := ranges w; requests := requests w ++ [name] |} in
  match server (requests w) with
  | inl err => (Some err, None, w')
  | inr r => (None, Some r, w')
  end.

(** What [scrapeTaskInstanceStats] and [scrapeDAGRunStats] have in common:
    the query under the retry executor, then the loop over its rows, [body]
    for every row that scans, and [done] with the number of those rows.
    The error returned.  The executor returns [nil] only after a call that
    has set [rows], unless the policy allows no attempt at all; the
    default policy of the scraper allows three. *)
Definition scrapeRows {A : Type} (s : DatabaseScraper) (operation name : string)
    (server : list string -> error + Rows A) (body : A -> M unit)
    (done : Z -> M unit) : M (option error) :=
  r <- retryM (retryConfig s) operation (query name server) None ;;
  match r with
  | (Some err, _) => ret (Some err)
  | (None, None) => ret None
  | (None, Some (rows, rowsErr)) =>
      count <-
        foldM rows
          (fun count row =>
             match row with
             | inl _ => ret count
             | inr stats => body stats ;; ret (count + 1)
             end)
          0 ;;
      done count ;;
      ret rowsErr
  end.

Definition scrapeTaskInstanceStats (s : DatabaseScraper) (ts : Z) : M (option error) :=
  scrapeRows s "query task instances" "task_instance" queryTaskInstances
    (fun stats =>
       now <- timeNow ;;
       Builder.RecordTaskInstanceCountDB (mb s) (TaskInstanceStats.Count stats) (TaskInstanceStats.DAGID stats)
         (TaskInstanceStats.TaskID stats) (TaskInstanceStats.State stats) (TaskInstanceStats.Operator stats) (TaskInstanceStats.Pool stats) now ;;
       if PrimFloat.ltb 0%float (TaskInstanceStats.AvgDuration stats) then
         now <- timeNow ;;
         Builder.RecordTaskInstanceAvgDuration (mb s) (TaskInstanceStats.AvgDuration stats)
           (TaskInstanceStats.DAGID stats) (TaskInstanceStats.TaskID stats) (TaskInstanceStats.State stats) now ;;
         now <- timeNow ;;
         Builder.RecordTaskInstanceMaxDuration (mb s) (TaskInstanceStats.MaxDuration stats)
           (TaskInstanceStats.DAGID stats) (TaskInstanceStats.TaskID stats) (TaskInstanceStats.State stats) now
       else ret tt)
    (fun count =>
       log InfoLevel "Scraped task instance stats from DB" [zInt "records" count]).

Definition scrapeDAGRunStats (s : DatabaseScraper) (ts : Z) : M (option error) :=
  scrapeRows s "query dag runs" "dag_run" queryDAGRuns
    (fun stats =>
       now <- timeNow ;;
       Builder.RecordDAGRunCountDB (mb s) (DAGRunStats.Count stats) (DAGRunStats.DAGID stats)
         (DAGRunStats.State stats) now ;;
       if PrimFloat.ltb 0%float (DAGRunStats.AvgDuration stats) then
         now <- timeNow ;;
         Builder.RecordDAGRunAvgDuration (mb s) (DAGRunStats.AvgDuration stats)
           (DAGRunStats.DAGID stats) (DAGRunStats.State stats) now
       else ret tt)
    (fun count =>
       log InfoLevel "Scraped DAG run stats from DB" [zInt "records" count]).

Definition zeroSchedulerMetrics : SchedulerMetrics :=
  {| ScheduledTasks := 0; QueuedTasks := 0; RunningTasks := 0;
     SuccessTasks24h := 0; FailedTasks24h := 0; OrphanedTasks := 0 |}.

Definition scrapeSchedulerMetrics (s : DatabaseScraper) (ts : Z) : M (option error) :=
  r <- retryM (retryConfig s) "query scheduler metrics"
         (fun (metrics : SchedulerMetrics) w =>
            let w' := {| heap := heap w; ticks := ticks w; selects := selects w;
                         ranges := ranges w;
                         requests := requests w ++ ["scheduler"] |} in
            match querySchedulerMetrics (requests w) with
            | inl err => (Some err, metrics, w')
            | inr scanned => (None, scanned, w')
            end)
         zeroSchedulerMetrics ;;
  match r with
  | (Some err, _) => ret (Some err)
  | (None, metrics) =>
      now <- timeNow ;;
      Builder.RecordSchedulerTasksScheduled (mb s) (ScheduledTasks metrics) now ;;
      now <- timeNow ;;
      Builder.RecordSchedulerTasksQueued (mb s) (QueuedTasks metrics) now ;;
      now <- timeNow ;;
      Builder.RecordSchedulerTasksRunning (mb s) (RunningTasks metrics) now ;;
      now <- timeNow ;;
      Builder.RecordSchedulerTasksSuccess24h (mb s) (SuccessTasks24h metrics) now ;;
      now <- timeNow ;;
      Builder.RecordSchedulerTasksFailed24h (mb s) (FailedTasks24h metrics) now ;;
      now <- timeNow ;;
      Builder.RecordSchedulerTasksOrphaned (mb s) (OrphanedTasks metrics) now ;;
      log InfoLevel "Scraped scheduler metrics from DB"
        [zInt64 "queued" (QueuedTasks metrics); zInt64 "running" (RunningTasks metrics)] ;;
      ret None
  end.

Definition scrapeSLAMisses (s : DatabaseScraper) (ts : Z) : M (option error) :=
  r <- retryM (retryConfig s) "query SLA misses" (query "sla_miss" querySLAMisses) None ;;
  match r with
  | (Some err, _) => ret (Some err)
  | (None, None) => ret None
  | (None, Some (rows, rowsErr)) =>
      totalMisses <-
        foldM rows
          (fun totalMisses row =>
             match row with
             | inl _ => ret totalMisses
             | inr (dagID, count) =>
                 now <- timeNow ;;
                 Builder.RecordSLAMissCount (mb s) count dagID now ;;
                 ret (wrap64 (totalMisses + count))
             end)
          0 ;;
      (if 0 <? totalMisses then
         log WarnLevel "SLA misses detected" [zInt64 "total" totalMisses]
       else ret tt) ;;
      ret rowsErr
  end.

Definition warnIfFailed (msg : string) (err : option error) : M unit :=
  match err with
  | Some _ => log WarnLevel msg [zError err]
  | None => ret tt
  end.

(** The handle and the error returned. *)
Definition Scrape (s : DatabaseScraper) : M (nat * option error) :=
  t <- timeNow ;;
  let now := NewTimestampFromTime t in
  err <- scrapeTaskInstanceStats s now ;;
  warnIfFailed "Failed to scrape task instance stats" err ;;
  err <- scrapeDAGRunStats s now ;;
  warnIfFailed "Failed to scrape DAG run stats" err ;;
  err <- scrapeSchedulerMetrics s now ;;
  warnIfFailed "Failed to scrape scheduler metrics" err ;;
  err <- scrapeSLAMisses s now ;;
  warnIfFailed "Failed to scrape SLA misses" err ;;
  handle <- Builder.Emit (mb s) ;;
  ret (handle, None).
End Scraper.

End Database.

(** ** What a computation does to the collection of a builder *)

(** Whatever a handle showed before, it still shows afterwards, in the same
    order and before anything new. *)
Definition Grows {A : Type} (m : M A) : Prop :=
  forall (w : World) (a : nat),
    Builder.content a w `prefix_of` Builder.content a (worldOf (m w)).

(** The computation appends to the collection of the builder [b] metrics
    with the readings [rs], in this order, and nothing else. *)
Definition Appends {A : Type} (b : Builder.MetricsBuilder) (m : M A)
    (rs : list (string * pmetric.Number * gmap string pmetric.AttrValue)) : Prop :=
  forall w : World,
    Builder.ready b w = true ->
    Builder.ready b (worldOf (m w)) = true /\
    exists news : list pmetric.Metric,
      Builder.content (Builder.metrics b) (worldOf (m w)) =
        Builder.content (Builder.metrics b) w ++ news /\
      List.map pmetric.reading news = rs.

(** ** A platform and surroundings to compute with *)

Module Reference.

(** [x] to the power [n] by repeated multiplication: what [math.Pow]
    returns for a small whole exponent [n >= 0] whenever the power is a
    binary64 value, as the powers of 2.0 are. *)
Fixpoint powNat (x : float) (n : nat) : float :=
  match n with
  | O => 1%float
  | S n' => PrimFloat.mul x (powNat x n')
  end.

Definition pow (x y : float) : float := powNat x (Z.to_nat (Float64ToInt64 y)).

Definition digit (c : ascii) : option Z :=
  let n := Z.of_nat (nat_of_ascii c) in
  if (48 <=? n) && (n <=? 57) then Some (n - 48) else None.

(** The number written by a string of decimal digits, after [acc]. *)
Fixpoint digits (s : string) (acc : Z) : option Z :=
  match s with
  | EmptyString => Some acc
  | String c s' =>
      match digit c with
      | Some d => digits s' (10 * acc + d)
      | None => None
      end
  end.

(** [strconv.ParseFloat] on plain decimal literals, sign, digits, point,
    digits, with less than 2^53 as the number the digits write and at
    most 22 digits after the point: both the number and the power of ten
    are binary64 values, and their quotient, rounded once, is the nearest
    binary64 value, the one ParseFloat returns.  Everything else (exponents,
    hexadecimal, infinities, longer literals) is outside this instance,
    which answers [None]. *)
Definition parseDecimal (s : string) : option float :=
  let '(negative, body) :=
    match s with
    | String "-" s' => (true, s')
    | String "+" s' => (false, s')
    | _ => (false, s)
    end in
  let '(whole, frac) :=
    match Strings.SplitN2 "." body with
    | [whole; frac] => (whole, frac)
    | _ => (body, "")
    end in
  if String.eqb (whole +:+ frac) "" then None
  else
    match digits (whole +:+ frac) 0 with
    | Some n =>
        if (n <? 2 ^ 53) && (Z.of_nat (String.length frac) <=? 22) then
          let f := PrimFloat.div (Int64ToFloat64 n)
                     (Int64ToFloat64 (10 ^ Z.of_nat (String.length frac))) in
          Some (if negative then PrimFloat.opp f else f)
        else None
    | None => None
    end.

Definition isSpace (c : ascii) : bool :=
  let n := nat_of_ascii c in
  ((9 <=? n) && (n <=? 13))%nat || (n =? 32)%nat.

Fixpoint trimLeft (s : string) : string :=
  match s with
  | String c s' => if isSpace c then trimLeft s' else s
  | EmptyString => EmptyString
  end.

Fixpoint trimRight (s : string) : string :=
  match s with
  | String c s' =>
      match trimRight s' with
      | EmptyString => if isSpace c then EmptyString else String c EmptyString
      | rest => String c rest
      end
  | EmptyString => EmptyString
  end.

(** [strings.TrimSpace] on ASCII text. *)
Definition trimSpace (s : string) : string := trimRight (trimLeft s).

(** The examples format no time; the instance prints the count of
    nanoseconds. *)
Definition platform : Platform :=
  {| Pow := pow; ParseFloat := parseDecimal; TrimSpace := trimSpace;
     FormatRFC3339 := itoa |}.

(** Surroundings in which no context is ever done, the clock advances by a
    millisecond per reading and every [range] follows the order of the
    keys. *)
Definition quiet : Surroundings :=
  {| wallclock := fun n => (Z.of_nat n + 1) * 1000000;
     ctxDone := fun _ => None;
     rangeRank := fun _ _ => 0 |}.

(** As [quiet], but the first [range] visits the key [env] first and the
    later ones visit the key [dc] first. *)
Definition shuffling : Surroundings :=
  {| wallclock := fun n => (Z.of_nat n + 1) * 1000000;
     ctxDone := fun _ => None;
     rangeRank := fun n k =>
       match n with
       | O => if String.eqb k "env" then 0 else 1
       | S _ => if String.eqb k "dc" then 0 else 1
       end |}.

(** A decoder that takes no text as JSON. *)
Definition noJson : Logs.Codec := {| Logs.Unmarshal := fun _ => None |}.

(** A [log] table with the rows 9, 5 and 7, stored in this order. *)
Definition threeRows : Logs.Database :=
  let row (n : Z) :=
    Logs.mkRow n (Some (n * 1000000)) (Some "etl") None (Some "running") None
      (Some "airflow") None in
  {| Logs.table := [row 9; row 5; row 7]; Logs.refused := None; Logs.broken := None |}.

(** A decoder for which every body is an empty list, or a health report
    without content. *)
Definition emptyLists : REST.Decoder :=
  {| REST.decodeDAGs := fun _ => inr [];
     REST.decodeDAGRuns := fun _ => inr [];
     REST.decodeTaskInstances := fun _ => inr [];
     REST.decodePools := fun _ => inr [];
     REST.decodeHealth := fun _ => inr (REST.HealthResponse.mk "" "" zeroTime);
     REST.decodeConnections := fun _ => inr [];
     REST.decodeVariables := fun _ => inr [];
     REST.decodeImportErrors := fun _ => inr [] |}.

(** Two finished runs of the DAG [etl], a second long each; the first has
    no identifier. *)
Definition twoRuns : list REST.DAGRun.t :=
  [REST.DAGRun.mk "etl" "" "success" 1000000000 2000000000 "scheduled" false;
   REST.DAGRun.mk "etl" "manual__1" "success" 1000000000 2000000000 "manual" true].

(** A server that answers every request with the given status and an empty
    body. *)
Definition answering (status : Z) : REST.Network :=
  {| REST.NewRequest := fun _ => None;
     REST.Do := fun _ _ => inr (REST.mkResponse status "" None) |}.

End Reference.

(** ** Logs receiver ([logsReceiver]) *)

Module Receiver.

(** The next consumer of the pipeline: what [ConsumeLogs] returns for the
    logs handed to it. *)
Class Consumer : Type := {
  ConsumeLogs : Logs.PLogs -> option error
}.

(** [logs.LogRecordCount()]. *)
Definition LogRecordCount (logs : Logs.PLogs) : Z :=
  Z.of_nat (length (Logs.logRecords logs)).

Section Poller.
Context `{Platform} `{Logs.Codec} `{Surroundings} `{Consumer}.

(** [scrapeLogs] against the database as it is at the tick: the logs
    handed to the consumer ([None] when it is not called) and the scraper
    afterwards. *)
Definition scrapeLogs (db : Logs.Database) (s : Logs.LogScraper)
    : M (option Logs.PLogs * Logs.LogScraper) :=
  r <- Logs.Scrape db s ;;
  let '(logs, err, s) := r in
  match err with
  | Some err =>
      log ErrorLevel "Failed to scrape logs" [zError (Some err)] ;;
      ret (None, s)
  | None =>
      if LogRecordCount logs =? 0 then ret (None, s)
      else
        match ConsumeLogs logs with
        | Some err =>
            log ErrorLevel "Failed to consume logs" [zError (Some err)] ;;
            ret (Some logs, s)
        | None => ret (Some logs, s)
        end
  end.

(** [poll] over the ticks of the ticker that come before the context is
    done; [dbs] lists the database as it is at each tick.  The logs handed
    to the consumer, oldest first, and the scraper afterwards. *)
Definition poll (dbs : list Logs.Database) (s : Logs.LogScraper)
    : M (list Logs.PLogs * Logs.LogScraper) :=
  st <- foldM dbs
          (fun '(handed, s) db =>
             r <- scrapeLogs db s ;;
             ret (handed ++ option_list (fst r), snd r))
          ([], s) ;;
  log InfoLevel "Stopping logs polling" [] ;;
  ret st.
End Poller.

End Receiver.

(** ** Database scraper behind its wrapper ([DatabaseScraperWrapper]) *)

Module Wrapper.

Record DatabaseConfig : Type := mkDatabaseConfig {
  Host : string;
  Port : Z;
  Database : string;
  Username : string;
  Password : string;
  SSLMode : string;
  CollectionInterval : Duration
}.

(** The driver: what [sql.Open] returns for a connection string, and what
    [db.PingContext] returns after the requests sent before (a ping is
    listed in [requests] as [ping]). *)
Class SqlDriver : Type := {
  Open : string -> option error;
  PingContext : list string -> option error
}.

Definition connStr (cfg : DatabaseConfig) : string :=
  "host=" +:+ Host cfg +:+ " port=" +:+ itoa (Port cfg) +:+ " user=" +:+ Username cfg
  +:+ " password=" +:+ Password cfg +:+ " dbname=" +:+ Database cfg
  +:+ " sslmode=" +:+ SSLMode cfg.

(** [once] tells whether [once.Do] has run its function. *)
Record DatabaseScraperWrapper : Type := mkDatabaseScraperWrapper {
  scraper : Database.DatabaseScraper;
  health : Health.ScraperHealth;
  once : bool;
  started : bool
}.

Definition NewDatabaseScraperWrapper (scraper : Database.DatabaseScraper)
    : DatabaseScraperWrapper :=
  {| scraper := scraper; health := Health.NewScraperHealth "database";
     once := false; started := false |}.

Section Wrapped.
Context `{Platform} `{Surroundings} `{Database.SqlServer} `{SqlDriver}
        `{Builder.HealthRecorders}.

(** The closure [Start] hands to the retry executor; the variable it has
    captured, [db], is kept as whether it is not [nil]. *)
Definition connect (cfg : DatabaseConfig) (db : bool) (w : World)
    : option error * bool * World :=
  match Open (connStr cfg) with
  | Some err =>
      (Some (wrapError ("failed to open database: " +:+ Error err) err), false, w)
  | None =>
      let w' := {| heap := heap w; ticks := ticks w; selects := selects w;
                   ranges := ranges w; requests := requests w ++ ["ping"] |} in
      match PingContext (requests w) with
      | Some err =>
          (Some (wrapError ("failed to ping database: " +:+ Error err) err), true, w')
      | None => (None, true, w')
      end
  end.

(** [DatabaseScraper.Start]: the error returned. *)
Definition Start (cfg : DatabaseConfig) (s : Database.DatabaseScraper)
    : M (option error) :=
  r <- retryM (Database.retryConfig s) "database connection" (connect cfg) false ;;
  match fst r with
  | Some err => ret (Some err)
  | None =>
      log InfoLevel "Connected to Airflow database"
        [zString "host" (Host cfg); zString "database" (Database cfg)] ;;
      ret None
  end.

(** [DatabaseScraperWrapper.Scrape]: the handle returned, the error
    returned and the wrapper afterwards. *)
Definition Scrape (cfg : DatabaseConfig) (x : DatabaseScraperWrapper)
    : M (nat * option error * DatabaseScraperWrapper) :=
  x <- (if once x then ret x
        else
          err <- Start cfg (scraper x) ;;
          match err with
          | Some e =>
              now <- timeNow ;;
              let '(h, evs) := Health.RecordScrape now 0 (Some e) (health x) in
              emit evs ;;
              log ErrorLevel "Failed to start database scraper" [zError (Some e)] ;;
              ret {| scraper := scraper x; health := h; once := true;
                     started := started x |}
          | None =>
              ret {| scraper := scraper x; health := health x; once := true;
                     started := true |}
          end) ;;
  if negb (started x) then
    metrics <- Builder.alloc [] ;;
    ret (metrics, None, x)
  else
    r <- Health.WithScrapeTracking (health x) (Database.Scrape (scraper x)) ;;
    let '(metrics, err, h) := r in
    now <- timeNow ;;
    Health.EmitMetrics h (Database.mb (scraper x)) now ;;
    ret (metrics, err,
         {| scraper := scraper x; health := h; once := once x; started := started x |}).
End Wrapped.

End Wrapper.

(** ** Configuration ([config.go]) *)

Module Config.

Module CollectionModes.
Record t : Type := mk {
  RESTAPI : bool;
  Database : bool;
  StatsD : bool;
  Logs : bool
}.
End CollectionModes.

Module RESTAPIConfig.
Record t : Type := mk {
  Endpoint : string;
  Username : string;
  Password : string;
  CollectionInterval : Duration;
  IncludePastRuns : bool;
  PastRunsLookback : Duration
}.
End RESTAPIConfig.

Module DatabaseConfig.
Record t : Type := mk {
  Host : string;
  Port : Z;
  Database : string;
  Username : string;
  Password : string;
  SSLMode : string;
  CollectionInterval : Duration;
  QueryTimeout : Duration
}.
End DatabaseConfig.

(** The histogram mappings of the StatsD section play no part in the
    validation and are left out. *)
Module StatsDConfig.
Record t : Type := mk {
  Endpoint : string;
  AggregationInterval : Duration;
  EnableMetricType : bool
}.
End StatsDConfig.

Module LogConfig.
Record t : Type := mk {
  Host : string;
  Port : Z;
  Database : string;
  Username : string;
  Password : string;
  SSLMode : string;
  CollectionInterval : Duration
}.
End LogConfig.

(** The sections are pointers: [None] is [nil]. *)
Record Config : Type := mkConfig {
  CollectionModes : CollectionModes.t;
  RESTAPIConfig : option RESTAPIConfig.t;
  DatabaseConfig : option DatabaseConfig.t;
  StatsDConfig : option StatsDConfig.t;
  LogConfig : option LogConfig.t
}.

Definition ErrNoEndpoint : error := errorString "endpoint must be specified".
Definition ErrNoMode : error :=
  errorString "at least one collection mode must be enabled".

(** [d] unless it is not positive. *)
Definition orDefault (d fallback : Duration) : Duration :=
  if d <=? 0 then fallback else d.

(** The four blocks of [Validate]: the error returned, if the block
    returns, and the configuration as the block leaves it. *)
Definition validateRESTAPI (cfg : Config) : option error * Config :=
  if CollectionModes.RESTAPI (CollectionModes cfg) then
    match RESTAPIConfig cfg with
    | None =>
        (Some (errorString "rest_api config required when rest_api mode enabled"), cfg)
    | Some r =>
        if String.eqb (RESTAPIConfig.Endpoint r) "" then
          (Some (wrapError ("rest_api: " +:+ Error ErrNoEndpoint) ErrNoEndpoint), cfg)
        else
          (None,
           {| CollectionModes := CollectionModes cfg;
              RESTAPIConfig :=
                Some {| RESTAPIConfig.Endpoint := RESTAPIConfig.Endpoint r;
                        RESTAPIConfig.Username := RESTAPIConfig.Username r;
                        RESTAPIConfig.Password := RESTAPIConfig.Password r;
                        RESTAPIConfig.CollectionInterval :=
                          orDefault (RESTAPIConfig.CollectionInterval r) (30 * Second);
                        RESTAPIConfig.IncludePastRuns := RESTAPIConfig.IncludePastRuns r;
                        RESTAPIConfig.PastRunsLookback := RESTAPIConfig.PastRunsLookback r |};
              DatabaseConfig := DatabaseConfig cfg;
              StatsDConfig := StatsDConfig cfg;
              LogConfig := LogConfig cfg |})
    end
  else (None, cfg).

Definition validateDatabase (cfg : Config) : option error * Config :=
  if CollectionModes.Database (CollectionModes cfg) then
    match DatabaseConfig cfg with
    | None =>
        (Some (errorString "database config required when database mode enabled"), cfg)
    | Some d =>
        if String.eqb (DatabaseConfig.Host d) "" then
          (Some (errorString "database host must be specified"), cfg)
        else
          (None,
           {| CollectionModes := CollectionModes cfg;
              RESTAPIConfig := RESTAPIConfig cfg;
              DatabaseConfig :=
                Some {| DatabaseConfig.Host := DatabaseConfig.Host d;
                        DatabaseConfig.Port :=
                          if DatabaseConfig.Port d =? 0 then 5432 else DatabaseConfig.Port d;
                        DatabaseConfig.Database := DatabaseConfig.Database d;
                        DatabaseConfig.Username := DatabaseConfig.Username d;
                        DatabaseConfig.Password := DatabaseConfig.Password d;
                        DatabaseConfig.SSLMode :=
                          if String.eqb (DatabaseConfig.SSLMode d) "" then "disable"
                          else DatabaseConfig.SSLMode d;
                        DatabaseConfig.CollectionInterval :=
                          orDefault (DatabaseConfig.CollectionInterval d) (30 * Second);
                        DatabaseConfig.QueryTimeout :=
                          orDefault (DatabaseConfig.QueryTimeout d) (15 * Second) |};
              StatsDConfig := StatsDConfig cfg;
              LogConfig := LogConfig cfg |})
    end
  else (None, cfg).

Definition validateStatsD (cfg : Config) : option error * Config :=
  if CollectionModes.StatsD (CollectionModes cfg) then
    match StatsDConfig cfg with
    | None =>
        (Some (errorString "statsd config required when statsd mode enabled"), cfg)
    | Some t =>
        (None,
         {| CollectionModes := CollectionModes cfg;
            RESTAPIConfig := RESTAPIConfig cfg;
            DatabaseConfig := DatabaseConfig cfg;
            StatsDConfig :=
              Some {| StatsDConfig.Endpoint := StatsDConfig.Endpoint t;
                      StatsDConfig.AggregationInterval :=
                        orDefault (StatsDConfig.AggregationInterval t) (60 * Second);
                      StatsDConfig.EnableMetricType := StatsDConfig.EnableMetricType t |};
            LogConfig := LogConfig cfg |})
    end
  else (None, cfg).

Definition validateLogs (cfg : Config) : option error * Config :=
  if CollectionModes.Logs (CollectionModes cfg) then
    match LogConfig cfg with
    | None => (Some (errorString "logs config required when logs mode enabled"), cfg)
    | Some l =>
        if String.eqb (LogConfig.Host l) "" then
          (Some (errorString "logs database host must be specified"), cfg)
        else if String.eqb (LogConfig.Database l) "" then
          (Some (errorString "logs database name must be specified"), cfg)
        else
          (None,
           {| CollectionModes := CollectionModes cfg;
              RESTAPIConfig := RESTAPIConfig cfg;
              DatabaseConfig := DatabaseConfig cfg;
              StatsDConfig := StatsDConfig cfg;
              LogConfig :=
                Some {| LogConfig.Host := LogConfig.Host l;
                        LogConfig.Port :=
                          if LogConfig.Port l =? 0 then 5432 else LogConfig.Port l;
                        LogConfig.Database := LogConfig.Database l;
                        LogConfig.Username := LogConfig.Username l;
                        LogConfig.Password := LogConfig.Password l;
                        LogConfig.SSLMode :=
                          if String.eqb (LogConfig.SSLMode l) "" then "disable"
                          else LogConfig.SSLMode l;
                        LogConfig.CollectionInterval :=
                          orDefault (LogConfig.CollectionInterval l) (30 * Second) |} |})
    end
  else (None, cfg).

(** The next block runs unless the one before has returned an error. *)
Definition andThen (r : option error * Config) (block : Config -> option error * Config)
    : option error * Config :=
  match r with
  | (Some err, cfg) => (Some err, cfg)
  | (None, cfg) => block cfg
  end.

(** [cfg.Validate()]: the error returned and the configuration
    afterwards (the defaults are written into the sections). *)
Definition Validate (cfg : Config) : option error * Config :=
  let modes := CollectionModes cfg in
  if negb (CollectionModes.RESTAPI modes) && negb (CollectionModes.Database modes)
     && negb (CollectionModes.StatsD modes) && negb (CollectionModes.Logs modes)
  then (Some ErrNoMode, cfg)
  else
    andThen (andThen (andThen (validateRESTAPI cfg) validateDatabase) validateStatsD)
      validateLogs.

(** What [Validate] leaves behind when it accepts: the sections of the
    enabled modes are there, with what they must name and with positive
    intervals, a port and an SSL mode. *)
Definition restReady (cfg : Config) : Prop :=
  CollectionModes.RESTAPI (CollectionModes cfg) = true ->
  exists r, RESTAPIConfig cfg = Some r /\
    RESTAPIConfig.Endpoint r <> "" /\ 0 < RESTAPIConfig.CollectionInterval r.

Definition databaseReady (cfg : Config) : Prop :=
  CollectionModes.Database (CollectionModes cfg) = true ->
  exists d, DatabaseConfig cfg = Some d /\
    DatabaseConfig.Host d <> "" /\ DatabaseConfig.Port d <> 0 /\
    DatabaseConfig.SSLMode d <> "" /\
    0 < DatabaseConfig.CollectionInterval d /\ 0 < DatabaseConfig.QueryTimeout d.

Definition statsdReady (cfg : Config) : Prop :=
  CollectionModes.StatsD (CollectionModes cfg) = true ->
  exists t, StatsDConfig cfg = Some t /\ 0 < StatsDConfig.AggregationInterval t.

Definition logsReady (cfg : Config) : Prop :=
  CollectionModes.Logs (CollectionModes cfg) = true ->
  exists l, LogConfig cfg = Some l /\
    LogConfig.Host l <> "" /\ LogConfig.Database l <> "" /\
    LogConfig.Port l <> 0 /\ LogConfig.SSLMode l <> "" /\
    0 < LogConfig.CollectionInterval l.

Definition anyMode (cfg : Config) : Prop :=
  CollectionModes.RESTAPI (CollectionModes cfg) = true \/
  CollectionModes.Database (CollectionModes cfg) = true \/
  CollectionModes.StatsD (CollectionModes cfg) = true \/
  CollectionModes.Logs (CollectionModes cfg) = true.

Definition ready (cfg : Config) : Prop :=
  anyMode cfg /\ restReady cfg /\ databaseReady cfg /\ statsdReady cfg /\ logsReady cfg.

End Config.

(** ** What the log adapter makes of a row *)

Module LogRows.

(** The record [lr] shows the row [r]: the time of the row, the severity
    of its event with the text that goes with it, the body, the source,
    and the attributes of the columns that are not empty. *)
Definition inRecord (r : Logs.Row) (lr : Logs.LogRecord) : Prop :=
  let dagID := default "" (Logs.dag_id r) in
  let taskID := default "" (Logs.task_id r) in
  let event := default "" (Logs.event r) in
  let owner := default "" (Logs.owner r) in
  Some (Logs.Timestamp lr) = NewTimestampFromTime <$> Logs.dttm r /\
  Logs.SeverityNumber lr = Logs.getSeverityFromEvent event /\
  Logs.SeverityText lr = Logs.getSeverityText (Logs.getSeverityFromEvent event) /\
  Logs.Body lr = (if Logs.nonEmpty event then Some ("Airflow event: " +:+ event) else None) /\
  Logs.Attributes lr !! "airflow.log.source" = Some "database" /\
  Logs.Attributes lr !! "dag.id" = (if Logs.nonEmpty dagID then Some dagID else None) /\
  Logs.Attributes lr !! "task.id" = (if Logs.nonEmpty taskID then Some taskID else None) /\
  Logs.Attributes lr !! "airflow.event" = (if Logs.nonEmpty event then Some event else None) /\
  Logs.Attributes lr !! "owner" = (if Logs.nonEmpty owner then Some owner else None).

(** The error [Scrape] returns against a database. *)
Definition scrapeError (db : Logs.Database) : option error :=
  match Logs.refused db, Logs.broken db with
  | Some err, _ => Some (wrapError ("failed to query logs: " +:+ Error err) err)
  | None, Some (_, err) => Some (wrapError ("error iterating log rows: " +:+ Error err) err)
  | None, None => None
  end.

(** The rows the loop of [Scrape] sees. *)
Definition seen (db : Logs.Database) (s : Logs.LogScraper) : list Logs.Row :=
  match Logs.refused db with
  | Some _ => []
  | None => fst (Logs.delivered db (Logs.lastScrapedLogID s))
  end.

(** The scraper after one scrape at each of the worlds, against the same
    database. *)
Definition scrapes `{Platform} `{Logs.Codec} `{Surroundings} (db : Logs.Database)
    (worlds : list World) (s : Logs.LogScraper) : Logs.LogScraper :=
  fold_left (fun s w => snd (valueOf (Logs.Scrape db s w))) worlds s.

End LogRows.

(** ** What the REST adapter counts *)

Module Tally.

(** The types of the connections that have one, in the order of the
    connections. *)
Definition types (connections : list REST.Connection.t) : list string :=
  List.filter (fun t => negb (String.eqb t ""))
    (List.map REST.Connection.ConnType connections).

(** How many of [keys] are [k]. *)
Definition occurrences (keys : list string) (k : string) : Z :=
  Z.of_nat (length (List.filter (String.eqb k) keys)).

(** What the metric of the connections of type [t] reports. *)
Definition connectionReading (keys : list string) (t : string)
    : string * pmetric.Number * gmap string pmetric.AttrValue :=
  ("airflow.connections.count", pmetric.IntValue (occurrences keys t),
   <["connection.type" := pmetric.AStr t]> ∅).

End Tally.

(** ** Further examples to compute with *)

Module Samples.

(** A [log] table whose first 1000 rows have no [dttm]; the row 1001 has
    one. *)
Definition nullPage : Logs.Database :=
  {| Logs.table :=
       List.map (fun n => Logs.mkRow (Z.of_nat n) None (Some "etl") None (Some "running")
                            None (Some "airflow") None) (seq 1 1000)
       ++ [Logs.mkRow 1001 (Some 1001000000) (Some "etl") None (Some "success") None
             (Some "airflow") None];
     Logs.refused := None; Logs.broken := None |}.

(** The table of [Reference.threeRows], read over a connection that
    breaks after the first row. *)
Definition breaking : Logs.Database :=
  {| Logs.table := Logs.table Reference.threeRows; Logs.refused := None;
     Logs.broken := Some (1%nat, errorString "connection reset") |}.

(** A consumer that accepts everything. *)
Definition accepting : Receiver.Consumer := {| Receiver.ConsumeLogs := fun _ => None |}.

(** A network on which no request gets an answer. *)
Definition unreachable : REST.Network :=
  {| REST.NewRequest := fun _ => None;
     REST.Do := fun _ _ => inl (errorString "dial tcp: connection refused") |}.

(** Recorders of the health tracker to compute with: each appends one
    gauge; the names stand in for those of the recorders that are not at
    hand. *)
Definition oneGauge : Builder.HealthRecorders :=
  let int (name : string) (value : Z) (scraperType : string) (ts : Time) :=
    [Builder.gauge name "1" "" (NewTimestampFromTime ts) (pmetric.IntValue value)
       (<["scraper.type" := pmetric.AStr scraperType]> ∅)] in
  let double (name : string) (value : float) (scraperType : string) (ts : Time) :=
    [Builder.gauge name "s" "" (NewTimestampFromTime ts) (pmetric.DoubleValue value)
       (<["scraper.type" := pmetric.AStr scraperType]> ∅)] in
  {| Builder.scraperTotalScrapes := int "scraper.total";
     Builder.scraperSuccessfulScrapes := int "scraper.successful";
     Builder.scraperFailedScrapes := int "scraper.failed";
     Builder.scraperHealthStatus := int "scraper.health";
     Builder.scraperLastDuration := double "scraper.last_duration";
     Builder.scraperAvgDuration := double "scraper.avg_duration";
     Builder.scraperConsecutiveErrors := int "scraper.consecutive_errors" |}.

(** Four connections, one of them without a type. *)
Definition fourConnections : list REST.Connection.t :=
  [REST.Connection.mk "warehouse" "postgres"; REST.Connection.mk "api" "http";
   REST.Connection.mk "scratch" ""; REST.Connection.mk "metadata" "postgres"].

(** As [Reference.emptyLists], with these connections. *)
Definition withConnections : REST.Decoder :=
  {| REST.decodeDAGs := fun _ => inr [];
     REST.decodeDAGRuns := fun _ => inr [];
     REST.decodeTaskInstances := fun _ => inr [];
     REST.decodePools := fun _ => inr [];
     REST.decodeHealth := fun _ => inr (REST.HealthResponse.mk "" "" zeroTime);
     REST.decodeConnections := fun _ => inr fourConnections;
     REST.decodeVariables := fun _ => inr [];
     REST.decodeImportErrors := fun _ => inr [] |}.

(** A database that refuses every query. *)
Definition refusing : Database.SqlServer :=
  {| Database.queryTaskInstances := fun _ => inl (errorString "connection refused");
     Database.queryDAGRuns := fun _ => inl (errorString "connection refused");
     Database.querySchedulerMetrics := fun _ => inl (errorString "connection refused");
     Database.querySLAMisses := fun _ => inl (errorString "connection refused") |}.

(** A driver whose pings all fail. *)
Definition noPing : Wrapper.SqlDriver :=
  {| Wrapper.Open := fun _ => None;
     Wrapper.PingContext := fun _ => Some (errorString "connection refused") |}.

Definition airflowDb : Wrapper.DatabaseConfig :=
  Wrapper.mkDatabaseConfig "db" 5432 "airflow" "airflow" "secret" "disable" (30 * Second).

Definition airflowApi : REST.RESTAPIConfig :=
  REST.mkRESTAPIConfig "http://airflow:8080" "admin" "secret" 0 false 0.

(** The default policy with forty attempts in place of three. *)
Definition fortyAttempts : Retry.RetryConfig :=
  {| Retry.MaxAttempts := 40;
     Retry.InitialInterval := 1 * Second;
     Retry.MaxInterval := 10 * Second;
     Retry.Multiplier := 2.0%float |}.

End Samples.

(** * The retry executor *)

Section RetryFacts.
Context `{Platform} {St : Type}.
Variable ctx : Retry.Context.
Variable cfg : Retry.RetryConfig.
Variable operation : string.
Variable fn : St -> option error * St.

Lemma effects_app (tr1 tr2 : list Event) :
  Retry.effects (tr1 ++ tr2) = Retry.effects tr1 ++ Retry.effects tr2.
Proof. unfold Retry.effects. apply List.filter_app. Qed.

Lemma backoffAt_min (attempt : Z) :
  Retry.backoffAt cfg attempt =
  Z.min (Float64ToInt64
           (PrimFloat.mul (Int64ToFloat64 (Retry.InitialInterval cfg))
              (Pow (Retry.Multiplier cfg) (Int64ToFloat64 (attempt - 1)))))
        (Retry.MaxInterval cfg).
Proof.
  unfold Retry.backoffAt. cbv zeta.
  destruct (Z.ltb_spec (Retry.MaxInterval cfg)
    (Float64ToInt64
       (PrimFloat.mul (Int64ToFloat64 (Retry.InitialInterval cfg))
          (Pow (Retry.Multiplier cfg) (Int64ToFloat64 (attempt - 1)))))); lia.
Qed.

Hypothesis never_done : forall a, ctx a = None.

(** One iteration that fails, written out. *)
Lemma attemptsFrom_failure (n : nat) (attempt : Z) (lastErr : option error) (s : St)
    (e : error) (s' : St) :
  fn s = (Some e, s') ->
  Retry.attemptsFrom ctx cfg operation fn (S n) attempt lastErr s =
  Retry.after
    ((if 0 <? attempt
      then [Retry.retrying cfg operation attempt (Retry.backoffAt cfg attempt);
            Slept (Retry.backoffAt cfg attempt)]
      else []) ++ [Invoked; Retry.failed operation attempt (Some e)])
    (Retry.attemptsFrom ctx cfg operation fn n (attempt + 1) (Some e) s').
Proof.
  intros Hfn. cbn [Retry.attemptsFrom]. rewrite never_done, Hfn.
  destruct (0 <? attempt); reflexivity.
Qed.

(** The calls and waits of the loop from a later attempt on, when every
    call fails. *)
Lemma attemptsFrom_effects (n : nat) : forall (attempt : Z) lastErr (s : St),
  0 < attempt ->
  (forall k, (k < n)%nat -> fst (fn (Retry.stateAfter fn k s)) <> None) ->
  Retry.effects (Retry.trace (Retry.attemptsFrom ctx cfg operation fn n attempt lastErr s)) =
  flat_map (fun a => [Slept (Retry.backoffAt cfg a); Invoked])
    (List.map (fun i => attempt + Z.of_nat i) (seq 0 n)).
Proof.
  induction n as [|n IH]; intros attempt lastErr s Hpos Hfail.
  - reflexivity.
  - assert (H0 := Hfail 0%nat (Nat.lt_0_succ n)). cbn [Retry.stateAfter] in H0.
    destruct (fn s) as [[e|] s'] eqn:Hfn; [|now elim H0].
    rewrite (attemptsFrom_failure n attempt lastErr s e s' Hfn).
    assert (Hlt : (0 <? attempt) = true) by (apply Z.ltb_lt; lia).
    rewrite Hlt. cbn [Retry.after Retry.trace].
    rewrite effects_app.
    assert (Hpos' : 0 < attempt + 1) by lia.
    rewrite (IH (attempt + 1) (Some e) s' Hpos').
    + cbn [seq List.map flat_map]. rewrite Z.add_0_r.
      cbn. f_equal. f_equal.
      rewrite <- seq_shift, List.map_map.
      f_equal. apply List.map_ext. intros i. lia.
    + intros k Hk. apply Nat.succ_lt_mono in Hk. specialize (Hfail (S k) Hk).
      cbn [Retry.stateAfter] in Hfail. now rewrite Hfn in Hfail.
Qed.

(** What the loop returns when every call fails. *)
Lemma attemptsFrom_exhausted (n : nat) : forall (attempt : Z) lastErr (s : St),
  (forall k, (k < n)%nat -> fst (fn (Retry.stateAfter fn k s)) <> None) ->
  let o := Retry.attemptsFrom ctx cfg operation fn n attempt lastErr s in
  Retry.result o =
    match n with O => lastErr | S n' => fst (fn (Retry.stateAfter fn n' s)) end /\
  Retry.final o = Retry.stateAfter fn n s /\
  last (Retry.trace o) = Some (Retry.exhausted cfg operation (Retry.result o)).
Proof.
  induction n as [|n IH]; intros attempt lastErr s Hfail.
  - cbn. auto.
  - assert (H0 := Hfail 0%nat (Nat.lt_0_succ n)). cbn [Retry.stateAfter] in H0.
    destruct (fn s) as [[e|] s'] eqn:Hfn; [|now elim H0].
    cbv zeta. rewrite (attemptsFrom_failure n attempt lastErr s e s' Hfn).
    cbn [Retry.after Retry.result Retry.final Retry.trace Retry.stateAfter].
    rewrite Hfn. cbn [snd].
    destruct (IH (attempt + 1) (Some e) s') as (Hr & Hf & Hl).
    + intros k Hk. apply Nat.succ_lt_mono in Hk. specialize (Hfail (S k) Hk).
      cbn [Retry.stateAfter] in Hfail. now rewrite Hfn in Hfail.
    + repeat split.
      * rewrite Hr. destruct n; cbn [Retry.stateAfter]; now rewrite Hfn.
      * exact Hf.
      * rewrite last_app, Hl. now rewrite Hr.
Qed.
End RetryFacts.

Lemma invoked_effects (tr : list Event) :
  List.filter Retry.isInvoked (Retry.effects tr) = List.filter Retry.isInvoked tr.
Proof.
  unfold Retry.effects. induction tr as [|ev tr IH]; [reflexivity|].
  destruct ev; cbn; rewrite ?IH; reflexivity.
Qed.

Lemma invoked_waits (w : Z -> Z) (ks : list Z) :
  length (List.filter Retry.isInvoked (flat_map (fun k => [Slept (w k); Invoked]) ks)) =
  length ks.
Proof. induction ks as [|k ks IH]; cbn; [reflexivity | now rewrite IH]. Qed.

(** The calls and the waits of an operation that fails at every call,
    under a policy with [MaxAttempts = N >= 1] and a context that is never
    done: [N] calls, the first without a wait, and exactly one wait before
    the [k]-th ([2 <= k <= N]).  The wait is the lesser of [MaxInterval]
    and of what the conversion to [Duration] makes of the [float64] product
    [InitialInterval * Multiplier^(k-2)]: the product is converted first
    and compared afterwards. *)
Lemma failing_operation_calls_and_waits `{Platform} {St : Type} (ctx : Retry.Context)
    (cfg : Retry.RetryConfig) (operation : string) (fn : St -> option error * St)
    (s : St) :
  1 <= Retry.MaxAttempts cfg ->
  (forall a, ctx a = None) ->
  (forall s', fst (fn s') <> None) ->
  let tr := Retry.trace (Retry.RetryWithBackoff ctx cfg operation fn s) in
  let wait k :=
    Z.min (Float64ToInt64
             (PrimFloat.mul (Int64ToFloat64 (Retry.InitialInterval cfg))
                (Pow (Retry.Multiplier cfg) (Int64ToFloat64 (k - 2)))))
          (Retry.MaxInterval cfg) in
  Retry.invocations tr = Retry.MaxAttempts cfg /\
  Retry.effects tr =
    Invoked :: flat_map (fun k => [Slept (wait k); Invoked])
                 (List.map Z.of_nat (seq 2 (Z.to_nat (Retry.MaxAttempts cfg) - 1))).
Proof.
  intros HN Hctx Hfail tr wait.
  assert (Heff : Retry.effects tr =
    Invoked :: flat_map (fun k => [Slept (wait k); Invoked])
                 (List.map Z.of_nat (seq 2 (Z.to_nat (Retry.MaxAttempts cfg) - 1)))).
  { subst tr. unfold Retry.RetryWithBackoff.
    destruct (Z.to_nat (Retry.MaxAttempts cfg)) as [|n] eqn:Hn; [lia|].
    destruct (fn s) as [[e|] s'] eqn:Hfn; [|now elim (Hfail s); rewrite Hfn].
    rewrite (attemptsFrom_failure ctx cfg operation fn Hctx n 0 None s e s' Hfn).
    cbn [Retry.after Retry.trace Z.ltb Z.compare app].
    change (Invoked :: ?x :: ?l) with ([Invoked; x] ++ l).
    rewrite effects_app.
    rewrite (attemptsFrom_effects ctx cfg operation fn Hctx n (0 + 1) (Some e) s')
      by (lia || (intros; apply Hfail)).
    cbn [Retry.effects List.filter Retry.isEffect Retry.failed app].
    f_equal. replace (S n - 1)%nat with n by lia.
    rewrite <- (seq_shift n 1), <- (seq_shift n 0), !List.map_map.
    rewrite !flat_map_concat_map, !List.map_map. f_equal.
    apply List.map_ext. intros i. rewrite backoffAt_min. subst wait. cbv beta.
    replace (0 + 1 + Z.of_nat i - 1) with (Z.of_nat (S (S i)) - 2) by lia.
    reflexivity. }
  split; [|exact Heff].
  unfold Retry.invocations. rewrite <- invoked_effects, Heff.
  cbn [List.filter Retry.isInvoked length]. rewrite invoked_waits.
  rewrite length_map, length_seq. lia.
Qed.

(** At the default policy: three calls, a wait of one second before the
    second and of two seconds before the third. *)
Lemma failing_operation_default_policy :
  let tr :=
    Retry.trace
      (Retry.RetryWithBackoff (H := Reference.platform) (fun _ => None)
         Retry.DefaultRetryConfig "query dag runs"
         (fun s : unit => (Some (errorString "connection refused"), s)) tt) in
  Retry.invocations tr = 3 /\
  Retry.effects tr = [Invoked; Slept 1000000000; Invoked; Slept 2000000000; Invoked].
Proof.
  apply (failing_operation_calls_and_waits (H := Reference.platform) (fun _ => None)
           Retry.DefaultRetryConfig "query dag runs"
           (fun s : unit => (Some (errorString "connection refused"), s)) tt).
  - cbn. lia.
  - reflexivity.
  - intros s'. discriminate.
Defined.

(** C3 does not hold of the code.  The executor converts the product
    [InitialInterval * Multiplier^(k-2)] to a [Duration] before it compares
    it with [MaxInterval], and a product of [2^63] nanoseconds or more is
    not what the conversion returns.  With the default intervals and forty
    attempts the operation is called forty times, and the waits are 1 s,
    2 s, 4 s, 8 s and then 10 s up to the wait before the 35th call; the
    wait before the 36th call, where the claim has
    [min (1 s * 2^34) 10 s = 10 s], is [-9223372036854775808] ns, and so
    are the waits before the calls 37 to 40: the operation is called
    again at once. *)
Theorem backoff_overflows_before_cap :
  let cfg := Samples.fortyAttempts in
  let tr :=
    Retry.trace
      (Retry.RetryWithBackoff (H := Reference.platform) (fun _ => None)
         cfg "query dag runs"
         (fun s : unit => (Some (errorString "connection refused"), s)) tt) in
  Retry.invocations tr = 40 /\
  Retry.waits tr =
    [1 * Second; 2 * Second; 4 * Second; 8 * Second] ++
    repeat (10 * Second) 30 ++ repeat min_int64 5 /\
  nth_error (Retry.waits tr) (36 - 2) = Some (-9223372036854775808) /\
  Z.min (Retry.InitialInterval cfg * 2 ^ (36 - 2)) (Retry.MaxInterval cfg) = 10 * Second /\
  Retry.backoffAt (H := Reference.platform) cfg (36 - 1) <>
    Z.min (Retry.InitialInterval cfg * 2 ^ (36 - 2)) (Retry.MaxInterval cfg).
Proof.
  repeat split; try (vm_compute; reflexivity).
  vm_compute. discriminate.
Qed.

(** C9, as it stands, fails: under the default policy an operation that
    always fails with [connection refused] gets that very error back; its
    text carries neither the name of the operation nor the number of
    attempts. *)
Lemma retry_error_not_annotated :
  let o :=
    Retry.RetryWithBackoff (H := Reference.platform) (fun _ => None)
      Retry.DefaultRetryConfig "query dag runs"
      (fun s : unit => (Some (errorString "connection refused"), s)) tt in
  Retry.result o = Some (errorString "connection refused") /\
  Retry.annotated "query dag runs" 3 (errorString "connection refused") = false.
Proof. split; vm_compute; reflexivity. Qed.

(** C9, amended. When the context is never done and all [MaxAttempts >= 1]
    calls fail, the executor returns the error of the last call as it is,
    leaves the state as the last call left it, and ends its trace with the
    log entry "Operation failed after all retries", which carries the name
    of the operation, [MaxAttempts] as the number of attempts, and that
    error. *)
Theorem retry_exhausted_returns_last_error `{Platform} {St : Type} (ctx : Retry.Context)
    (cfg : Retry.RetryConfig) (operation : string) (fn : St -> option error * St)
    (s : St) :
  1 <= Retry.MaxAttempts cfg ->
  (forall a, ctx a = None) ->
  (forall k, (1 <= k <= Z.to_nat (Retry.MaxAttempts cfg))%nat ->
             Retry.nthError fn k s <> None) ->
  let o := Retry.RetryWithBackoff ctx cfg operation fn s in
  Retry.result o = Retry.nthError fn (Z.to_nat (Retry.MaxAttempts cfg)) s /\
  Retry.final o = Retry.stateAfter fn (Z.to_nat (Retry.MaxAttempts cfg)) s /\
  last (Retry.trace o) =
    Some (Logged (mkEntry ErrorLevel "Operation failed after all retries"
                    [zString "operation" operation;
                     zInt "attempts" (Retry.MaxAttempts cfg);
                     zError (Retry.result o)])).
Proof.
  intros HN Hctx Hfail o.
  destruct (attemptsFrom_exhausted ctx cfg operation fn Hctx
              (Z.to_nat (Retry.MaxAttempts cfg)) 0 None s) as (Hr & Hf & Hl).
  { intros k Hk. specialize (Hfail (S k) ltac:(lia)).
    unfold Retry.nthError in Hfail. now replace (S k - 1)%nat with k in Hfail by lia. }
  fold (Retry.RetryWithBackoff ctx cfg operation fn s) in Hr, Hf, Hl. fold o in Hr, Hf, Hl.
  repeat split; [|exact Hf|exact Hl].
  rewrite Hr. unfold Retry.nthError.
  destruct (Z.to_nat (Retry.MaxAttempts cfg)) as [|n] eqn:Hn; [lia|].
  now replace (S n - 1)%nat with n by lia.
Qed.

Lemma retry_exhausted_returns_last_error_witness :
  let o :=
    Retry.RetryWithBackoff (H := Reference.platform) (fun _ => None)
      Retry.DefaultRetryConfig "GET /api/v1/dags"
      (fun n : Z => (Some (errorString ("unexpected status code: " +:+ itoa (500 + n))),
                     n + 1)) 0 in
  Retry.result o = Some (errorString "unexpected status code: 502") /\
  Retry.final o = 3 /\
  last (Retry.trace o) =
    Some (Logged (mkEntry ErrorLevel "Operation failed after all retries"
                    [zString "operation" "GET /api/v1/dags";
                     zInt "attempts" 3;
                     zError (Some (errorString "unexpected status code: 502"))])).
Proof.
  apply (retry_exhausted_returns_last_error (H := Reference.platform) (fun _ => None)
           Retry.DefaultRetryConfig "GET /api/v1/dags"
           (fun n : Z => (Some (errorString ("unexpected status code: " +:+ itoa (500 + n))),
                          n + 1)) 0).
  - cbn. lia.
  - reflexivity.
  - intros k Hk. unfold Retry.nthError. discriminate.
Defined.

(** * The health tracker *)

Lemma wrap64_id (z : Z) : min_int64 <= z <= max_int64 -> wrap64 z = z.
Proof.
  unfold wrap64, min_int64, max_int64. intros Hz.
  rewrite Z.mod_small; lia.
Qed.

(** A failure never makes an unhealthy tracker healthy. *)
Lemma RecordScrape_failure_keeps_unhealthy (now : Time) (d : Duration) (e : error)
    (h : Health.ScraperHealth) :
  Health.healthy h = false ->
  Health.healthy (fst (Health.RecordScrape now d (Some e) h)) = false.
Proof.
  intros Hh. cbn. rewrite Hh. now destruct (3 <=? _).
Qed.

(** C4. A new tracker is healthy.  A scrape with an error adds one to the
    consecutive failures and makes the tracker unhealthy once they have
    reached 3 (it stays as it was below that); a scrape without an error
    sets the consecutive failures to 0 and makes the tracker healthy,
    whatever they were before. *)
Theorem health_tracker_transitions (h : Health.ScraperHealth) (now : Time)
    (d : Duration) (e : error) :
  min_int64 <= Health.consecutiveErrors h < max_int64 ->
  Health.healthy (Health.NewScraperHealth (Health.scraperType h)) = true /\
  (let h' := fst (Health.RecordScrape now d (Some e) h) in
   Health.consecutiveErrors h' = Health.consecutiveErrors h + 1 /\
   Health.healthy h' =
     (if 3 <=? Health.consecutiveErrors h + 1 then false else Health.healthy h)) /\
  (let h' := fst (Health.RecordScrape now d None h) in
   Health.consecutiveErrors h' = 0 /\ Health.healthy h' = true).
Proof.
  intros Hc. cbn. rewrite wrap64_id by lia. auto.
Qed.

(** C4, on a run: two failures leave a new tracker healthy, the third makes
    it unhealthy, and one success makes it healthy again with no
    consecutive failures. *)
Lemma health_tracker_transitions_witness :
  let boom := errorString "connection refused" in
  let h2 := Health.recordAll [(1, 5, Some boom); (2, 5, Some boom)]
              (Health.NewScraperHealth "rest_api") in
  Health.healthy h2 = true /\
  Health.healthy (Health.NewScraperHealth "rest_api") = true /\
  (let h' := fst (Health.RecordScrape 3 5 (Some boom) h2) in
   Health.consecutiveErrors h' = 3 /\ Health.healthy h' = false) /\
  (let h' := fst (Health.RecordScrape 3 5 None h2) in
   Health.consecutiveErrors h' = 0 /\ Health.healthy h' = true).
Proof.
  split; [reflexivity|].
  apply (health_tracker_transitions
           (Health.recordAll [(1, 5, Some (errorString "connection refused"));
                              (2, 5, Some (errorString "connection refused"))]
              (Health.NewScraperHealth "rest_api"))
           3 5 (errorString "connection refused")).
  vm_compute. split; [discriminate | reflexivity].
Defined.

(** Three failures in a row make a tracker unhealthy whatever it was, as
    long as the count has room, and it stays so until a success. *)
Lemma three_failures_unhealthy (h : Health.ScraperHealth)
    (scrapes : list (Time * Duration * option error)) :
  (3 <= length scrapes)%nat ->
  Forall (fun x => snd x <> None) scrapes ->
  0 <= Health.consecutiveErrors h ->
  Health.consecutiveErrors h + Z.of_nat (length scrapes) <= max_int64 ->
  Health.healthy (Health.recordAll scrapes h) = false /\
  Health.consecutiveErrors (Health.recordAll scrapes h) =
    Health.consecutiveErrors h + Z.of_nat (length scrapes).
Proof.
  intros Hlen Hall. revert h.
  assert (Hgen : forall scrapes, Forall (fun x : Time * Duration * option error => snd x <> None) scrapes ->
            forall h : Health.ScraperHealth,
            0 <= Health.consecutiveErrors h ->
            Health.consecutiveErrors h + Z.of_nat (length scrapes) <= max_int64 ->
            Health.consecutiveErrors (Health.recordAll scrapes h) =
              Health.consecutiveErrors h + Z.of_nat (length scrapes) /\
            (3 <= Health.consecutiveErrors h + Z.of_nat (length scrapes) ->
             (scrapes <> [] \/ Health.healthy h = false) ->
             Health.healthy (Health.recordAll scrapes h) = false)).
  { clear. induction 1 as [|[[now d] [e|]] l Hx Hl IH]; intros h H0 Hmax.
    - cbn. split; [lia|]. intros _ [Hne|Hh]; [now elim Hne | exact Hh].
    - cbn [length] in Hmax. unfold Health.recordAll. cbn [fold_left].
      fold (Health.recordAll l (fst (Health.RecordScrape now d (Some e) h))).
      set (h1 := fst (Health.RecordScrape now d (Some e) h)).
      assert (Hc1 : Health.consecutiveErrors h1 = Health.consecutiveErrors h + 1).
      { subst h1. cbn. unfold max_int64 in Hmax. apply wrap64_id.
        unfold min_int64, max_int64. lia. }
      destruct (IH h1) as [Hc Hh]; [lia | lia |].
      split; [cbn [length]; lia|].
      intros H3 _. apply Hh; [cbn [length] in H3; lia|].
      destruct l as [|x l']; [|left; discriminate]. right.
      subst h1. cbn. rewrite wrap64_id by (unfold min_int64, max_int64 in *; cbn [length] in *; lia).
      cbn [length] in H3.
      destruct (Z.leb_spec 3 (Health.consecutiveErrors h + 1)); [reflexivity | lia].
    - now elim Hx. }
  intros h H0 Hmax. destruct (Hgen scrapes Hall h H0 Hmax) as [Hc Hh].
  split; [|exact Hc]. apply Hh; [lia|]. left. destruct scrapes; [cbn in Hlen; lia | discriminate].
Qed.

(** * Computations and the collection of a builder *)

Lemma bind_unfold {A B : Type} (m : M A) (k : A -> M B) (w : World) :
  bind m k w =
  (valueOf (k (valueOf (m w)) (worldOf (m w))),
   worldOf (k (valueOf (m w)) (worldOf (m w))),
   eventsOf (m w) ++ eventsOf (k (valueOf (m w)) (worldOf (m w)))).
Proof.
  unfold bind, valueOf, worldOf, eventsOf.
  destruct (m w) as [[a w1] evs1]. cbn.
  destruct (k a w1) as [[b w2] evs2]. reflexivity.
Qed.

Lemma worldOf_bind {A B : Type} (m : M A) (k : A -> M B) (w : World) :
  worldOf (bind m k w) = worldOf (k (valueOf (m w)) (worldOf (m w))).
Proof. now rewrite bind_unfold. Qed.

Lemma valueOf_bind {A B : Type} (m : M A) (k : A -> M B) (w : World) :
  valueOf (bind m k w) = valueOf (k (valueOf (m w)) (worldOf (m w))).
Proof. now rewrite bind_unfold. Qed.

Lemma eventsOf_bind {A B : Type} (m : M A) (k : A -> M B) (w : World) :
  eventsOf (bind m k w) =
  eventsOf (m w) ++ eventsOf (k (valueOf (m w)) (worldOf (m w))).
Proof. now rewrite bind_unfold. Qed.

Lemma valueOf_foldM_nil {A S : Type} (body : S -> A -> M S) (s : S) (w : World) :
  valueOf (foldM [] body s w) = s.
Proof. reflexivity. Qed.

Lemma foldM_cons {A S : Type} (x : A) (l : list A) (body : S -> A -> M S) (s : S) :
  foldM (x :: l) body s = bind (body s x) (fun s' => foldM l body s').
Proof. reflexivity. Qed.

(** A [range] visits every entry once. *)
Lemma insertBy_perm {V : Type} (rank : string -> Z) (x : string * V) (l : list (string * V)) :
  insertBy rank x l ≡ₚ x :: l.
Proof.
  induction l as [|y l IH]; cbn; [reflexivity|].
  destruct (rank x.1 <=? rank y.1); [reflexivity|].
  rewrite IH. apply Permutation_swap.
Qed.

Lemma sortBy_perm {V : Type} (rank : string -> Z) (l : list (string * V)) :
  sortBy rank l ≡ₚ l.
Proof.
  unfold sortBy. induction l as [|x l IH]; cbn; [reflexivity|].
  rewrite insertBy_perm. now rewrite IH.
Qed.

(** ** Appending *)

Lemma content_append (mb : Builder.MetricsBuilder) (m : pmetric.Metric) (w : World) (a : nat) :
  Builder.content a (worldOf (Builder.append mb m w)) =
  if decide (a = Builder.metrics mb) then
    if Builder.ready mb w then Builder.content a w ++ [m] else Builder.content a w
  else Builder.content a w.
Proof.
  unfold Builder.append, Builder.content, Builder.ready, worldOf, setHeap.
  cbn [fst snd heap].
  destruct (decide (a = Builder.metrics mb)) as [->|Hne].
  - rewrite lookup_alter_eq.
    destruct (heap w !! Builder.metrics mb) as [[|rm rest]|]; reflexivity.
  - rewrite lookup_alter_ne by congruence. reflexivity.
Qed.

Lemma ready_append (mb b : Builder.MetricsBuilder) (m : pmetric.Metric) (w : World) :
  Builder.ready b (worldOf (Builder.append mb m w)) = Builder.ready b w.
Proof.
  unfold Builder.append, Builder.ready, worldOf, setHeap.
  cbn [fst snd heap].
  destruct (decide (Builder.metrics b = Builder.metrics mb)) as [->|Hne].
  - rewrite lookup_alter_eq.
    destruct (heap w !! Builder.metrics mb) as [[|rm rest]|]; reflexivity.
  - rewrite lookup_alter_ne by congruence. reflexivity.
Qed.

Section AppendsRules.
Context (b : Builder.MetricsBuilder).

Lemma Appends_ret {A : Type} (a : A) : Appends b (ret a) [].
Proof.
  intros w Hr. split; [exact Hr|]. exists []. now rewrite app_nil_r.
Qed.

Lemma Appends_bind {A B : Type} (m : M A) (k : A -> M B) rs1 rs2 :
  Appends b m rs1 -> (forall a, Appends b (k a) rs2) -> Appends b (bind m k) (rs1 ++ rs2).
Proof.
  intros Hm Hk w Hr. rewrite worldOf_bind.
  destruct (Hm w Hr) as (Hr1 & news1 & Hc1 & Hrd1).
  destruct (Hk (valueOf (m w)) (worldOf (m w)) Hr1) as (Hr2 & news2 & Hc2 & Hrd2).
  split; [exact Hr2|]. exists (news1 ++ news2).
  rewrite Hc2, Hc1, <- app_assoc, List.map_app, Hrd1, Hrd2. auto.
Qed.

Lemma Appends_silent {A : Type} (m : M A) :
  (forall w, heap (worldOf (m w)) = heap w) -> Appends b m [].
Proof.
  intros Hm w Hr. unfold Builder.ready, Builder.content in *. rewrite Hm.
  split; [exact Hr|]. exists []. now rewrite app_nil_r.
Qed.

Lemma Appends_timeNow `{Surroundings} : Appends b timeNow [].
Proof. now apply Appends_silent. Qed.

Lemma Appends_rangeMap `{Surroundings} {V : Type} (m : gmap string V) :
  Appends b (rangeMap m) [].
Proof. now apply Appends_silent. Qed.

Lemma Appends_emit (evs : list Event) : Appends b (emit evs) [].
Proof. now apply Appends_silent. Qed.

Lemma Appends_append (m : pmetric.Metric) :
  Appends b (Builder.append b m) [pmetric.reading m].
Proof.
  intros w Hr. rewrite ready_append, content_append, Hr.
  rewrite decide_True by reflexivity.
  split; [reflexivity|]. now exists [m].
Qed.

Lemma Appends_forEach {A : Type} (l : list A) (body : A -> M unit)
    (f : A -> list (string * pmetric.Number * gmap string pmetric.AttrValue)) :
  (forall x, Appends b (body x) (f x)) -> Appends b (forEach l body) (flat_map f l).
Proof.
  intros Hbody. induction l as [|x l IH]; cbn [forEach flat_map].
  - apply Appends_ret.
  - apply Appends_bind; [apply Hbody | intros _; exact IH].
Qed.
End AppendsRules.

(** ** Any order of visit is one a [range] can take *)

Section AnyOrder.
Context {V : Type}.
Variable rank : string -> Z.

Lemma insertBy_between (x : string * V) (l1 l2 : list (string * V)) :
  Forall (fun y => before rank y x) l1 -> Forall (fun y => before rank x y) l2 ->
  insertBy rank x (l1 ++ l2) = l1 ++ x :: l2.
Proof.
  unfold before. induction 1 as [|y l1 Hy Hl1 IH]; intros Hl2; cbn.
  - destruct Hl2 as [|y l2 Hy Hl2]; [reflexivity|]. cbn.
    destruct (Z.leb_spec (rank x.1) (rank y.1)); [reflexivity | lia].
  - destruct (Z.leb_spec (rank x.1) (rank y.1)); [lia|]. now rewrite IH.
Qed.

Lemma sorted_split (l1 l2 : list (string * V)) (x : string * V) :
  StronglySorted (before rank) (l1 ++ x :: l2) ->
  StronglySorted (before rank) (l1 ++ l2) /\
  Forall (fun y => before rank y x) l1 /\ Forall (fun y => before rank x y) l2.
Proof.
  induction l1 as [|y l1 IH]; cbn; intros Hs.
  - apply StronglySorted_inv in Hs. destruct Hs as [Hs Hx]. auto.
  - apply StronglySorted_inv in Hs. destruct Hs as [Hs Hy].
    destruct (IH Hs) as (Hs' & H1 & H2).
    rewrite Forall_app in Hy. destruct Hy as [Hy1 Hy2].
    apply Forall_cons_1 in Hy2. destruct Hy2 as [Hyx Hy2].
    repeat split; [|constructor; assumption | exact H2].
    constructor; [exact Hs' | now apply Forall_app].
Qed.

(** Sorting by a rank that rises along [l] gives [l], whatever the order
    of its entries was. *)
Lemma sortBy_target (l' : list (string * V)) : forall l : list (string * V),
  StronglySorted (before rank) l -> l' ≡ₚ l -> sortBy rank l' = l.
Proof.
  induction l' as [|x l' IH]; intros l Hs Hp.
  - apply Permutation_nil_l in Hp. now subst.
  - assert (Hx : x ∈ l) by (rewrite <- Hp; apply list_elem_of_here).
    apply list_elem_of_split in Hx. destruct Hx as (l1 & l2 & ->).
    apply Permutation_cons_app_inv in Hp.
    destruct (sorted_split l1 l2 x Hs) as (Hs' & H1 & H2).
    unfold sortBy. cbn [foldr]. fold (sortBy rank l').
    rewrite (IH (l1 ++ l2) Hs' Hp). now apply insertBy_between.
Qed.
End AnyOrder.

Lemma StronglySorted_weaken {A : Type} (R R' : A -> A -> Prop) (l : list A) :
  StronglySorted R l ->
  (forall x y, x ∈ l -> y ∈ l -> R x y -> R' x y) ->
  StronglySorted R' l.
Proof.
  induction 1 as [|x l Hs IH Hall]; intros Himp; constructor.
  - apply IH. intros y z Hy Hz. apply Himp; now right.
  - apply Forall_forall. intros y Hy. rewrite Forall_forall in Hall.
    apply Himp; [left | now right | now apply Hall].
Qed.

Lemma place_nonneg (keys : list string) (k : string) : 0 <= place keys k.
Proof.
  induction keys as [|k' keys IH]; cbn; [lia|]. destruct (String.eqb k k'); lia.
Qed.

Lemma place_sorted {V : Type} (l : list (string * V)) :
  NoDup (List.map fst l) ->
  StronglySorted (before (place (List.map fst l))) l.
Proof.
  induction l as [|[k v] l IH]; cbn [List.map fst]; intros Hnd; [constructor|].
  apply NoDup_cons in Hnd. destruct Hnd as [Hk Hnd].
  assert (Hne : forall y, y ∈ l -> String.eqb (fst y) k = false).
  { intros y Hy. apply String.eqb_neq. intros Heq. apply Hk. rewrite <- Heq.
    apply list_elem_of_fmap. now exists y. }
  constructor.
  - apply (StronglySorted_weaken (before (place (List.map fst l)))); [now apply IH|].
    intros x y Hx Hy. unfold before. cbn [place].
    rewrite (Hne x Hx), (Hne y Hy). lia.
  - apply Forall_forall. intros y Hy. unfold before. cbn [place fst].
    rewrite String.eqb_refl, (Hne y Hy).
    pose proof (place_nonneg (List.map fst l) y.1). lia.
Qed.

(** Every order of the entries of a map is one the surroundings can make
    the next [range] take. *)
Lemma rangeMap_any_order {V : Type} (m : gmap string V) (visited : list (string * V))
    (clock : nat -> Time) (done : nat -> option error) (w : World) :
  visited ≡ₚ map_to_list m ->
  exists rank : nat -> string -> Z,
    valueOf (rangeMap (H := Build_Surroundings clock done rank) m w) = visited.
Proof.
  intros Hp. exists (fun _ => place (List.map fst visited)).
  unfold rangeMap, valueOf. cbn [fst rangeRank].
  apply sortBy_target; [|now symmetry].
  apply place_sorted. rewrite Hp. apply NoDup_fst_map_to_list.
Qed.

(** * The StatsD aggregator *)


(** The example of the specification: [requests:5|c] then [requests:3|c]
    give a counter cell with value 8. *)
Lemma counter_five_then_three :
  StatsD.Value <$>
    (StatsD.metrics (StatsD.fed (H := Reference.platform) (H0 := Reference.quiet)
                       ["requests:5|c"; "requests:3|c"]) !! "requests") = Some 8%float.
Proof. vm_compute. reflexivity. Qed.

(** C2 on the code: a counter whose first line carries a sample rate.  The
    two lines [requests:5|c|@0.5] and [requests:3|c|@0.5] go to one cell;
    the sum of [value / sampleRate] over them is 16, the cell holds 11: the
    first observation enters the cell with its value as it is, and only
    the later ones are divided by their rate. *)
Lemma counter_first_observation_not_scaled :
  let lines := ["requests:5|c|@0.5"; "requests:3|c|@0.5"] in
  let s := StatsD.fed (H := Reference.platform) (H0 := Reference.quiet) lines in
  StatsD.scaledSum (omap (StatsD.parseStatsDLine (H := Reference.platform)) lines)
    = 16%float /\
  StatsD.Value <$> (StatsD.metrics s !! "requests") = Some 11%float /\
  size (StatsD.metrics s) = 1%nat.
Proof. vm_compute. repeat split; reflexivity. Qed.

(** The example of the specification: [latency:10|ms] then [latency:30|ms]
    give a cell with count 2, sum 40, minimum 10 and maximum 30. *)
Lemma timer_ten_then_thirty :
  (fun c => (StatsD.Count c, StatsD.Sum c, StatsD.Min c, StatsD.Max c)) <$>
    (StatsD.metrics (StatsD.fed (H := Reference.platform) (H0 := Reference.quiet)
                       ["latency:10|ms"; "latency:30|ms"]) !! "latency")
  = Some (2, 40%float, 10%float, 30%float).
Proof. vm_compute. reflexivity. Qed.

(** A malformed line among valid ones, in one datagram. *)
Lemma bad_line_among_valid_lines :
  let s := StatsD.fed (H := Reference.platform) (H0 := Reference.quiet)
             ["latency:10|ms" +:+ String "010" "bad_line" +:+ String "010" "latency:30|ms"] in
  (fun c => (StatsD.Count c, StatsD.Sum c, StatsD.Min c, StatsD.Max c)) <$>
    (StatsD.metrics s !! "latency") = Some (2, 40%float, 10%float, 30%float) /\
  size (StatsD.metrics s) = 1%nat.
Proof. vm_compute. split; reflexivity. Qed.

(** C8 on the code: two timer lines with the same name and the same two
    tags.  The key of a cell is built by a [range] over the tags of the
    incoming metric, and nothing sorts them: when the two [range]s visit
    the tags in different orders, as Go allows, the lines go to two cells
    with count 1 each, and no cell has count 2. *)
Lemma timer_cells_split_by_range_order :
  let lines := ["latency:10|ms|#env:prod,dc:eu"; "latency:30|ms|#dc:eu,env:prod"] in
  let s := StatsD.fed (H := Reference.platform) (H0 := Reference.shuffling) lines in
  (StatsD.Tags <$> StatsD.parseStatsDLine (H := Reference.platform) "latency:10|ms|#env:prod,dc:eu")
    = (StatsD.Tags <$> StatsD.parseStatsDLine (H := Reference.platform) "latency:30|ms|#dc:eu,env:prod") /\
  StatsD.Count <$> (StatsD.metrics s !! "latency,env=prod,dc=eu") = Some 1 /\
  StatsD.Count <$> (StatsD.metrics s !! "latency,dc=eu,env=prod") = Some 1 /\
  size (StatsD.metrics s) = 2%nat.
Proof. vm_compute. repeat split; reflexivity. Qed.

Section AppendsSteps.
Context (b : Builder.MetricsBuilder).

Lemma Appends_then {A B : Type} (m : M A) (k : A -> M B) rs :
  Appends b m [] -> (forall a, Appends b (k a) rs) -> Appends b (bind m k) rs.
Proof. intros Hm Hk. apply (Appends_bind b m k [] rs Hm Hk). Qed.

Lemma Appends_first {A B : Type} (m : M A) (k : A -> M B) r rs :
  Appends b m [r] -> (forall a, Appends b (k a) rs) -> Appends b (bind m k) (r :: rs).
Proof. intros Hm Hk. apply (Appends_bind b m k [r] rs Hm Hk). Qed.
End AppendsSteps.

Section StatsDFacts.
Context `{Platform} `{Surroundings}.

(** A line that does not parse leaves the scraper and the world as they
    are. *)
Lemma ingest_malformed (s : StatsD.StatsDScraper) (line : string) (w : World) :
  StatsD.parseStatsDLine line = None -> StatsD.ingest s line w = (s, w, []).
Proof.
  intros Hp. unfold StatsD.ingest. rewrite Hp. now destruct (String.eqb line "").
Qed.

(** The first observation of a key makes its cell from the metric as it
    is. *)
Lemma aggregateAt_first (key : string) (metric : StatsD.StatsDMetric)
    (table : gmap string StatsD.StatsDMetric) :
  table !! key = None ->
  StatsD.aggregateAt key metric table !! key = Some (StatsD.firstCell metric).
Proof. intros Hk. unfold StatsD.aggregateAt. rewrite Hk. apply lookup_insert_eq. Qed.

(** A counter line on an existing cell adds [value / sampleRate]. *)
Lemma aggregateAt_counter (key : string) (metric existing : StatsD.StatsDMetric)
    (table : gmap string StatsD.StatsDMetric) :
  table !! key = Some existing ->
  StatsD.Type' metric = "c" ->
  StatsD.Value <$> (StatsD.aggregateAt key metric table !! key) =
  Some (PrimFloat.add (StatsD.Value existing)
          (PrimFloat.div (StatsD.Value metric) (StatsD.SampleRate metric))).
Proof.
  intros Hk Hc. unfold StatsD.aggregateAt. rewrite Hk, lookup_insert_eq.
  unfold StatsD.update. rewrite Hc. reflexivity.
Qed.

(** A timer line on an existing cell counts one more observation, adds
    its value to the sum and moves the minimum and the maximum. *)
Lemma aggregateAt_timer (key : string) (metric existing : StatsD.StatsDMetric)
    (table : gmap string StatsD.StatsDMetric) :
  table !! key = Some existing ->
  StatsD.Type' metric = "ms" \/ StatsD.Type' metric = "h" ->
  exists cell,
    StatsD.aggregateAt key metric table !! key = Some cell /\
    StatsD.Count cell = wrap64 (StatsD.Count existing + 1) /\
    StatsD.Sum cell = PrimFloat.add (StatsD.Sum existing) (StatsD.Value metric) /\
    StatsD.Min cell = (if PrimFloat.ltb (StatsD.Value metric) (StatsD.Min existing)
                       then StatsD.Value metric else StatsD.Min existing) /\
    StatsD.Max cell = (if PrimFloat.ltb (StatsD.Max existing) (StatsD.Value metric)
                       then StatsD.Value metric else StatsD.Max existing).
Proof.
  intros Hk Ht. unfold StatsD.aggregateAt. rewrite Hk, lookup_insert_eq.
  eexists. split; [reflexivity|].
  unfold StatsD.update. destruct Ht as [-> | ->]; cbn; auto.
Qed.

(** Cells under other keys are left alone. *)
Lemma aggregateAt_other (key key' : string) (metric : StatsD.StatsDMetric)
    (table : gmap string StatsD.StatsDMetric) :
  key <> key' -> StatsD.aggregateAt key metric table !! key' = table !! key'.
Proof.
  intros Hne. unfold StatsD.aggregateAt.
  destruct (table !! key); now rewrite lookup_insert_ne.
Qed.

(** What [Scrape] records for a cell. *)
Lemma emitCell_appends (b : Builder.MetricsBuilder) (metric : StatsD.StatsDMetric) :
  Appends b (StatsD.emitCell b metric) (StatsD.cellReadings metric).
Proof.
  unfold StatsD.emitCell, StatsD.cellReadings.
  destruct (String.eqb (StatsD.Type' metric) "c").
  { apply Appends_then; [apply Appends_timeNow | intros now; apply Appends_append]. }
  destruct (String.eqb (StatsD.Type' metric) "g").
  { apply Appends_then; [apply Appends_timeNow | intros now; apply Appends_append]. }
  destruct (String.eqb (StatsD.Type' metric) "ms" || String.eqb (StatsD.Type' metric) "h").
  2: { apply Appends_ret. }
  destruct (0 <? StatsD.Count metric); [|apply Appends_ret].
  apply Appends_then; [apply Appends_timeNow | intros now].
  unfold Builder.RecordGenericTimer.
  apply Appends_first; [apply Appends_append | intros _].
  apply Appends_first; [apply Appends_append | intros _].
  apply Appends_append.
Qed.

(** One scrape: the handle of the builder comes back, the scraper is as
    it was, and the collection has got the readings of the cells, in the
    order of this scrape's [range]. *)
Lemma Scrape_spec (s : StatsD.StatsDScraper) (w : World) :
  Builder.ready (StatsD.mb s) w = true ->
  let r := StatsD.Scrape s w in
  valueOf r = (Builder.metrics (StatsD.mb s), None, s) /\
  Builder.ready (StatsD.mb s) (worldOf r) = true /\
  exists news,
    Builder.content (Builder.metrics (StatsD.mb s)) (worldOf r) =
      Builder.content (Builder.metrics (StatsD.mb s)) w ++ news /\
    List.map pmetric.reading news ≡ₚ
      flat_map (fun cell => StatsD.cellReadings (snd cell))
        (map_to_list (StatsD.metrics s)).
Proof.
  intros Hr r. subst r. unfold StatsD.Scrape.
  set (cells := sortBy (rangeRank (ranges w)) (map_to_list (StatsD.metrics s))).
  set (rest := fun cells : list (string * StatsD.StatsDMetric) =>
    (forEach cells (fun '(_, metric) => StatsD.emitCell (StatsD.mb s) metric) ;;
     log DebugLevel "Scraped StatsD metrics"
       [zInt "metric_count" (Z.of_nat (size (StatsD.metrics s)))] ;;
     handle <- Builder.Emit (StatsD.mb s) ;;
     ret (handle, None, s))).
  assert (Hrest : Appends (StatsD.mb s) (rest cells)
                    (flat_map (fun cell => StatsD.cellReadings (snd cell)) cells ++ [])).
  { subst rest. cbv beta. apply Appends_bind.
    - apply Appends_forEach. intros [k metric]. apply emitCell_appends.
    - intros _. apply Appends_then; [apply Appends_emit | intros _].
      apply Appends_then; [apply Appends_ret | intros handle]. apply Appends_ret. }
  rewrite app_nil_r in Hrest.
  split; [|].
  - rewrite valueOf_bind. subst rest. cbv beta.
    rewrite valueOf_bind, valueOf_bind, valueOf_bind. reflexivity.
  - rewrite worldOf_bind. fold cells.
    change (fun cells0 : list (string * StatsD.StatsDMetric) => ?f cells0) with rest.
    set (w1 := worldOf (rangeMap (StatsD.metrics s) w)).
    assert (Hr1 : Builder.ready (StatsD.mb s) w1 = true) by exact Hr.
    destruct (Hrest w1 Hr1) as (Hr2 & news & Hc & Hrd).
    split; [exact Hr2|]. exists news. split; [exact Hc|].
    rewrite Hrd. subst cells. now rewrite sortBy_perm.
Qed.
End StatsDFacts.

Section ListenerFacts.
Context `{Platform} `{Surroundings}.

(** The listener writes the table only: the builder of the scraper and the
    store stay as they are. *)
Lemma ingest_keeps_builder (s : StatsD.StatsDScraper) (line : string) (w : World) :
  StatsD.mb (valueOf (StatsD.ingest s line w)) = StatsD.mb s /\
  heap (worldOf (StatsD.ingest s line w)) = heap w.
Proof.
  unfold StatsD.ingest. destruct (String.eqb line ""); [now split|].
  destruct (StatsD.parseStatsDLine line) as [metric|]; now split.
Qed.

Lemma foldM_keeps_builder {A : Type} (l : list A)
    (body : StatsD.StatsDScraper -> A -> M StatsD.StatsDScraper) :
  (forall s x w, StatsD.mb (valueOf (body s x w)) = StatsD.mb s /\
                 heap (worldOf (body s x w)) = heap w) ->
  forall s w, StatsD.mb (valueOf (foldM l body s w)) = StatsD.mb s /\
              heap (worldOf (foldM l body s w)) = heap w.
Proof.
  intros Hbody. induction l as [|x l IH]; intros s w; [now split|].
  rewrite foldM_cons, valueOf_bind, worldOf_bind.
  destruct (Hbody s x w) as [Hmb Hheap].
  destruct (IH (valueOf (body s x w)) (worldOf (body s x w))) as [Hmb' Hheap'].
  split; congruence.
Qed.

Lemma listen_keeps_builder (datagrams : list string) (s : StatsD.StatsDScraper) (w : World) :
  StatsD.mb (valueOf (StatsD.listen datagrams s w)) = StatsD.mb s /\
  heap (worldOf (StatsD.listen datagrams s w)) = heap w.
Proof.
  unfold StatsD.listen. apply foldM_keeps_builder. intros s' data w'.
  unfold StatsD.parseAndAggregate. apply foldM_keeps_builder. apply ingest_keeps_builder.
Qed.

(** Whatever the listener of a new scraper has read, the collection of its
    builder is there for [Scrape]. *)
Lemma listen_ready (datagrams : list string) (w : World) :
  let r := (s <- StatsD.NewStatsDScraper ;; StatsD.listen datagrams s) w in
  Builder.ready (StatsD.mb (valueOf r)) (worldOf r) = true.
Proof.
  intros r. subst r. rewrite valueOf_bind, worldOf_bind.
  destruct (listen_keeps_builder datagrams (valueOf (StatsD.NewStatsDScraper w))
              (worldOf (StatsD.NewStatsDScraper w))) as [Hmb Hheap].
  unfold Builder.ready. rewrite Hmb, Hheap.
  unfold StatsD.NewStatsDScraper, Builder.NewMetricsBuilder, Builder.alloc. cbn.
  now rewrite lookup_insert_eq.
Qed.
End ListenerFacts.

(** C7. Two scrapes of the StatsD aggregator with nothing read in between.
    Neither changes the scraper, so no cell is cleared or changed; both
    return the handle of the builder; and the metrics the second one
    records report, cell by cell, the same names, values and attributes as
    those the first one recorded (the order of the cells is that of each
    scrape's [range], the times are those of each scrape). *)
Theorem scrape_twice_same_values `{Platform} `{Surroundings}
    (s : StatsD.StatsDScraper) (w : World) :
  Builder.ready (StatsD.mb s) w = true ->
  let r1 := StatsD.Scrape s w in
  let r2 := StatsD.Scrape (snd (valueOf r1)) (worldOf r1) in
  let a := Builder.metrics (StatsD.mb s) in
  snd (valueOf r1) = s /\ snd (valueOf r2) = s /\
  fst (fst (valueOf r1)) = a /\ fst (fst (valueOf r2)) = a /\
  exists new1 new2,
    Builder.content a (worldOf r1) = Builder.content a w ++ new1 /\
    Builder.content a (worldOf r2) = Builder.content a (worldOf r1) ++ new2 /\
    List.map pmetric.reading new1 ≡ₚ
      flat_map (fun cell => StatsD.cellReadings (snd cell))
        (map_to_list (StatsD.metrics s)) /\
    List.map pmetric.reading new2 ≡ₚ List.map pmetric.reading new1.
Proof.
  intros Hr r1 r2 a.
  destruct (Scrape_spec s w Hr) as (Hv1 & Hr1 & new1 & Hc1 & Hp1).
  fold r1 in Hv1, Hr1, Hc1.
  assert (Hs1 : snd (valueOf r1) = s) by now rewrite Hv1.
  subst r2. rewrite Hs1.
  destruct (Scrape_spec s (worldOf r1) Hr1) as (Hv2 & Hr2 & new2 & Hc2 & Hp2).
  rewrite Hv1, Hv2. cbn [fst snd]. repeat split.
  exists new1, new2. repeat split; [exact Hc1 | exact Hc2 | exact Hp1 |].
  now rewrite Hp1, Hp2.
Qed.

(** C7, after [requests:5|c], [load:0.5|g] and two [latency] timings: each
    scrape adds the same five readings. *)
Lemma scrape_twice_same_values_witness :
  let r0 := (s <- StatsD.NewStatsDScraper ;;
             StatsD.listen (H := Reference.platform) (H0 := Reference.quiet)
               ["requests:5|c"; "load:0.5|g"; "latency:10|ms"; "latency:30|ms"] s)
              emptyWorld in
  let s := valueOf r0 in
  let r1 := StatsD.Scrape (H0 := Reference.quiet) s (worldOf r0) in
  let r2 := StatsD.Scrape (H0 := Reference.quiet) (snd (valueOf r1)) (worldOf r1) in
  let a := Builder.metrics (StatsD.mb s) in
  snd (valueOf r1) = s /\ snd (valueOf r2) = s /\
  fst (fst (valueOf r1)) = a /\ fst (fst (valueOf r2)) = a /\
  exists new1 new2,
    Builder.content a (worldOf r1) = Builder.content a (worldOf r0) ++ new1 /\
    Builder.content a (worldOf r2) = Builder.content a (worldOf r1) ++ new2 /\
    List.map pmetric.reading new1 ≡ₚ
      flat_map (fun cell => StatsD.cellReadings (snd cell))
        (map_to_list (StatsD.metrics s)) /\
    List.map pmetric.reading new2 ≡ₚ List.map pmetric.reading new1.
Proof.
  intros r0 s.
  apply (scrape_twice_same_values (H := Reference.platform) (H0 := Reference.quiet)
           s (worldOf r0)).
  vm_compute. reflexivity.
Defined.

(** The same scrapes, computed: one [requests] sum of 5, one [load] gauge
    and the three [latency] gauges, twice over in the collection after the
    second scrape. *)
Lemma scrape_twice_computed :
  let r0 := (s <- StatsD.NewStatsDScraper ;;
             StatsD.listen (H := Reference.platform) (H0 := Reference.quiet)
               ["requests:5|c"; "load:0.5|g"; "latency:10|ms"; "latency:30|ms"] s)
              emptyWorld in
  let r1 := StatsD.Scrape (H0 := Reference.quiet) (valueOf r0) (worldOf r0) in
  let r2 := StatsD.Scrape (H0 := Reference.quiet) (snd (valueOf r1)) (worldOf r1) in
  let shown r :=
    List.map (fun m => (pmetric.Name m, pmetric.Value (pmetric.point m)))
      (Builder.content (fst (fst (valueOf r))) (worldOf r)) in
  let once :=
    [("requests", pmetric.IntValue 5);
     ("load", pmetric.DoubleValue 0.5%float);
     ("latency.avg", pmetric.DoubleValue 20%float);
     ("latency.min", pmetric.DoubleValue 10%float);
     ("latency.max", pmetric.DoubleValue 30%float)] in
  shown r1 = once /\ shown r2 = once ++ once.
Proof. vm_compute. split; reflexivity. Qed.

(** * The incremental log adapter *)

Section SelectFacts.
Variable arg : Z.

Lemma insertRow_perm (r : Logs.Row) (l : list Logs.Row) : Logs.insertRow r l ≡ₚ r :: l.
Proof.
  induction l as [|r' l IH]; cbn; [reflexivity|].
  destruct (Logs.id r <=? Logs.id r'); [reflexivity|].
  rewrite IH. apply Permutation_swap.
Qed.

Lemma orderById_perm (l : list Logs.Row) : Logs.orderById l ≡ₚ l.
Proof.
  unfold Logs.orderById. induction l as [|r l IH]; cbn; [reflexivity|].
  now rewrite insertRow_perm, IH.
Qed.

Lemma insertRow_sorted (r : Logs.Row) (l : list Logs.Row) :
  StronglySorted Logs.byId l -> StronglySorted Logs.byId (Logs.insertRow r l).
Proof.
  induction 1 as [|r' l Hs IH Hall]; cbn.
  - repeat constructor.
  - destruct (Z.leb_spec (Logs.id r) (Logs.id r')) as [Hle|Hgt].
    + constructor; [now constructor|].
      constructor; [exact Hle|].
      eapply Forall_impl; [exact Hall|]. unfold Logs.byId. cbn. intros x Hx. lia.
    + constructor; [exact IH|].
      rewrite insertRow_perm. constructor; [unfold Logs.byId; lia | exact Hall].
Qed.

Lemma orderById_sorted (l : list Logs.Row) : StronglySorted Logs.byId (Logs.orderById l).
Proof.
  unfold Logs.orderById. induction l as [|r l IH]; cbn; [constructor|].
  now apply insertRow_sorted.
Qed.

Lemma firstn_sorted (n : nat) (l : list Logs.Row) :
  StronglySorted Logs.byId l -> StronglySorted Logs.byId (firstn n l).
Proof.
  intros Hs. revert n. induction Hs as [|r l Hs IH Hall]; intros [|n]; cbn;
    try constructor; [apply IH|].
  now apply Forall_take.
Qed.

(** The answer to the query: rows of the table above the argument, by
    ascending id, 1000 at most. *)
Lemma selectLogs_answer (table : list Logs.Row) :
  Forall (fun r => arg < Logs.id r /\ r ∈ table) (Logs.selectLogs table arg) /\
  StronglySorted Logs.byId (Logs.selectLogs table arg) /\
  (length (Logs.selectLogs table arg) <= 1000)%nat.
Proof.
  unfold Logs.selectLogs. repeat split.
  - apply Forall_take. rewrite orderById_perm.
    apply Forall_forall. intros r Hr.
    apply list_elem_of_In, List.filter_In in Hr. destruct Hr as [Hin Hlt].
    split; [now apply Z.ltb_lt | now apply list_elem_of_In].
  - apply firstn_sorted, orderById_sorted.
  - apply firstn_le_length.
Qed.
End SelectFacts.

Lemma highest_ge (rows : list Logs.Row) (w : Z) : w <= Logs.highest rows w.
Proof.
  unfold Logs.highest. revert w. induction rows as [|r rows IH]; intros w; cbn; [lia|].
  destruct (Logs.scans r); [|apply IH]. etransitivity; [|apply IH]. lia.
Qed.

Section LogFacts.
Context `{Platform} `{Logs.Codec} `{Surroundings}.

(** The watermark after the loop over the rows. *)
Lemma scanRows_watermark (rows : list Logs.Row) :
  forall (s : Logs.LogScraper) (logCount : Z) (w : World),
    Logs.lastScrapedLogID (fst (valueOf (foldM rows Logs.scanRow (s, logCount) w))) =
    Logs.highest rows (Logs.lastScrapedLogID s).
Proof.
  induction rows as [|r rows IH]; intros s logCount w; [reflexivity|].
  rewrite foldM_cons, valueOf_bind. unfold Logs.highest. cbn [fold_left].
  fold (Logs.highest rows (if Logs.scans r
                           then Z.max (Logs.lastScrapedLogID s) (Logs.id r)
                           else Logs.lastScrapedLogID s)).
  unfold Logs.scanRow at 2 3, Logs.scans, Logs.Scan.
  destruct (Logs.dttm r) as [t|].
  - rewrite valueOf_bind. cbn [valueOf fst snd ret].
    match goal with |- context [foldM rows Logs.scanRow (?s1, ?c1) ?w1] =>
      rewrite (IH s1 c1 w1) end.
    cbn [Logs.lastScrapedLogID Logs.sId]. f_equal.
    destruct (Z.ltb_spec (Logs.lastScrapedLogID s) (Logs.id r)); lia.
  - rewrite valueOf_bind. cbn [valueOf fst snd ret]. apply IH.
Qed.

(** The watermark after a scrape. *)
Lemma Scrape_watermark (db : Logs.Database) (s : Logs.LogScraper) (w : World) :
  Logs.lastScrapedLogID (snd (valueOf (Logs.Scrape db s w))) =
  match Logs.refused db with
  | Some _ => Logs.lastScrapedLogID s
  | None =>
      Logs.highest (fst (Logs.delivered db (Logs.lastScrapedLogID s)))
        (Logs.lastScrapedLogID s)
  end.
Proof.
  unfold Logs.Scrape. destruct (Logs.refused db) as [err|]; [reflexivity|].
  cbn [Logs.lastScrapedLogID].
  destruct (Logs.delivered db (Logs.lastScrapedLogID s)) as [rows rowsErr].
  rewrite valueOf_bind. cbn [fst].
  pose proof (scanRows_watermark rows
    {| Logs.lb := Logs.NewLogsBuilder; Logs.lastScrapedLogID := Logs.lastScrapedLogID s |}
    0 w) as Hw.
  destruct (valueOf (foldM rows Logs.scanRow _ w)) as [s1 logCount]. cbn [fst] in Hw.
  cbn [Logs.lastScrapedLogID] in Hw.
  destruct rowsErr as [err|]; [exact Hw|].
  rewrite valueOf_bind. exact Hw.
Qed.
End LogFacts.

(** C5. The watermark of a new log scraper is 0, and no scrape lowers it.
    A scrape asks for the rows of the table whose id is above the
    watermark, by ascending id, 1000 at most, and leaves the watermark at
    the highest of its old value and the ids of the rows delivered that
    scan (at its old value when the query is refused).  With the rows 5, 7
    and 9 in the table, the first scrape of a new scraper emits three
    records and leaves the watermark at 9; the next one asks for the ids
    above 9, gets no row, emits nothing and leaves the watermark at 9. *)
Theorem log_watermark `{Platform} `{Logs.Codec} `{Surroundings}
    (db : Logs.Database) (s : Logs.LogScraper) (w : World) :
  let s' := snd (valueOf (Logs.Scrape db s w)) in
  let asked := Logs.selectLogs (Logs.table db) (Logs.lastScrapedLogID s) in
  Logs.lastScrapedLogID Logs.NewLogScraper = 0 /\
  Logs.lastScrapedLogID s <= Logs.lastScrapedLogID s' /\
  Forall (fun r => Logs.lastScrapedLogID s < Logs.id r /\ r ∈ Logs.table db) asked /\
  StronglySorted Logs.byId asked /\
  (length asked <= 1000)%nat /\
  Logs.lastScrapedLogID s' =
    match Logs.refused db with
    | Some _ => Logs.lastScrapedLogID s
    | None =>
        Logs.highest (fst (Logs.delivered db (Logs.lastScrapedLogID s)))
          (Logs.lastScrapedLogID s)
    end /\
  (let scrape := Logs.Scrape (H := Reference.platform) (H0 := Reference.noJson)
                   (H1 := Reference.quiet) Reference.threeRows in
   let r1 := scrape Logs.NewLogScraper emptyWorld in
   let r2 := scrape (snd (valueOf r1)) (worldOf r1) in
   List.map Logs.id (Logs.selectLogs (Logs.table Reference.threeRows) 0) = [5; 7; 9] /\
   length (Logs.logRecords (fst (fst (valueOf r1)))) = 3%nat /\
   Logs.lastScrapedLogID (snd (valueOf r1)) = 9 /\
   Logs.selectLogs (Logs.table Reference.threeRows) 9 = [] /\
   Logs.logRecords (fst (fst (valueOf r2))) = [] /\
   Logs.lastScrapedLogID (snd (valueOf r2)) = 9).
Proof.
  intros s' asked.
  destruct (selectLogs_answer (Logs.lastScrapedLogID s) (Logs.table db)) as (Ha & Hs & Hl).
  pose proof (Scrape_watermark db s w) as Hw. fold s' in Hw.
  split; [reflexivity|].
  split; [rewrite Hw; destruct (Logs.refused db); [lia | apply highest_ge]|].
  split; [exact Ha|]. split; [exact Hs|]. split; [exact Hl|]. split; [exact Hw|].
  vm_compute. repeat split; reflexivity.
Qed.

(** * The REST fan-out adapter *)

(** C1 on the code: a server that answers 401 to every request.  The
    closure of [doRequest] returns "authentication failed", the executor
    has no notion of an error that is not to be retried, and under the
    default policy the request is sent three times, with waits of one and
    two seconds in between. *)
Lemma doRequest_retries_authentication_failure :
  let cfg := REST.mkRESTAPIConfig "http://airflow:8080" "admin" "secret" 0 false 0 in
  let r := (s <- REST.NewRESTAPIScraper cfg ;;
            REST.doRequest (H := Reference.platform) (H0 := Reference.quiet)
              (H1 := Reference.answering 401) s "/api/v1/dags") emptyWorld in
  snd (valueOf r) = Some (errorString "authentication failed: status code 401") /\
  requests (worldOf r) =
    ["http://airflow:8080/api/v1/dags"; "http://airflow:8080/api/v1/dags";
     "http://airflow:8080/api/v1/dags"] /\
  Retry.invocations (eventsOf r) = 3 /\
  Retry.waits (eventsOf r) = [1000000000; 2000000000].
Proof. vm_compute. repeat split; reflexivity. Qed.

(** The runs of [Reference.twoRuns] against a server that answers 200: the
    run with the identifier gives one duration record and counts as one
    run in state [success]; the run without gives the warning only. *)
Lemma identified_run_is_recorded :
  let cfg := REST.mkRESTAPIConfig "http://airflow:8080" "admin" "secret" 0 false 0 in
  let r := (s <- REST.NewRESTAPIScraper cfg ;;
            REST.scrapeRuns (H := Reference.platform) (H0 := Reference.quiet)
              (H1 := Reference.answering 200) (H2 := Reference.emptyLists)
              s 7 (REST.DAG.mk "etl" false []) Reference.twoRuns) emptyWorld in
  List.map (fun m => (pmetric.Name m, pmetric.Value (pmetric.point m),
                      pmetric.Attributes (pmetric.point m) !! "dag_run.id"))
    (Builder.content 0%nat (worldOf r)) =
    [("airflow.dag.run.duration", pmetric.DoubleValue 1%float,
      Some (pmetric.AStr "manual__1"));
     ("airflow.dag_runs.by_state", pmetric.IntValue 1, None)] /\
  requests (worldOf r) =
    ["http://airflow:8080/api/v1/dags/etl/dagRuns/manual__1/taskInstances"] /\
  List.filter REST.isSkipWarning (eventsOf r) =
    [Logged (mkEntry WarnLevel "Empty dag_run_id, skipping"
               [zString "dag_id" "etl"; zString "state" "success"])].
Proof. vm_compute. repeat split; reflexivity. Qed.

Lemma exceptWarnings_refl (evs : list Event) : REST.exceptWarnings evs evs.
Proof. induction evs; constructor; assumption. Qed.

Lemma exceptWarnings_app (evs1 evs2 evs1' evs2' : list Event) :
  REST.exceptWarnings evs1 evs2 -> REST.exceptWarnings evs1' evs2' ->
  REST.exceptWarnings (evs1 ++ evs1') (evs2 ++ evs2').
Proof.
  induction 1; intros H'; cbn; [assumption | constructor; auto |].
  apply REST.exceptWarnings_drop; auto.
Qed.

Lemma alike_refl {A : Type} (r : A * World * list Event) : REST.alike r r.
Proof. repeat split. apply exceptWarnings_refl. Qed.

Lemma alike_bind {A B : Type} (m1 m2 : M A) (k : A -> M B) (w : World) :
  REST.alike (m1 w) (m2 w) -> REST.alike (bind m1 k w) (bind m2 k w).
Proof.
  intros (Hv & Hw & He). unfold REST.alike.
  rewrite !valueOf_bind, !worldOf_bind, !eventsOf_bind, Hv, Hw.
  repeat split. apply exceptWarnings_app; [exact He | apply exceptWarnings_refl].
Qed.

Lemma alike_bind_after {A B : Type} (m : M A) (k1 k2 : A -> M B) (w : World) :
  (forall a w', REST.alike (k1 a w') (k2 a w')) -> REST.alike (bind m k1 w) (bind m k2 w).
Proof.
  intros Hk. unfold REST.alike.
  rewrite !valueOf_bind, !worldOf_bind, !eventsOf_bind.
  destruct (Hk (valueOf (m w)) (worldOf (m w))) as (Hv & Hw & He).
  repeat split; [exact Hv | exact Hw |].
  apply exceptWarnings_app; [apply exceptWarnings_refl | exact He].
Qed.

Lemma alike_bind_both {A B : Type} (m1 m2 : M A) (k1 k2 : A -> M B) (w : World) :
  REST.alike (m1 w) (m2 w) -> (forall a w', REST.alike (k1 a w') (k2 a w')) ->
  REST.alike (bind m1 k1 w) (bind m2 k2 w).
Proof.
  intros (Hv & Hw & He) Hk. unfold REST.alike.
  rewrite !valueOf_bind, !worldOf_bind, !eventsOf_bind, Hv, Hw.
  destruct (Hk (valueOf (m2 w)) (worldOf (m2 w))) as (Hv' & Hw' & He').
  repeat split; [exact Hv' | exact Hw' |].
  now apply exceptWarnings_app.
Qed.

Section SkipFacts.
Context `{Platform} `{Surroundings} `{REST.Network} `{REST.Decoder}.
Variable s : REST.RESTAPIScraper.
Variable ts : Z.

Lemma tallyRun_unidentified (runsByState : gmap string Z) (run : REST.DAGRun.t) (w : World) :
  String.eqb (REST.DAGRun.DAGRunID run) "" = true ->
  REST.tallyRun s ts runsByState run w =
  (runsByState, w,
   [Logged (mkEntry WarnLevel "Empty dag_run_id, skipping"
              [zString "dag_id" (REST.DAGRun.DAGID run);
               zString "state" (REST.DAGRun.State run)])]).
Proof. intros Hid. unfold REST.tallyRun. rewrite Hid. reflexivity. Qed.

Lemma scrapeTasks_unidentified (dag : REST.DAG.t) (run : REST.DAGRun.t) (w : World) :
  String.eqb (REST.DAGRun.DAGRunID run) "" = true ->
  REST.scrapeTasks s ts dag run w = (tt, w, []).
Proof. intros Hid. unfold REST.scrapeTasks. rewrite Hid. reflexivity. Qed.

(** The first loop over the runs. *)
Lemma tallyRun_skips (runs : list REST.DAGRun.t) :
  forall (runsByState : gmap string Z) (w : World),
    REST.alike (foldM runs (REST.tallyRun s ts) runsByState w)
          (foldM (List.filter REST.identified runs) (REST.tallyRun s ts) runsByState w).
Proof.
  induction runs as [|run runs IH]; intros runsByState w; [apply alike_refl|].
  cbn [List.filter]. unfold REST.identified at 1.
  destruct (String.eqb (REST.DAGRun.DAGRunID run) "") eqn:Hid; cbn [negb].
  - rewrite foldM_cons.
    specialize (IH runsByState w). destruct IH as (Hv & Hw & He).
    unfold REST.alike. rewrite valueOf_bind, worldOf_bind, eventsOf_bind.
    rewrite (tallyRun_unidentified runsByState run w Hid).
    cbn [valueOf worldOf eventsOf fst snd app].
    repeat split; [exact Hv | exact Hw |].
    apply REST.exceptWarnings_drop; [reflexivity | exact He].
  - rewrite !foldM_cons. apply alike_bind_after. intros a w'. apply IH.
Qed.

(** The second loop over the runs. *)
Lemma scrapeTasks_skips (dag : REST.DAG.t) (runs : list REST.DAGRun.t) :
  forall w : World,
    REST.alike (forEach runs (REST.scrapeTasks s ts dag) w)
          (forEach (List.filter REST.identified runs) (REST.scrapeTasks s ts dag) w).
Proof.
  induction runs as [|run runs IH]; intros w; [apply alike_refl|].
  cbn [List.filter]. unfold REST.identified at 1.
  destruct (String.eqb (REST.DAGRun.DAGRunID run) "") eqn:Hid; cbn [negb].
  - cbn [forEach].
    specialize (IH w). destruct IH as (Hv & Hw & He).
    unfold REST.alike. rewrite valueOf_bind, worldOf_bind, eventsOf_bind.
    rewrite (scrapeTasks_unidentified dag run w Hid).
    cbn [valueOf worldOf eventsOf fst snd app].
    repeat split; [exact Hv | exact Hw | exact He].
  - cbn [forEach]. apply alike_bind_after. intros a w'. apply IH.
Qed.

End SkipFacts.

Lemma scrapeRuns_skips `{Platform} `{Surroundings} `{REST.Network} `{REST.Decoder}
    (s : REST.RESTAPIScraper) (ts : Z) (dag : REST.DAG.t) (dagRuns : list REST.DAGRun.t)
    (w : World) :
  REST.alike (REST.scrapeRuns s ts dag dagRuns w)
             (REST.scrapeRuns s ts dag (List.filter REST.identified dagRuns) w).
Proof.
  unfold REST.scrapeRuns.
  apply alike_bind_both; [apply tallyRun_skips | intros runsByState w1].
  apply alike_bind_after. intros entries w2.
  apply alike_bind_both; [apply alike_refl | intros _ w3].
  apply scrapeTasks_skips.
Qed.

Lemma bind_assoc {A B C : Type} (m : M A) (f : A -> M B) (g : B -> M C) (w : World) :
  bind (bind m f) g w = bind m (fun x => bind (f x) g) w.
Proof.
  unfold bind. destruct (m w) as [[a w1] evs1]. destruct (f a w1) as [[b w2] evs2].
  destruct (g b w2) as [[c w3] evs3]. now rewrite app_assoc.
Qed.

Lemma bind_ret {A B : Type} (a : A) (k : A -> M B) (w : World) :
  bind (ret a) k w = k a w.
Proof. unfold bind, ret. now destruct (k a w) as [[b w'] evs]. Qed.

Lemma alike_forEach {A : Type} (l : list A) (body1 body2 : A -> M unit) :
  (forall x w, REST.alike (body1 x w) (body2 x w)) ->
  forall w, REST.alike (forEach l body1 w) (forEach l body2 w).
Proof.
  intros Hbody. induction l as [|x l IH]; intros w; cbn [forEach]; [apply alike_refl|].
  apply alike_bind_both; [apply Hbody | intros _ w'; apply IH].
Qed.

(** C6. Runs without correlation identifier in the answers of the API
    change nothing but the log: with a decoder that drops them from every
    list of runs, [scrapeDAGMetrics] ends in the same world, with the same
    metrics in every collection (per-state counts, durations, task
    records), the same requests sent, the same readings of the clock, and
    its events are the same but for warnings about those runs. *)
Theorem empty_run_id_skipped `{Platform} `{Surroundings} `{REST.Network}
    (decoder : REST.Decoder) (s : REST.RESTAPIScraper) (ts : Z) (w : World) :
  let r1 := REST.scrapeDAGMetrics (H2 := decoder) s ts w in
  let r2 := REST.scrapeDAGMetrics (H2 := REST.identifiedOnly decoder) s ts w in
  worldOf r1 = worldOf r2 /\
  REST.exceptWarnings (eventsOf r1) (eventsOf r2) /\
  (forall body dagRuns,
     @REST.decodeDAGRuns (REST.identifiedOnly decoder) body = inr dagRuns ->
     Forall (fun run => REST.DAGRun.DAGRunID run <> "") dagRuns).
Proof.
  intros r1 r2.
  assert (Ha : REST.alike r1 r2).
  { subst r1 r2. unfold REST.scrapeDAGMetrics.
    change (REST.getDags (H2 := REST.identifiedOnly decoder) s)
      with (REST.getDags (H2 := decoder) s).
    apply alike_bind_after. intros [err|dags] w1; [apply alike_refl|].
    apply alike_bind_after. intros _ w2.
    apply alike_bind_after. intros counts w3.
    apply alike_bind_after. intros now1 w4.
    apply alike_bind_after. intros _ w5.
    apply alike_bind_after. intros now2 w6.
    apply alike_bind_after. intros _ w7.
    apply alike_forEach. intros dag w8.
    unfold REST.getDAGRuns, REST.fetch. rewrite !bind_assoc.
    apply alike_bind_after. intros path w9. rewrite !bind_assoc.
    apply alike_bind_after. intros [body [err|]] w10; cbn [fst snd].
    - rewrite !bind_ret. apply alike_refl.
    - rewrite !bind_ret. cbn [REST.decodeDAGRuns REST.identifiedOnly].
      destruct (@REST.decodeDAGRuns decoder body) as [err|dagRuns]; [apply alike_refl|].
      apply (scrapeRuns_skips (H2 := decoder)). }
  destruct Ha as (_ & Hw & He). repeat split; [exact Hw | exact He |].
  intros body dagRuns. cbn [REST.decodeDAGRuns REST.identifiedOnly].
  destruct (@REST.decodeDAGRuns decoder body) as [err|runs]; [discriminate|].
  intros [= <-]. apply Forall_forall. intros run Hrun.
  apply list_elem_of_In, List.filter_In in Hrun. destruct Hrun as [_ Hid].
  unfold REST.identified in Hid. intros Heq. rewrite Heq in Hid. discriminate.
Qed.

(** * The collections only grow *)

Lemma Grows_ret {A : Type} (a : A) : Grows (ret a).
Proof. intros w a'. reflexivity. Qed.

Lemma Grows_bind {A B : Type} (m : M A) (k : A -> M B) :
  Grows m -> (forall a, Grows (k a)) -> Grows (bind m k).
Proof.
  intros Hm Hk w a. rewrite worldOf_bind.
  etransitivity; [apply Hm | apply Hk].
Qed.

Lemma Grows_silent {A : Type} (m : M A) :
  (forall w, heap (worldOf (m w)) = heap w) -> Grows m.
Proof. intros Hm w a. unfold Builder.content. now rewrite Hm. Qed.

Lemma Grows_timeNow `{Surroundings} : Grows timeNow.
Proof. now apply Grows_silent. Qed.

Lemma Grows_rangeMap `{Surroundings} {V : Type} (m : gmap string V) : Grows (rangeMap m).
Proof. now apply Grows_silent. Qed.

Lemma Grows_emit (evs : list Event) : Grows (emit evs).
Proof. now apply Grows_silent. Qed.

Lemma Grows_append (mb : Builder.MetricsBuilder) (m : pmetric.Metric) :
  Grows (Builder.append mb m).
Proof.
  intros w a. rewrite content_append.
  destruct (decide (a = Builder.metrics mb)); [|reflexivity].
  destruct (Builder.ready mb w); [apply prefix_app_r|]; reflexivity.
Qed.

(** A new object gets an address that held nothing. *)
Lemma Grows_alloc (ms : pmetric.Metrics) : Grows (Builder.alloc ms).
Proof.
  intros w a. unfold Builder.alloc, Builder.content, worldOf, setHeap. cbn [fst snd heap].
  destruct (decide (a = fresh (dom (heap w)))) as [->|Hne].
  - assert (Hfresh : heap w !! fresh (dom (heap w)) = None).
    { apply not_elem_of_dom, is_fresh. }
    rewrite Hfresh. apply prefix_nil.
  - rewrite lookup_insert_ne by congruence. reflexivity.
Qed.

Lemma Grows_forEach {A : Type} (l : list A) (body : A -> M unit) :
  (forall x, Grows (body x)) -> Grows (forEach l body).
Proof.
  intros Hbody. induction l as [|x l IH]; cbn [forEach].
  - apply Grows_ret.
  - apply Grows_bind; [apply Hbody | intros _; exact IH].
Qed.

Lemma Grows_foldM {A S : Type} (l : list A) (body : S -> A -> M S) (s : S) :
  (forall s x, Grows (body s x)) -> Grows (foldM l body s).
Proof.
  intros Hbody. revert s. induction l as [|x l IH]; intros s; cbn [foldM].
  - apply Grows_ret.
  - apply Grows_bind; [apply Hbody | intros s'; apply IH].
Qed.

(** What holds of the state before the loop of the executor and is kept by
    every call of the operation holds of the state after it. *)
Lemma attemptsFrom_invariant `{Platform} {St : Type} (ctx : Retry.Context)
    (cfg : Retry.RetryConfig) (operation : string) (fn : St -> option error * St)
    (P : St -> Prop) :
  (forall s, P s -> P (snd (fn s))) ->
  forall (n : nat) (attempt : Z) (lastErr : option error) (s : St),
    P s -> P (Retry.final (Retry.attemptsFrom ctx cfg operation fn n attempt lastErr s)).
Proof.
  intros Hfn. induction n as [|n IH]; intros attempt lastErr s Hs; [exact Hs|].
  cbn [Retry.attemptsFrom].
  specialize (Hfn s Hs). destruct (fn s) as [[e|] s'] eqn:Hfs; cbn [snd] in Hfn.
  - destruct (0 <? attempt); [destruct (ctx attempt)|]; cbn [Retry.final Retry.after];
      try exact Hs; now apply IH.
  - destruct (0 <? attempt); [destruct (ctx attempt)|]; cbn [Retry.final];
      assumption.
Qed.

Lemma Grows_retryM `{Platform} `{Surroundings} {V : Type} (cfg : Retry.RetryConfig)
    (operation : string) (fn : V -> World -> option error * V * World) (v : V) :
  (forall v w, heap (snd (fn v w)) = heap w) -> Grows (retryM cfg operation fn v).
Proof.
  intros Hfn. apply Grows_silent. intros w. unfold retryM, worldOf.
  match goal with |- context [Retry.RetryWithBackoff ?c ?g ?o ?f ?s] =>
    pose proof (attemptsFrom_invariant c g o f (fun st => heap (snd st) = heap w)) as Hinv;
    set (out := Retry.RetryWithBackoff c g o f s) end.
  assert (Hfin : heap (snd (Retry.final out)) = heap w).
  { subst out. unfold Retry.RetryWithBackoff. apply Hinv; [|reflexivity].
    intros [v1 w1] Hw1. cbn [snd] in Hw1.
    specialize (Hfn v1 w1). destruct (fn v1 w1) as [[err v2] w2]. cbn [snd] in *. congruence. }
  destruct (Retry.final out) as [v' w']. cbn [fst snd heap] in *. exact Hfin.
Qed.

Ltac head_of t :=
  match t with
  | ?f _ => head_of f
  | _ => t
  end.

(** Takes a computation apart along its binds, loops and branches. *)
Ltac grows :=
  repeat
    (intros;
     match goal with
     | |- Grows (bind _ _) => apply Grows_bind
     | |- Grows (ret _) => apply Grows_ret
     | |- Grows timeNow => apply Grows_timeNow
     | |- Grows (rangeMap _) => apply Grows_rangeMap
     | |- Grows (emit _) => apply Grows_emit
     | |- Grows (Builder.append _ _) => apply Grows_append
     | |- Grows (Builder.alloc _) => apply Grows_alloc
     | |- Grows (forEach _ _) => apply Grows_forEach
     | |- Grows (foldM _ _ _) => apply Grows_foldM
     | |- Grows (retryM _ _ _ _) => apply Grows_retryM
     | |- Grows (if ?c then _ else _) => destruct c
     | |- Grows (match ?x with _ => _ end) => destruct x
     | |- Grows (match ?x with _ => _ end _) => destruct x
     | |- Grows ?m => let h := head_of m in progress (unfold h)
     end).

Section RestGrows.
Context `{Platform} `{Surroundings} `{REST.Network} `{REST.Decoder} `{Builder.HealthRecorders}.

Lemma request_heap (url : string) (body : string) (w : World) :
  heap (snd (REST.request url body w)) = heap w.
Proof.
  unfold REST.request. destruct (REST.NewRequest url); [reflexivity|].
  destruct (REST.Do (requests w) url) as [err|resp]; [reflexivity|].
  destruct (negb _); [destruct (_ || _)|]; reflexivity.
Qed.

Lemma fetch_grows {A : Type} (decode : string -> error + A) (s : REST.RESTAPIScraper)
    (path : string) : Grows (REST.fetch decode s path).
Proof. grows. apply request_heap. Qed.

Lemma scrapeComprehensive_grows (s : REST.RESTAPIScraper) (now : Time) :
  Grows (REST.scrapeComprehensive s now).
Proof.
  unfold REST.scrapeComprehensive, REST.scrapeHealthMetrics, REST.scrapeDAGMetrics,
    REST.scrapeConnectionMetrics, REST.scrapeConfigMetrics, REST.getHealth, REST.getDags,
    REST.getPools, REST.getConnections, REST.getVariables, REST.getImportErrors.
  grows; apply request_heap.
Qed.
End RestGrows.

Section ScrapeGrows.
Context `{Platform} `{Surroundings} `{REST.Network} `{REST.Decoder}
  `{Builder.HealthRecorders} `{Database.SqlServer}.

Lemma WithScrapeTracking_value {A : Type} (h : Health.ScraperHealth)
    (fn : M (A * option error)) (w : World) :
  fst (valueOf (Health.WithScrapeTracking h fn w)) = valueOf (fn (worldOf (timeNow w))).
Proof.
  unfold Health.WithScrapeTracking. rewrite !valueOf_bind, ?worldOf_bind.
  destruct (Health.RecordScrape _ _ _ h) as [h' evs].
  rewrite !valueOf_bind. reflexivity.
Qed.



Lemma query_heap {A : Type} (name : string)
    (server : list string -> error + Database.Rows A) (rows : option (Database.Rows A))
    (w : World) :
  heap (snd (Database.query name server rows w)) = heap w.
Proof. unfold Database.query. now destruct (server (requests w)). Qed.

Lemma Database_Scrape_value (s : Database.DatabaseScraper) (w : World) :
  valueOf (Database.Scrape s w) = (Builder.metrics (Database.mb s), None).
Proof. unfold Database.Scrape. rewrite !valueOf_bind. reflexivity. Qed.




End ScrapeGrows.

(** * The retry executor: success, cancellation and bounds *)

Lemma waits_app (tr1 tr2 : list Event) :
  Retry.waits (tr1 ++ tr2) = Retry.waits tr1 ++ Retry.waits tr2.
Proof. unfold Retry.waits. apply omap_app. Qed.

Lemma invocations_app (tr1 tr2 : list Event) :
  Retry.invocations (tr1 ++ tr2) = Retry.invocations tr1 + Retry.invocations tr2.
Proof.
  unfold Retry.invocations. rewrite List.filter_app, length_app. lia.
Qed.

Section RetrySteps.
Context `{Platform} {St : Type}.
Variable ctx : Retry.Context.
Variable cfg : Retry.RetryConfig.
Variable operation : string.
Variable fn : St -> option error * St.

Lemma attemptsFrom_step_fail (n : nat) (attempt : Z) (lastErr : option error) (s : St)
    (e : error) (s' : St) :
  (0 < attempt -> ctx attempt = None) ->
  fn s = (Some e, s') ->
  Retry.attemptsFrom ctx cfg operation fn (S n) attempt lastErr s =
  Retry.after (Retry.preamble cfg operation attempt ++ [Invoked; Retry.failed operation attempt (Some e)])
    (Retry.attemptsFrom ctx cfg operation fn n (attempt + 1) (Some e) s').
Proof.
  intros Hctx Hfn. cbn [Retry.attemptsFrom]. unfold Retry.preamble. rewrite Hfn.
  destruct (Z.ltb_spec 0 attempt) as [Hpos|Hneg]; [|reflexivity].
  now rewrite (Hctx Hpos).
Qed.

Lemma attemptsFrom_step_ok (n : nat) (attempt : Z) (lastErr : option error) (s s' : St) :
  (0 < attempt -> ctx attempt = None) ->
  fn s = (None, s') ->
  Retry.attemptsFrom ctx cfg operation fn (S n) attempt lastErr s =
  {| Retry.result := None; Retry.final := s';
     Retry.trace := Retry.preamble cfg operation attempt ++ Invoked ::
                    (if 0 <? attempt then [Retry.succeeded operation attempt] else []) |}.
Proof.
  intros Hctx Hfn. cbn [Retry.attemptsFrom]. unfold Retry.preamble. rewrite Hfn.
  destruct (Z.ltb_spec 0 attempt) as [Hpos|Hneg]; [|reflexivity].
  now rewrite (Hctx Hpos).
Qed.

Lemma attemptsFrom_step_cancel (n : nat) (attempt : Z) (lastErr : option error) (s : St)
    (e : error) :
  0 < attempt ->
  ctx attempt = Some e ->
  Retry.attemptsFrom ctx cfg operation fn (S n) attempt lastErr s =
  {| Retry.result := Some e; Retry.final := s;
     Retry.trace := [Retry.retrying cfg operation attempt (Retry.backoffAt cfg attempt);
                     Cancelled] |}.
Proof.
  intros Hpos Hctx. cbn [Retry.attemptsFrom].
  assert (Hlt : (0 <? attempt) = true) by (apply Z.ltb_lt; lia).
  now rewrite Hlt, Hctx.
Qed.

(** From a later attempt on: [j] calls fail, the next one succeeds. *)
Lemma attemptsFrom_success (j : nat) :
  forall (n : nat) (attempt : Z) (lastErr : option error) (s : St),
  (j < n)%nat ->
  0 < attempt ->
  (forall a, attempt <= a <= attempt + Z.of_nat j -> ctx a = None) ->
  (forall i, (i < j)%nat -> fst (fn (Retry.stateAfter fn i s)) <> None) ->
  fst (fn (Retry.stateAfter fn j s)) = None ->
  let o := Retry.attemptsFrom ctx cfg operation fn n attempt lastErr s in
  Retry.result o = None /\
  Retry.final o = Retry.stateAfter fn (S j) s /\
  Retry.invocations (Retry.trace o) = Z.of_nat (S j) /\
  Retry.waits (Retry.trace o) =
    List.map (fun i => Retry.backoffAt cfg (attempt + Z.of_nat i)) (seq 0 (S j)) /\
  last (Retry.trace o) = Some (Retry.succeeded operation (attempt + Z.of_nat j)).
Proof.
  induction j as [|j IH]; intros n attempt lastErr s Hn Hpos Hctx Hfail Hok.
  - destruct n as [|n]; [lia|]. cbn [Retry.stateAfter] in Hok.
    destruct (fn s) as [r s'] eqn:Hfn. cbn [fst] in Hok. subst r.
    cbv zeta. rewrite (attemptsFrom_step_ok n attempt lastErr s s'); [|intros _; apply Hctx; lia|exact Hfn].
    unfold Retry.preamble.
    assert (Hlt : (0 <? attempt) = true) by (apply Z.ltb_lt; lia). rewrite Hlt.
    cbn [Retry.result Retry.final Retry.trace Retry.stateAfter]. rewrite Hfn.
    repeat split.
    + cbn. now rewrite Z.add_0_r.
    + cbn. now rewrite Z.add_0_r.
  - destruct n as [|n]; [lia|].
    assert (H0 := Hfail 0%nat (Nat.lt_0_succ j)). cbn [Retry.stateAfter] in H0.
    destruct (fn s) as [[e|] s'] eqn:Hfn; [|now elim H0].
    cbv zeta. rewrite (attemptsFrom_step_fail n attempt lastErr s e s'); [|intros _; apply Hctx; lia|exact Hfn].
    destruct (IH n (attempt + 1) (Some e) s') as (Hr & Hf & Hi & Hw & Hl).
    + lia.
    + lia.
    + intros a Ha. apply Hctx. lia.
    + intros i Hi. assert (Hsi : (S i < S j)%nat) by lia. specialize (Hfail (S i) Hsi).
      cbn [Retry.stateAfter] in Hfail. now rewrite Hfn in Hfail.
    + cbn [Retry.stateAfter] in Hok. now rewrite Hfn in Hok.
    + cbn [Retry.after Retry.result Retry.final Retry.trace].
      split; [exact Hr|]. split; [cbn [Retry.stateAfter]; rewrite Hfn; exact Hf|].
      unfold Retry.preamble.
      assert (Hlt : (0 <? attempt) = true) by (apply Z.ltb_lt; lia). rewrite Hlt.
      split; [|split].
      * rewrite invocations_app, Hi.
        match goal with |- Retry.invocations ?l + _ = _ => change (Retry.invocations l) with 1 end.
        lia.
      * rewrite waits_app, Hw.
        match goal with |- Retry.waits ?l ++ _ = _ =>
          change (Retry.waits l) with [Retry.backoffAt cfg attempt] end.
        match goal with |- _ = List.map _ (seq 0 (S ?m)) =>
          change (seq 0 (S m)) with (0%nat :: seq 1 m) end.
        cbn [List.map app]. rewrite Z.add_0_r. f_equal.
        rewrite <- seq_shift, List.map_map. apply List.map_ext. intros i.
        f_equal. lia.
      * rewrite last_app, Hl. f_equal. f_equal. lia.
Qed.

(** From a later attempt on: [j] calls fail, then the context is done
    during the wait. *)
Lemma attemptsFrom_cancelled (j : nat) :
  forall (n : nat) (attempt : Z) (lastErr : option error) (s : St) (e : error),
  (j < n)%nat ->
  0 < attempt ->
  (forall a, attempt <= a < attempt + Z.of_nat j -> ctx a = None) ->
  ctx (attempt + Z.of_nat j) = Some e ->
  (forall i, (i < j)%nat -> fst (fn (Retry.stateAfter fn i s)) <> None) ->
  let o := Retry.attemptsFrom ctx cfg operation fn n attempt lastErr s in
  Retry.result o = Some e /\
  Retry.final o = Retry.stateAfter fn j s /\
  Retry.invocations (Retry.trace o) = Z.of_nat j /\
  Retry.waits (Retry.trace o) =
    List.map (fun i => Retry.backoffAt cfg (attempt + Z.of_nat i)) (seq 0 j) /\
  last (Retry.trace o) = Some Cancelled.
Proof.
  induction j as [|j IH]; intros n attempt lastErr s e Hn Hpos Hctx Hdone Hfail.
  - destruct n as [|n]; [lia|]. rewrite Z.add_0_r in Hdone.
    cbv zeta. rewrite (attemptsFrom_step_cancel n attempt lastErr s e Hpos Hdone).
    cbn. auto.
  - destruct n as [|n]; [lia|].
    assert (H0 := Hfail 0%nat (Nat.lt_0_succ j)). cbn [Retry.stateAfter] in H0.
    destruct (fn s) as [[e'|] s'] eqn:Hfn; [|now elim H0].
    cbv zeta. rewrite (attemptsFrom_step_fail n attempt lastErr s e' s'); [|intros _; apply Hctx; lia|exact Hfn].
    destruct (IH n (attempt + 1) (Some e') s' e) as (Hr & Hf & Hi & Hw & Hl).
    + lia.
    + lia.
    + intros a Ha. apply Hctx. lia.
    + rewrite <- Hdone. f_equal. lia.
    + intros i Hi. assert (Hsi : (S i < S j)%nat) by lia. specialize (Hfail (S i) Hsi).
      cbn [Retry.stateAfter] in Hfail. now rewrite Hfn in Hfail.
    + cbn [Retry.after Retry.result Retry.final Retry.trace].
      split; [exact Hr|]. split; [cbn [Retry.stateAfter]; rewrite Hfn; exact Hf|].
      unfold Retry.preamble.
      assert (Hlt : (0 <? attempt) = true) by (apply Z.ltb_lt; lia). rewrite Hlt.
      split; [|split].
      * rewrite invocations_app, Hi.
        match goal with |- Retry.invocations ?l + _ = _ => change (Retry.invocations l) with 1 end.
        lia.
      * rewrite waits_app, Hw.
        match goal with |- Retry.waits ?l ++ _ = _ =>
          change (Retry.waits l) with [Retry.backoffAt cfg attempt] end.
        match goal with |- _ = List.map _ (seq 0 (S ?m)) =>
          change (seq 0 (S m)) with (0%nat :: seq 1 m) end.
        cbn [List.map app]. rewrite Z.add_0_r. f_equal.
        rewrite <- seq_shift, List.map_map. apply List.map_ext. intros i.
        f_equal. lia.
      * rewrite last_app, Hl. reflexivity.
Qed.

(** Whatever the operation and the context do: the calls are at most the
    iterations, there are never more waits than calls, and no wait is
    longer than [MaxInterval]. *)
Lemma attemptsFrom_bounds (n : nat) :
  forall (attempt : Z) (lastErr : option error) (s : St),
  let tr := Retry.trace (Retry.attemptsFrom ctx cfg operation fn n attempt lastErr s) in
  Retry.invocations tr <= Z.of_nat n /\
  Z.of_nat (length (Retry.waits tr)) <= Retry.invocations tr /\
  Forall (fun d => d <= Retry.MaxInterval cfg) (Retry.waits tr).
Proof.
  assert (Hb : forall a, Retry.backoffAt cfg a <= Retry.MaxInterval cfg).
  { intros a. unfold Retry.backoffAt. cbv zeta.
    match goal with |- (if ?c <? ?b then _ else _) <= _ => destruct (Z.ltb_spec c b) end; lia. }
  induction n as [|n IH]; intros attempt lastErr s.
  - cbv zeta. cbn [Retry.attemptsFrom Retry.trace]. unfold Retry.exhausted.
    change (0 <= 0 /\ 0 <= 0 /\ Forall (fun d => d <= Retry.MaxInterval cfg) []).
    split; [|split]; [lia | lia | constructor].
  - cbv zeta. cbn [Retry.attemptsFrom].
    unfold Retry.retrying, Retry.failed, Retry.succeeded.
    destruct (Z.ltb_spec 0 attempt) as [Hpos|Hneg].
    + destruct (ctx attempt) as [e|].
      { cbn [Retry.trace].
        change (0 <= Z.of_nat (S n) /\ 0 <= 0 /\
                Forall (fun d => d <= Retry.MaxInterval cfg) []).
        split; [|split]; [lia | lia | constructor]. }
      destruct (fn s) as [[e|] s'].
      * specialize (IH (attempt + 1) (Some e) s'). cbv zeta in IH.
        destruct IH as (Hi & Hw & Hall).
        cbn [Retry.after Retry.trace]. rewrite invocations_app, waits_app, length_app.
        match goal with |- Retry.invocations ?l + _ <= _ /\ _ =>
          change (Retry.invocations l) with 1;
          change (Retry.waits l) with [Retry.backoffAt cfg attempt] end.
        cbn [length app]. split; [|split]; [lia | lia |].
        constructor; [apply Hb | exact Hall].
      * cbn [Retry.trace].
        match goal with |- Retry.invocations ?l <= _ /\ _ =>
          change (Retry.invocations l) with 1;
          change (Retry.waits l) with [Retry.backoffAt cfg attempt] end.
        cbn [length]. split; [|split]; [lia | lia |].
        constructor; [apply Hb | constructor].
    + destruct (fn s) as [[e|] s'].
      * specialize (IH (attempt + 1) (Some e) s'). cbv zeta in IH.
        destruct IH as (Hi & Hw & Hall).
        cbn [Retry.after Retry.trace]. rewrite invocations_app, waits_app, length_app.
        match goal with |- Retry.invocations ?l + _ <= _ /\ _ =>
          change (Retry.invocations l) with 1;
          change (Retry.waits l) with (@nil Z) end.
        cbn [length app]. split; [|split]; [lia | lia | exact Hall].
      * cbn [Retry.trace].
        match goal with |- Retry.invocations ?l <= _ /\ _ =>
          change (Retry.invocations l) with 1;
          change (Retry.waits l) with (@nil Z) end.
        cbn [length]. split; [|split]; [lia | lia | constructor].
Qed.
End RetrySteps.

(** X1. When the context is not done during the waits, the first [k - 1]
    calls of the operation fail and the [k]-th succeeds ([1 <= k <=
    MaxAttempts]), the executor returns [nil] after exactly [k] calls, with
    the state as the [k]-th call left it and one wait before each call but
    the first; it logs "Operation succeeded after retry" last when [k > 1],
    and nothing after the call when the first call succeeds. *)
Theorem retry_succeeds_at_kth_call `{Platform} {St : Type} (ctx : Retry.Context)
    (cfg : Retry.RetryConfig) (operation : string) (fn : St -> option error * St)
    (s : St) (k : nat) :
  (1 <= k)%nat ->
  Z.of_nat k <= Retry.MaxAttempts cfg ->
  (forall a, 0 < a < Z.of_nat k -> ctx a = None) ->
  (forall i, (1 <= i < k)%nat -> Retry.nthError fn i s <> None) ->
  Retry.nthError fn k s = None ->
  let o := Retry.RetryWithBackoff ctx cfg operation fn s in
  Retry.result o = None /\
  Retry.final o = Retry.stateAfter fn k s /\
  Retry.invocations (Retry.trace o) = Z.of_nat k /\
  Retry.waits (Retry.trace o) =
    List.map (fun a => Retry.backoffAt cfg (Z.of_nat a)) (seq 1 (k - 1)) /\
  last (Retry.trace o) =
    Some (if (1 <? k)%nat then Retry.succeeded operation (Z.of_nat k - 1) else Invoked).
Proof.
  intros Hk HN Hctx Hfail Hok o. subst o. unfold Retry.RetryWithBackoff.
  destruct (Z.to_nat (Retry.MaxAttempts cfg)) as [|n] eqn:Hn; [lia|].
  destruct k as [|[|j]]; [lia| |].
  - unfold Retry.nthError in Hok. cbn [Nat.sub Retry.stateAfter] in Hok.
    destruct (fn s) as [r s'] eqn:Hfn. cbn [fst] in Hok. subst r.
    rewrite (attemptsFrom_step_ok ctx cfg operation fn n 0 None s s'); [|lia|exact Hfn].
    cbn. rewrite Hfn. auto.
  - assert (H1 : Retry.nthError fn 1 s <> None) by (apply Hfail; lia). unfold Retry.nthError in H1.
    cbn [Nat.sub Retry.stateAfter] in H1.
    destruct (fn s) as [[e|] s'] eqn:Hfn; [|now elim H1].
    rewrite (attemptsFrom_step_fail ctx cfg operation fn n 0 None s e s'); [|lia|exact Hfn].
    destruct (attemptsFrom_success ctx cfg operation fn j n (0 + 1) (Some e) s')
      as (Hr & Hf & Hi & Hw & Hl).
    + lia.
    + lia.
    + intros a Ha. apply Hctx. lia.
    + intros i Hi. assert (Hsi : (1 <= S (S i) < S (S j))%nat) by lia. specialize (Hfail (S (S i)) Hsi). unfold Retry.nthError in Hfail.
      cbn [Nat.sub Retry.stateAfter] in Hfail. rewrite Hfn in Hfail.
      rewrite ?Nat.sub_0_r in Hfail. exact Hfail.
    + unfold Retry.nthError in Hok. cbn [Nat.sub Retry.stateAfter] in Hok.
      rewrite Hfn in Hok. rewrite ?Nat.sub_0_r in Hok. exact Hok.
    + cbn [Retry.after Retry.result Retry.final Retry.trace].
      split; [exact Hr|]. split; [cbn [Retry.stateAfter]; rewrite Hfn; exact Hf|].
      unfold Retry.preamble. cbn [Z.ltb Z.compare app].
      change (Invoked :: Retry.failed operation 0 (Some e) :: ?l)
        with ([Invoked; Retry.failed operation 0 (Some e)] ++ l).
      split; [|split].
      * rewrite invocations_app, Hi.
        match goal with |- Retry.invocations ?l + _ = _ => change (Retry.invocations l) with 1 end.
        lia.
      * rewrite waits_app, Hw. cbn [Retry.waits omap app].
        replace (S (S j) - 1)%nat with (S j) by lia.
        rewrite <- (seq_shift (S j) 0), List.map_map. apply List.map_ext. intros i.
        f_equal. lia.
      * rewrite last_app, Hl. cbn [Nat.ltb Nat.leb]. f_equal. f_equal. lia.
Qed.

(** X1, at the default policy: the second call succeeds after a wait of
    one second. *)
Lemma retry_succeeds_at_kth_call_witness :
  let fn := fun n : Z =>
    (if n =? 0 then Some (errorString "unexpected status code: 503") else None, n + 1) in
  let o :=
    Retry.RetryWithBackoff (H := Reference.platform) (fun _ => None)
      Retry.DefaultRetryConfig "GET /api/v1/pools" fn 0 in
  Retry.result o = None /\
  Retry.final o = 2 /\
  Retry.invocations (Retry.trace o) = 2 /\
  Retry.waits (Retry.trace o) = [1000000000] /\
  last (Retry.trace o) = Some (Retry.succeeded "GET /api/v1/pools" 1).
Proof.
  apply (retry_succeeds_at_kth_call (H := Reference.platform) (fun _ => None)
           Retry.DefaultRetryConfig "GET /api/v1/pools"
           (fun n : Z =>
              (if n =? 0 then Some (errorString "unexpected status code: 503") else None,
               n + 1)) 0 2).
  - lia.
  - cbn. lia.
  - reflexivity.
  - intros i Hi. assert (i = 1%nat) as -> by lia. vm_compute. discriminate.
  - reflexivity.
Defined.

(** X2. When the first [k] calls fail ([1 <= k < MaxAttempts]) and the
    context is done during the wait that follows the [k]-th, the executor
    returns the error of the context, not the error of the operation; the
    operation has been called [k] times and is not called again. *)
Theorem retry_cancelled_during_wait `{Platform} {St : Type} (ctx : Retry.Context)
    (cfg : Retry.RetryConfig) (operation : string) (fn : St -> option error * St)
    (s : St) (k : nat) (e : error) :
  (1 <= k)%nat ->
  Z.of_nat k < Retry.MaxAttempts cfg ->
  (forall a, 0 < a < Z.of_nat k -> ctx a = None) ->
  ctx (Z.of_nat k) = Some e ->
  (forall i, (1 <= i <= k)%nat -> Retry.nthError fn i s <> None) ->
  let o := Retry.RetryWithBackoff ctx cfg operation fn s in
  Retry.result o = Some e /\
  Retry.final o = Retry.stateAfter fn k s /\
  Retry.invocations (Retry.trace o) = Z.of_nat k /\
  Retry.waits (Retry.trace o) =
    List.map (fun a => Retry.backoffAt cfg (Z.of_nat a)) (seq 1 (k - 1)) /\
  last (Retry.trace o) = Some Cancelled.
Proof.
  intros Hk HN Hctx Hdone Hfail o. subst o. unfold Retry.RetryWithBackoff.
  destruct (Z.to_nat (Retry.MaxAttempts cfg)) as [|n] eqn:Hn; [lia|].
  destruct k as [|j]; [lia|].
  assert (H1 : Retry.nthError fn 1 s <> None) by (apply Hfail; lia). unfold Retry.nthError in H1.
  cbn [Nat.sub Retry.stateAfter] in H1.
  destruct (fn s) as [[e'|] s'] eqn:Hfn; [|now elim H1].
  rewrite (attemptsFrom_step_fail ctx cfg operation fn n 0 None s e' s'); [|lia|exact Hfn].
  destruct (attemptsFrom_cancelled ctx cfg operation fn j n (0 + 1) (Some e') s' e)
    as (Hr & Hf & Hi & Hw & Hl).
  - lia.
  - lia.
  - intros a Ha. apply Hctx. lia.
  - rewrite <- Hdone. f_equal. lia.
  - intros i Hi. assert (Hsi : (1 <= S (S i) <= S j)%nat) by lia. specialize (Hfail (S (S i)) Hsi). unfold Retry.nthError in Hfail.
    cbn [Nat.sub Retry.stateAfter] in Hfail. rewrite Hfn in Hfail.
    rewrite ?Nat.sub_0_r in Hfail. exact Hfail.
  - cbn [Retry.after Retry.result Retry.final Retry.trace].
    split; [exact Hr|]. split; [cbn [Retry.stateAfter]; rewrite Hfn; exact Hf|].
    unfold Retry.preamble. cbn [Z.ltb Z.compare app].
    change (Invoked :: Retry.failed operation 0 (Some e') :: ?l)
      with ([Invoked; Retry.failed operation 0 (Some e')] ++ l).
    split; [|split].
    + rewrite invocations_app, Hi.
        match goal with |- Retry.invocations ?l + _ = _ => change (Retry.invocations l) with 1 end.
        lia.
    + rewrite waits_app, Hw. cbn [Retry.waits omap app].
      replace (S j - 1)%nat with j by lia.
      rewrite <- (seq_shift j 0), List.map_map. apply List.map_ext. intros i.
      f_equal. lia.
    + rewrite last_app, Hl. reflexivity.
Qed.

(** X2, at the default policy: the context is done during the first
    wait. *)
Lemma retry_cancelled_during_wait_witness :
  let o :=
    Retry.RetryWithBackoff (H := Reference.platform)
      (fun _ => Some (errorString "context canceled"))
      Retry.DefaultRetryConfig "query SLA misses"
      (fun n : Z => (Some (errorString "connection refused"), n + 1)) 0 in
  Retry.result o = Some (errorString "context canceled") /\
  Retry.final o = 1 /\
  Retry.invocations (Retry.trace o) = 1 /\
  Retry.waits (Retry.trace o) = [] /\
  last (Retry.trace o) = Some Cancelled.
Proof.
  apply (retry_cancelled_during_wait (H := Reference.platform)
           (fun _ => Some (errorString "context canceled"))
           Retry.DefaultRetryConfig "query SLA misses"
           (fun n : Z => (Some (errorString "connection refused"), n + 1)) 0 1
           (errorString "context canceled")).
  - lia.
  - cbn. lia.
  - intros a Ha. lia.
  - reflexivity.
  - intros i Hi. unfold Retry.nthError. discriminate.
Defined.

(** X3. Whatever the operation returns and whenever the context is done,
    the executor calls the operation at most [MaxAttempts] times, waits at
    most once per call, and never waits longer than [MaxInterval].  With a
    policy that allows no attempt ([MaxAttempts <= 0]) it does not call
    the operation at all and returns [nil], after the log entry
    "Operation failed after all retries". *)
Theorem retry_calls_and_waits_bounded `{Platform} {St : Type} (ctx : Retry.Context)
    (cfg : Retry.RetryConfig) (operation : string) (fn : St -> option error * St)
    (s : St) :
  let o := Retry.RetryWithBackoff ctx cfg operation fn s in
  Retry.invocations (Retry.trace o) <= Z.max 0 (Retry.MaxAttempts cfg) /\
  Z.of_nat (length (Retry.waits (Retry.trace o))) <= Retry.invocations (Retry.trace o) /\
  Forall (fun d => d <= Retry.MaxInterval cfg) (Retry.waits (Retry.trace o)) /\
  (Retry.MaxAttempts cfg <= 0 ->
   Retry.result o = None /\ Retry.final o = s /\
   Retry.trace o = [Retry.exhausted cfg operation None]).
Proof.
  intros o. subst o. unfold Retry.RetryWithBackoff.
  destruct (attemptsFrom_bounds ctx cfg operation fn
              (Z.to_nat (Retry.MaxAttempts cfg)) 0 None s) as (Hi & Hw & Hall).
  split; [lia|]. split; [exact Hw|]. split; [exact Hall|].
  intros HN. replace (Z.to_nat (Retry.MaxAttempts cfg)) with 0%nat by lia.
  cbn. auto.
Qed.
(** * The health tracker over runs of scrapes *)

Lemma recordAll_app (l1 l2 : list (Time * Duration * option error))
    (h : Health.ScraperHealth) :
  Health.recordAll (l1 ++ l2) h = Health.recordAll l2 (Health.recordAll l1 h).
Proof. unfold Health.recordAll. apply fold_left_app. Qed.

Lemma recordAll_cons (x : Time * Duration * option error)
    (l : list (Time * Duration * option error)) (h : Health.ScraperHealth) :
  Health.recordAll (x :: l) h =
  Health.recordAll l (fst (Health.RecordScrape (fst (fst x)) (snd (fst x)) (snd x) h)).
Proof. destruct x as [[now d] err]. reflexivity. Qed.

Lemma recordAll_snoc (x : Time * Duration * option error)
    (l : list (Time * Duration * option error)) (h : Health.ScraperHealth) :
  Health.recordAll (l ++ [x]) h =
  fst (Health.RecordScrape (fst (fst x)) (snd (fst x)) (snd x) (Health.recordAll l h)).
Proof. rewrite recordAll_app. destruct x as [[now d] err]. reflexivity. Qed.

(** The counters along a run, as long as they have room. *)
Lemma recordAll_counters (scrapes : list (Time * Duration * option error)) :
  forall h : Health.ScraperHealth,
  0 <= Health.totalScrapes h -> 0 <= Health.successfulScrapes h ->
  0 <= Health.failedScrapes h ->
  Health.totalScrapes h + Z.of_nat (length scrapes) <= max_int64 ->
  Health.successfulScrapes h + Z.of_nat (length scrapes) <= max_int64 ->
  Health.failedScrapes h + Z.of_nat (length scrapes) <= max_int64 ->
  let h' := Health.recordAll scrapes h in
  Health.totalScrapes h' = Health.totalScrapes h + Z.of_nat (length scrapes) /\
  Health.successfulScrapes h' =
    Health.successfulScrapes h +
    Z.of_nat (length (List.filter Health.successfulScrape scrapes)) /\
  Health.failedScrapes h' =
    Health.failedScrapes h + Z.of_nat (length (List.filter Health.failedScrape scrapes)) /\
  Health.scraperType h' = Health.scraperType h.
Proof.
  induction scrapes as [|[[now d] err] l IH]; intros h Ht Hs Hf Htm Hsm Hfm.
  - cbn. repeat split; lia.
  - cbn [length] in Htm, Hsm, Hfm. cbv zeta. rewrite recordAll_cons. cbn [fst snd].
    set (h1 := fst (Health.RecordScrape now d err h)).
    assert (Hl := filter_length_le Health.successfulScrape l).
    assert (H1 : Health.totalScrapes h1 = Health.totalScrapes h + 1 /\
                 Health.successfulScrapes h1 =
                   Health.successfulScrapes h + (match err with Some _ => 0 | None => 1 end) /\
                 Health.failedScrapes h1 =
                   Health.failedScrapes h + (match err with Some _ => 1 | None => 0 end) /\
                 Health.scraperType h1 = Health.scraperType h).
    { subst h1. unfold min_int64, max_int64 in *.
      destruct err as [e|]; cbn;
        rewrite !wrap64_id by (unfold min_int64, max_int64; lia);
        repeat split; lia. }
    destruct H1 as (H1t & H1s & H1f & H1n).
    destruct (IH h1) as (IHt & IHs & IHf & IHn); try (destruct err; lia).
    rewrite IHt, IHs, IHf, IHn, H1t, H1s, H1f, H1n.
    unfold Health.successfulScrape, Health.failedScrape.
    destruct err as [e|]; cbn [List.filter snd negb length]; repeat split; lia.
Qed.

(** X4. From a tracker that has been reset, and so from a new one (which
    is its own reset), the counters tell the run: after any run of scrapes that the counters have
    room for, [totalScrapes] is the number of scrapes, [successfulScrapes]
    the number of those without an error, [failedScrapes] the number of
    those with one, and the total is the sum of the two. *)
Theorem health_counters_add_up (h : Health.ScraperHealth)
    (scrapes : list (Time * Duration * option error)) :
  Z.of_nat (length scrapes) <= max_int64 ->
  let h' := Health.recordAll scrapes (Health.Reset h) in
  Health.totalScrapes h' = Z.of_nat (length scrapes) /\
  Health.successfulScrapes h' =
    Z.of_nat (length (List.filter Health.successfulScrape scrapes)) /\
  Health.failedScrapes h' =
    Z.of_nat (length (List.filter Health.failedScrape scrapes)) /\
  Health.totalScrapes h' = Health.successfulScrapes h' + Health.failedScrapes h' /\
  Health.Reset (Health.NewScraperHealth (Health.scraperType h)) =
    Health.NewScraperHealth (Health.scraperType h).
Proof.
  intros Hlen h'. subst h'.
  destruct (recordAll_counters scrapes (Health.Reset h)) as (Ht & Hs & Hf & _);
    cbn [Health.Reset Health.totalScrapes Health.successfulScrapes Health.failedScrapes];
    try lia.
  cbn [Health.Reset Health.totalScrapes Health.successfulScrapes Health.failedScrapes]
    in Ht, Hs, Hf.
  rewrite Ht, Hs, Hf. repeat split; try lia.
  assert (Hsplit : length scrapes =
            (length (List.filter Health.successfulScrape scrapes) +
             length (List.filter Health.failedScrape scrapes))%nat).
  { clear. induction scrapes as [|[[now d] [e|]] l IH]; cbn; lia. }
  lia.
Qed.

Lemma health_counters_add_up_witness :
  let boom := errorString "connection refused" in
  let h' :=
    Health.recordAll [(1, 5, None); (2, 7, Some boom); (3, 6, None)]
      (Health.Reset
         (Health.recordAll [(1, 5, Some boom)] (Health.NewScraperHealth "database"))) in
  Health.totalScrapes h' = 3 /\
  Health.successfulScrapes h' = 2 /\
  Health.failedScrapes h' = 1 /\
  Health.totalScrapes h' = Health.successfulScrapes h' + Health.failedScrapes h' /\
  Health.Reset (Health.NewScraperHealth "database") = Health.NewScraperHealth "database".
Proof.
  apply (health_counters_add_up
           (Health.recordAll [(1, 5, Some (errorString "connection refused"))]
              (Health.NewScraperHealth "database"))
           [(1, 5, None); (2, 7, Some (errorString "connection refused")); (3, 6, None)]).
  vm_compute. discriminate.
Defined.

(** The consecutive failures and the status after a run that ends with
    failures only. *)
Lemma recordAll_failures (fails : list (Time * Duration * option error)) :
  forall h : Health.ScraperHealth,
  Forall (fun x => Health.failedScrape x = true) fails ->
  0 <= Health.consecutiveErrors h ->
  Health.consecutiveErrors h + Z.of_nat (length fails) <= max_int64 ->
  Health.healthy h = negb (3 <=? Health.consecutiveErrors h) ->
  let h' := Health.recordAll fails h in
  Health.consecutiveErrors h' = Health.consecutiveErrors h + Z.of_nat (length fails) /\
  Health.healthy h' = negb (3 <=? Health.consecutiveErrors h').
Proof.
  induction fails as [|[[now d] err] l IH]; intros h Hall H0 Hmax Hinv.
  - cbn. split; [lia | exact Hinv].
  - apply Forall_cons in Hall. destruct Hall as [Hx Hl].
    unfold Health.failedScrape in Hx. cbn [snd] in Hx.
    destruct err as [e|]; [|discriminate].
    cbn [length] in Hmax. cbv zeta. rewrite recordAll_cons. cbn [fst snd].
    set (h1 := fst (Health.RecordScrape now d (Some e) h)).
    assert (Hc1 : Health.consecutiveErrors h1 = Health.consecutiveErrors h + 1).
    { subst h1. cbn. apply wrap64_id. unfold min_int64, max_int64 in *. lia. }
    assert (Hh1 : Health.healthy h1 = negb (3 <=? Health.consecutiveErrors h1)).
    { rewrite Hc1. subst h1. cbn.
      rewrite wrap64_id by (unfold min_int64, max_int64 in *; lia).
      rewrite Hinv.
      destruct (Z.leb_spec 3 (Health.consecutiveErrors h + 1)); [reflexivity|].
      destruct (Z.leb_spec 3 (Health.consecutiveErrors h)); [lia | reflexivity]. }
    destruct (IH h1 Hl) as [IHc IHh]; [lia | lia | exact Hh1 |].
    split; [cbn [length]; lia | exact IHh].
Qed.

(** X5. A new tracker is healthy exactly as long as fewer than three
    scrapes have failed since the last success: after a run that ends with
    [n] failures (and has a success before them, or nothing), the
    consecutive failures are [n] and [IsHealthy] answers [n < 3]. *)
Theorem health_is_fewer_than_three_failures_in_a_row (scraperType : string)
    (before fails : list (Time * Duration * option error)) :
  Forall (fun x => Health.failedScrape x = true) fails ->
  (before = [] \/ exists x, last before = Some x /\ Health.successfulScrape x = true) ->
  Z.of_nat (length fails) <= max_int64 ->
  let h' := Health.recordAll (before ++ fails) (Health.NewScraperHealth scraperType) in
  Health.consecutiveErrors h' = Z.of_nat (length fails) /\
  Health.IsHealthy h' = (Z.of_nat (length fails) <? 3).
Proof.
  intros Hall Hbefore Hlen h'. subst h'. rewrite recordAll_app.
  set (h0 := Health.recordAll before (Health.NewScraperHealth scraperType)).
  assert (H0 : Health.consecutiveErrors h0 = 0 /\ Health.healthy h0 = true).
  { subst h0. destruct Hbefore as [-> | (x & Hlast & Hx)]; [now split|].
    destruct (last_Some before x) as [Hsplit _].
    destruct (Hsplit Hlast) as [l' ->]. rewrite recordAll_snoc.
    destruct x as [[now d] [e|]]; [discriminate|]. now split. }
  destruct H0 as [Hc0 Hh0].
  destruct (recordAll_failures fails h0 Hall) as [Hc Hh].
  - lia.
  - rewrite Hc0. lia.
  - rewrite Hc0, Hh0. reflexivity.
  - unfold Health.IsHealthy. rewrite Hh, Hc, Hc0. split; [lia|].
    cbn [Z.add]. destruct (Z.leb_spec 3 (Z.of_nat (length fails)));
      destruct (Z.ltb_spec (Z.of_nat (length fails)) 3); reflexivity || lia.
Qed.

Lemma health_is_fewer_than_three_failures_in_a_row_witness :
  let boom := errorString "connection refused" in
  let h' :=
    Health.recordAll ([(1, 5, Some boom); (2, 5, None)] ++
                      [(3, 5, Some boom); (4, 5, Some boom); (5, 5, Some boom)])
      (Health.NewScraperHealth "rest_api") in
  Health.consecutiveErrors h' = 3 /\ Health.IsHealthy h' = false.
Proof.
  apply (health_is_fewer_than_three_failures_in_a_row "rest_api"
           [(1, 5, Some (errorString "connection refused")); (2, 5, None)]
           [(3, 5, Some (errorString "connection refused"));
            (4, 5, Some (errorString "connection refused"));
            (5, 5, Some (errorString "connection refused"))]).
  - repeat constructor.
  - right. exists (2, 5, None). split; reflexivity.
  - vm_compute. discriminate.
Defined.

(** X6. [maxScrapeDuration] is the longest duration among the scrapes that
    succeeded, and what it was before: it never decreases, it is at least
    the duration of every successful scrape of the run, and it is the
    duration of one of them unless it has stayed as it was.  A failed
    scrape does not count, however long it took; [lastScrapeDuration] is
    the duration of the last scrape, failed or not. *)
Theorem health_max_duration_over_successes (h : Health.ScraperHealth)
    (scrapes : list (Time * Duration * option error)) :
  let h' := Health.recordAll scrapes h in
  Health.maxScrapeDuration h <= Health.maxScrapeDuration h' /\
  Forall (fun x => Health.successfulScrape x = true ->
                   snd (fst x) <= Health.maxScrapeDuration h') scrapes /\
  (Health.maxScrapeDuration h' = Health.maxScrapeDuration h \/
   exists x, x ∈ scrapes /\ Health.successfulScrape x = true /\
             Health.maxScrapeDuration h' = snd (fst x)) /\
  Health.lastScrapeDuration h' =
    match last scrapes with
    | Some x => snd (fst x)
    | None => Health.lastScrapeDuration h
    end.
Proof.
  cbv zeta. induction scrapes as [|x l IH] using rev_ind.
  - cbn. split; [lia|]. split; [constructor|]. split; [now left | reflexivity].
  - rewrite recordAll_snoc, last_snoc.
    destruct IH as (IHm & IHall & IHor & _).
    set (h1 := Health.recordAll l h) in *.
    destruct x as [[now d] [e|]]; cbn [fst snd].
    + cbn [Health.RecordScrape fst Health.maxScrapeDuration Health.lastScrapeDuration].
      repeat split.
      * exact IHm.
      * apply Forall_app. split; [exact IHall|]. constructor; [discriminate | constructor].
      * destruct IHor as [Heq | (x & Hin & Hs & Heq)]; [now left|].
        right. exists x. repeat split; [|exact Hs|exact Heq].
        apply elem_of_app. now left.
    + cbn [Health.RecordScrape fst Health.maxScrapeDuration Health.lastScrapeDuration].
      destruct (Z.ltb_spec (Health.maxScrapeDuration h1) d) as [Hlt|Hge].
      * repeat split.
        -- lia.
        -- apply Forall_app. split.
           ++ eapply Forall_impl; [exact IHall|]. cbn beta. intros y Hy Hs.
              specialize (Hy Hs). lia.
           ++ constructor; [cbn; lia | constructor].
        -- right. exists (now, d, None). repeat split.
           apply elem_of_app. right. apply list_elem_of_singleton. reflexivity.
      * repeat split.
        -- exact IHm.
        -- apply Forall_app. split; [exact IHall|].
           constructor; [cbn; lia | constructor].
        -- destruct IHor as [Heq | (x & Hin & Hs & Heq)]; [now left|].
           right. exists x. repeat split; [|exact Hs|exact Heq].
           apply elem_of_app. now left.
Qed.

(** The moving average stays between bounds that hold for the durations
    of the successful scrapes. *)
Lemma recordAll_average (lo hi : Z) (scrapes : list (Time * Duration * option error)) :
  0 < lo -> 10 * hi <= max_int64 ->
  Forall (fun x => Health.successfulScrape x = true -> lo <= snd (fst x) <= hi) scrapes ->
  forall h : Health.ScraperHealth,
  Health.avgScrapeDuration h = 0 \/ lo <= Health.avgScrapeDuration h <= hi ->
  let h' := Health.recordAll scrapes h in
  (Health.avgScrapeDuration h' = 0 /\ Health.avgScrapeDuration h = 0 /\
   Forall (fun x => Health.failedScrape x = true) scrapes) \/
  lo <= Health.avgScrapeDuration h' <= hi.
Proof.
  intros Hlo Hhi Hall. induction Hall as [|[[now d] err] l Hx Hl IH]; intros h Hh.
  - cbn. destruct Hh as [H0|Hin]; [left; repeat split; [exact H0 | exact H0 | constructor] | now right].
  - cbv zeta. rewrite recordAll_cons. cbn [fst snd].
    destruct err as [e|].
    + destruct (IH (fst (Health.RecordScrape now d (Some e) h)) Hh)
        as [(Ha & Hb & Hc) | Hin]; [left | now right].
      repeat split; [exact Ha | exact Hb | constructor; [reflexivity | exact Hc]].
    + right.
      assert (Hd : lo <= d <= hi) by (apply Hx; reflexivity).
      assert (H1 : lo <= Health.avgScrapeDuration (fst (Health.RecordScrape now d None h)) <= hi).
      { cbn. destruct Hh as [H0 | Hin].
        - rewrite H0. cbn. exact Hd.
        - destruct (Z.eqb_spec (Health.avgScrapeDuration h) 0) as [Heq|Hne]; [exact Hd|].
          unfold max_int64 in Hhi.
          rewrite (wrap64_id (Health.avgScrapeDuration h * 9))
            by (unfold min_int64, max_int64; lia).
          rewrite wrap64_id by (unfold min_int64, max_int64; lia).
          split.
          + apply Z.quot_le_lower_bound; lia.
          + apply Z.quot_le_upper_bound; lia. }
      destruct (IH (fst (Health.RecordScrape now d None h))) as [(Ha & Hb & _) | Hin].
      * now right.
      * lia.
      * exact Hin.
Qed.

(** X7. The moving average of the durations stays within the range of the
    durations it averages: when every successful scrape of a run took
    between [lo] and [hi] (with [0 < lo], and [10 * hi] a [Duration]) and
    at least one scrape succeeded, [avgScrapeDuration] of a tracker that
    was new or reset before the run lies between [lo] and [hi]. *)
Theorem health_average_within_durations (h : Health.ScraperHealth) (lo hi : Z)
    (scrapes : list (Time * Duration * option error)) :
  0 < lo -> 10 * hi <= max_int64 ->
  Forall (fun x => Health.successfulScrape x = true -> lo <= snd (fst x) <= hi) scrapes ->
  Exists (fun x => Health.successfulScrape x = true) scrapes ->
  lo <= Health.avgScrapeDuration (Health.recordAll scrapes (Health.Reset h)) <= hi.
Proof.
  intros Hlo Hhi Hall Hex.
  destruct (recordAll_average lo hi scrapes Hlo Hhi Hall (Health.Reset h))
    as [(_ & _ & Hfails) | Hin]; [now left | | exact Hin].
  exfalso. apply Exists_exists in Hex. destruct Hex as (x & Hin & Hs).
  rewrite Forall_forall in Hfails. specialize (Hfails x Hin).
  unfold Health.successfulScrape in Hs. rewrite Hfails in Hs. discriminate.
Qed.

Lemma health_average_within_durations_witness :
  100 <=
  Health.avgScrapeDuration
    (Health.recordAll
       [(1, 100, None); (2, 5000, Some (errorString "timeout")); (3, 200, None)]
       (Health.Reset (Health.NewScraperHealth "statsd"))) <= 200.
Proof.
  apply (health_average_within_durations (Health.NewScraperHealth "statsd") 100 200
           [(1, 100, None); (2, 5000, Some (errorString "timeout")); (3, 200, None)]).
  - lia.
  - vm_compute. discriminate.
  - repeat constructor; cbn; try discriminate; lia.
  - constructor. reflexivity.
Defined.

(** X8. A success does not clear the last error: after any run,
    [GetLastError] returns the error of the last scrape that failed and the
    time it was recorded at, however many successes have followed, and what
    it returned before the run when no scrape of the run failed. *)
Theorem health_last_error_survives_success (h : Health.ScraperHealth)
    (scrapes : list (Time * Duration * option error)) :
  Health.GetLastError (Health.recordAll scrapes h) =
  match last (List.filter Health.failedScrape scrapes) with
  | Some x => (snd x, fst (fst x))
  | None => Health.GetLastError h
  end.
Proof.
  induction scrapes as [|x l IH] using rev_ind; [reflexivity|].
  rewrite recordAll_snoc, List.filter_app.
  destruct x as [[now d] [e|]]; cbn [List.filter Health.failedScrape fst snd].
  - rewrite last_snoc. reflexivity.
  - rewrite app_nil_r, <- IH. reflexivity.
Qed.
(** * Splitting and joining *)

Lemma Contains_byte (c d : ascii) (s : string) :
  Strings.Contains (String d s) (String c "") =
  Ascii.eqb c d || Strings.Contains s (String c "").
Proof.
  cbn [Strings.Contains String.prefix].
  destruct (ascii_dec c d) as [->|Hne].
  - rewrite Ascii.eqb_refl. now destruct s.
  - apply Ascii.eqb_neq in Hne. rewrite Hne. reflexivity.
Qed.

Lemma Contains_byte_empty (c : ascii) : Strings.Contains "" (String c "") = false.
Proof. reflexivity. Qed.

Lemma Contains_byte_cons (c d : ascii) (s : string) :
  Strings.Contains (String d s) (String c "") = false ->
  Ascii.eqb d c = false /\ Strings.Contains s (String c "") = false.
Proof.
  rewrite Contains_byte. intros Hc. apply orb_false_iff in Hc. destruct Hc as [Hcd Hs].
  split; [|exact Hs]. now rewrite Ascii.eqb_sym.
Qed.

Lemma append_nil_l (s : string) : "" +:+ s = s.
Proof. reflexivity. Qed.

Lemma append_cons (d : ascii) (a s : string) : String d a +:+ s = String d (a +:+ s).
Proof. reflexivity. Qed.

(** A string without the separator is one part. *)
Lemma Split_without (sep : ascii) (s : string) :
  Strings.Contains s (String sep "") = false -> Strings.Split sep s = [s].
Proof.
  induction s as [|d s IH]; intros Hc; [reflexivity|].
  apply Contains_byte_cons in Hc. destruct Hc as [Hd Hs].
  cbn [Strings.Split]. rewrite Hd, (IH Hs). reflexivity.
Qed.

(** The first part ends at the first separator. *)
Lemma Split_first (sep : ascii) (a b : string) :
  Strings.Contains a (String sep "") = false ->
  Strings.Split sep (a +:+ String sep b) = a :: Strings.Split sep b.
Proof.
  induction a as [|d a IH]; intros Hc.
  - rewrite append_nil_l. cbn [Strings.Split]. now rewrite Ascii.eqb_refl.
  - apply Contains_byte_cons in Hc. destruct Hc as [Hd Ha].
    rewrite append_cons. cbn [Strings.Split]. rewrite Hd, (IH Ha). reflexivity.
Qed.

Lemma SplitN2_first (sep : ascii) (a b : string) :
  Strings.Contains a (String sep "") = false ->
  Strings.SplitN2 sep (a +:+ String sep b) = [a; b].
Proof.
  induction a as [|d a IH]; intros Hc.
  - rewrite append_nil_l. cbn [Strings.SplitN2]. now rewrite Ascii.eqb_refl.
  - apply Contains_byte_cons in Hc. destruct Hc as [Hd Ha].
    rewrite append_cons. cbn [Strings.SplitN2]. rewrite Hd, (IH Ha). reflexivity.
Qed.

Lemma SplitN2_without (sep : ascii) (s : string) :
  Strings.Contains s (String sep "") = false -> Strings.SplitN2 sep s = [s].
Proof.
  induction s as [|d s IH]; intros Hc; [reflexivity|].
  apply Contains_byte_cons in Hc. destruct Hc as [Hd Hs].
  cbn [Strings.SplitN2]. rewrite Hd, (IH Hs). reflexivity.
Qed.

Lemma Contains_byte_app (c : ascii) (a b : string) :
  Strings.Contains (a +:+ b) (String c "") =
  Strings.Contains a (String c "") || Strings.Contains b (String c "").
Proof.
  induction a as [|d a IH]; [reflexivity|].
  rewrite append_cons, !Contains_byte, IH. now rewrite orb_assoc.
Qed.

Lemma append_assoc (a b c : string) : (a +:+ b) +:+ c = a +:+ (b +:+ c).
Proof.
  induction a as [|d a IH]; [reflexivity|]. rewrite !append_cons. now rewrite IH.
Qed.

(** X9. The tags of a DAG are written into one attribute, joined by
    commas, and can be read back from it: splitting the joined string at
    the commas gives the tags again, when there is at least one tag and no
    tag contains a comma. *)
Theorem joinTags_then_Split (tags : list string) :
  tags <> [] ->
  Forall (fun tag => Strings.Contains tag "," = false) tags ->
  Strings.Split "," (Builder.joinTags tags) = tags.
Proof.
  intros Hne Hall. induction Hall as [|tag tags' Htag Hall IH]; [now elim Hne|].
  destruct tags' as [|tag' tags''].
  - cbn [Builder.joinTags]. now apply Split_without.
  - change (Builder.joinTags (tag :: tag' :: tags''))
      with (tag +:+ String "," (Builder.joinTags (tag' :: tags''))).
    rewrite (Split_first "," tag _ Htag). f_equal. apply IH. discriminate.
Qed.

Lemma joinTags_then_Split_witness :
  Strings.Split "," (Builder.joinTags ["etl"; "daily"; "team:data"]) =
  ["etl"; "daily"; "team:data"].
Proof.
  apply (joinTags_then_Split ["etl"; "daily"; "team:data"]).
  - discriminate.
  - repeat constructor.
Defined.
(** * The StatsD aggregator: parsing and the cells along a run of lines *)

Section ParserFacts.
Context `{Platform}.

(** The metric a line of the form [name:value|type] stands for. *)
Lemma parseStatsDLine_parts (part0 part1 : string) (rest : list string) (line : string) :
  Strings.Split "|" line = part0 :: part1 :: rest ->
  StatsD.parseStatsDLine line =
  match Strings.SplitN2 ":" part0 with
  | [name; value] =>
      match ParseFloat value with
      | Some value =>
          Some (StatsD.parseOptions rest
                  {| StatsD.Name := name; StatsD.Value := value; StatsD.Type' := part1;
                     StatsD.SampleRate := 1.0%float; StatsD.Tags := ∅; StatsD.Count := 0;
                     StatsD.Sum := 0%float; StatsD.Min := 0%float; StatsD.Max := 0%float |})
      | None => None
      end
  | _ => None
  end.
Proof. intros Hs. unfold StatsD.parseStatsDLine. now rewrite Hs. Qed.

(** No metric is made of the empty line. *)
Lemma parseStatsDLine_empty : StatsD.parseStatsDLine "" = None.
Proof. reflexivity. Qed.
End ParserFacts.

(** X10. Writing and reading a line: the line [name:value|type], where
    the name has neither [:] nor [|], the value is a text without [|] that
    [strconv.ParseFloat] reads as [v], and the type has no [|], is parsed
    into the metric with this name, the value [v], this type, the sample
    rate 1.0 and no tags; with [|@rate] after it, where [ParseFloat] reads
    the rate as [r], into the same metric with the sample rate [r]. *)
Theorem parse_formatted_line `{Platform} (name value type' : string) (v : float) :
  Strings.Contains name ":" = false ->
  Strings.Contains name "|" = false ->
  Strings.Contains value "|" = false ->
  Strings.Contains type' "|" = false ->
  ParseFloat value = Some v ->
  StatsD.parseStatsDLine (name +:+ ":" +:+ value +:+ "|" +:+ type') =
    Some {| StatsD.Name := name; StatsD.Value := v; StatsD.Type' := type';
            StatsD.SampleRate := 1.0%float; StatsD.Tags := ∅; StatsD.Count := 0;
            StatsD.Sum := 0%float; StatsD.Min := 0%float; StatsD.Max := 0%float |} /\
  forall (rate : string) (r : float),
    Strings.Contains rate "|" = false ->
    ParseFloat rate = Some r ->
    StatsD.parseStatsDLine (name +:+ ":" +:+ value +:+ "|" +:+ type' +:+ "|@" +:+ rate) =
      Some {| StatsD.Name := name; StatsD.Value := v; StatsD.Type' := type';
              StatsD.SampleRate := r; StatsD.Tags := ∅; StatsD.Count := 0;
              StatsD.Sum := 0%float; StatsD.Min := 0%float; StatsD.Max := 0%float |}.
Proof.
  intros Hn1 Hn2 Hv Ht Hp.
  assert (Hpart0 : Strings.Contains (name +:+ ":" +:+ value) "|" = false).
  { rewrite Contains_byte_app, Hn2. change (":" +:+ value) with (String ":" value).
    rewrite Contains_byte, Hv. reflexivity. }
  assert (Hnv : Strings.SplitN2 ":" (name +:+ ":" +:+ value) = [name; value]).
  { change (":" +:+ value) with (String ":" value). now apply SplitN2_first. }
  split.
  - rewrite (parseStatsDLine_parts (name +:+ ":" +:+ value) type' []).
    + now rewrite Hnv, Hp.
    + replace (name +:+ ":" +:+ value +:+ "|" +:+ type')
        with ((name +:+ ":" +:+ value) +:+ String "|" type')
        by (rewrite append_assoc; reflexivity).
      rewrite (Split_first "|" _ _ Hpart0). f_equal. now apply Split_without.
  - intros rate r Hr Hpr.
    rewrite (parseStatsDLine_parts (name +:+ ":" +:+ value) type' [String "@" rate]).
    + rewrite Hnv, Hp. cbn [StatsD.parseOptions fold_left Strings.HasPrefix Strings.dropFirst].
      rewrite Ascii.eqb_refl. now rewrite Hpr.
    + replace (name +:+ ":" +:+ value +:+ "|" +:+ type' +:+ "|@" +:+ rate)
        with ((name +:+ ":" +:+ value) +:+ String "|" (type' +:+ String "|" (String "@" rate)))
        by (rewrite append_assoc; reflexivity).
      rewrite (Split_first "|" _ _ Hpart0). f_equal.
      rewrite (Split_first "|" _ _ Ht). f_equal.
      apply Split_without. rewrite Contains_byte, Hr. reflexivity.
Qed.

Lemma parse_formatted_line_witness :
  StatsD.parseStatsDLine (H := Reference.platform)
    ("dag.duration" +:+ ":" +:+ "12.5" +:+ "|" +:+ "ms") =
    Some {| StatsD.Name := "dag.duration"; StatsD.Value := 12.5%float; StatsD.Type' := "ms";
            StatsD.SampleRate := 1.0%float; StatsD.Tags := ∅; StatsD.Count := 0;
            StatsD.Sum := 0%float; StatsD.Min := 0%float; StatsD.Max := 0%float |} /\
  forall (rate : string) (r : float),
    Strings.Contains rate "|" = false ->
    ParseFloat (Platform := Reference.platform) rate = Some r ->
    StatsD.parseStatsDLine (H := Reference.platform)
      ("dag.duration" +:+ ":" +:+ "12.5" +:+ "|" +:+ "ms" +:+ "|@" +:+ rate) =
      Some {| StatsD.Name := "dag.duration"; StatsD.Value := 12.5%float;
              StatsD.Type' := "ms";
              StatsD.SampleRate := r; StatsD.Tags := ∅; StatsD.Count := 0;
              StatsD.Sum := 0%float; StatsD.Min := 0%float; StatsD.Max := 0%float |}.
Proof.
  apply (parse_formatted_line (H := Reference.platform) "dag.duration" "12.5" "ms"
           12.5%float); vm_compute; reflexivity.
Defined.

(** X11. A line that has no [|], or no [:] before its first [|], or whose
    value [strconv.ParseFloat] does not read, stands for no metric. *)
Theorem parse_rejects_malformed_line `{Platform} (line : string) :
  Strings.Contains line "|" = false \/
  (exists head tail : string,
     line = head +:+ "|" +:+ tail /\
     Strings.Contains head "|" = false /\
     (Strings.Contains head ":" = false \/
      exists name value : string,
        head = name +:+ ":" +:+ value /\ Strings.Contains name ":" = false /\
        ParseFloat value = None)) ->
  StatsD.parseStatsDLine line = None.
Proof.
  intros [Hbar | (head & tail & -> & Hhead & Hcase)].
  - unfold StatsD.parseStatsDLine. now rewrite (Split_without "|" line Hbar).
  - change ("|" +:+ tail) with (String "|" tail).
    unfold StatsD.parseStatsDLine. rewrite (Split_first "|" _ _ Hhead).
    destruct (Strings.Split "|" tail) as [|part1 rest] eqn:Htail; [reflexivity|].
    destruct Hcase as [Hcolon | (name & value & -> & Hname & Hparse)].
    + now rewrite (SplitN2_without ":" head Hcolon).
    + change (":" +:+ value) with (String ":" value).
      rewrite (SplitN2_first ":" _ _ Hname). now rewrite Hparse.
Qed.

Lemma parse_rejects_malformed_line_witness :
  StatsD.parseStatsDLine (H := Reference.platform) "requests:five|c" = None.
Proof.
  apply (parse_rejects_malformed_line (H := Reference.platform) "requests:five|c").
  right. exists "requests:five", "c". split; [reflexivity|]. split; [reflexivity|].
  right. exists "requests", "five". repeat split; reflexivity.
Defined.

Section RunFacts.
Context `{Platform} `{Surroundings}.

(** A line that stands for a metric is aggregated. *)
Lemma ingest_parsed (s : StatsD.StatsDScraper) (line : string)
    (metric : StatsD.StatsDMetric) :
  StatsD.parseStatsDLine line = Some metric ->
  StatsD.ingest s line = StatsD.aggregate metric s.
Proof.
  intros Hp. unfold StatsD.ingest. rewrite Hp.
  destruct (String.eqb_spec line "") as [->|Hne]; [|reflexivity].
  rewrite parseStatsDLine_empty in Hp. discriminate.
Qed.

(** The key of a metric without tags is its name. *)
Lemma aggregate_untagged (metric : StatsD.StatsDMetric) (s : StatsD.StatsDScraper)
    (w : World) :
  StatsD.Tags metric = ∅ ->
  valueOf (StatsD.aggregate metric s w) =
  StatsD.setMetrics
    (StatsD.aggregateAt (StatsD.Name metric) metric (StatsD.metrics s)) s.
Proof.
  intros Ht. unfold StatsD.aggregate. rewrite valueOf_bind.
  unfold rangeMap. cbn [valueOf worldOf fst snd ret]. rewrite Ht, map_to_list_empty.
  reflexivity.
Qed.

(** The table after a run of lines that stand for metrics of one name
    without tags. *)
Lemma ingest_run (name : string) (lines : list string) (ms : list StatsD.StatsDMetric) :
  Forall2 (fun line m => StatsD.parseStatsDLine line = Some m) lines ms ->
  Forall (fun m => StatsD.Name m = name /\ StatsD.Tags m = ∅) ms ->
  forall (s : StatsD.StatsDScraper) (w : World),
  StatsD.metrics (valueOf (foldM lines StatsD.ingest s w)) =
  fold_left (fun table m => StatsD.aggregateAt name m table) ms (StatsD.metrics s).
Proof.
  induction 1 as [|line m lines ms Hp Hrest IH]; intros Hall s w; [reflexivity|].
  apply Forall_cons in Hall. destruct Hall as [[Hn Ht] Hall].
  rewrite foldM_cons, valueOf_bind, (IH Hall). cbn [fold_left].
  rewrite (ingest_parsed s line m Hp), (aggregate_untagged m s w Ht), Hn. reflexivity.
Qed.

(** The identity of a cell: what [aggregate] never writes once the cell
    is there. *)
Lemma update_identity (metric existing : StatsD.StatsDMetric) :
  StatsD.Name (StatsD.update metric existing) = StatsD.Name existing /\
  StatsD.Type' (StatsD.update metric existing) = StatsD.Type' existing /\
  StatsD.Tags (StatsD.update metric existing) = StatsD.Tags existing /\
  StatsD.SampleRate (StatsD.update metric existing) = StatsD.SampleRate existing.
Proof.
  unfold StatsD.update.
  destruct (String.eqb (StatsD.Type' metric) "c"); [now cbn|].
  destruct (String.eqb (StatsD.Type' metric) "g"); [now cbn|].
  destruct (String.eqb (StatsD.Type' metric) "ms" || String.eqb (StatsD.Type' metric) "h");
    now cbn.
Qed.

(** Two cells of the same identity. *)
Lemma aggregateAt_identity (key : string) (metric : StatsD.StatsDMetric)
    (table : gmap string StatsD.StatsDMetric) (k : string) (cell : StatsD.StatsDMetric) :
  table !! k = Some cell ->
  exists cell',
    StatsD.aggregateAt key metric table !! k = Some cell' /\
    StatsD.Name cell' = StatsD.Name cell /\ StatsD.Type' cell' = StatsD.Type' cell /\
    StatsD.Tags cell' = StatsD.Tags cell /\
    StatsD.SampleRate cell' = StatsD.SampleRate cell.
Proof.
  intros Hk. destruct (decide (key = k)) as [->|Hne].
  - unfold StatsD.aggregateAt. rewrite Hk, lookup_insert_eq.
    eexists. split; [reflexivity|]. apply update_identity.
  - rewrite aggregateAt_other by exact Hne. exists cell. auto.
Qed.

Lemma ingest_identity (s : StatsD.StatsDScraper) (line : string) (w : World)
    (k : string) (cell : StatsD.StatsDMetric) :
  StatsD.metrics s !! k = Some cell ->
  exists cell',
    StatsD.metrics (valueOf (StatsD.ingest s line w)) !! k = Some cell' /\
    StatsD.Name cell' = StatsD.Name cell /\ StatsD.Type' cell' = StatsD.Type' cell /\
    StatsD.Tags cell' = StatsD.Tags cell /\
    StatsD.SampleRate cell' = StatsD.SampleRate cell.
Proof.
  intros Hk. unfold StatsD.ingest.
  destruct (String.eqb line ""); [exists cell; auto|].
  destruct (StatsD.parseStatsDLine line) as [metric|]; [|exists cell; auto].
  unfold StatsD.aggregate. rewrite valueOf_bind. cbn [valueOf fst ret StatsD.setMetrics StatsD.metrics].
  now apply aggregateAt_identity.
Qed.

Lemma foldM_identity {A : Type} (l : list A)
    (body : StatsD.StatsDScraper -> A -> M StatsD.StatsDScraper) (k : string) :
  (forall s x w cell, StatsD.metrics s !! k = Some cell ->
     exists cell',
       StatsD.metrics (valueOf (body s x w)) !! k = Some cell' /\
       StatsD.Name cell' = StatsD.Name cell /\ StatsD.Type' cell' = StatsD.Type' cell /\
       StatsD.Tags cell' = StatsD.Tags cell /\
       StatsD.SampleRate cell' = StatsD.SampleRate cell) ->
  forall s w cell, StatsD.metrics s !! k = Some cell ->
    exists cell',
      StatsD.metrics (valueOf (foldM l body s w)) !! k = Some cell' /\
      StatsD.Name cell' = StatsD.Name cell /\ StatsD.Type' cell' = StatsD.Type' cell /\
      StatsD.Tags cell' = StatsD.Tags cell /\
      StatsD.SampleRate cell' = StatsD.SampleRate cell.
Proof.
  intros Hbody. induction l as [|x l IH]; intros s w cell Hk; [exists cell; auto|].
  rewrite foldM_cons, valueOf_bind.
  destruct (Hbody s x w cell Hk) as (cell1 & Hk1 & Hn1 & Ht1 & Hg1 & Hr1).
  destruct (IH (valueOf (body s x w)) (worldOf (body s x w)) cell1 Hk1)
    as (cell2 & Hk2 & Hn2 & Ht2 & Hg2 & Hr2).
  exists cell2. repeat split; congruence.
Qed.

(** What ingestion leaves alone. *)
Lemma ingest_silent (s : StatsD.StatsDScraper) (line : string) (w : World) :
  let r := StatsD.ingest s line w in
  heap (worldOf r) = heap w /\ ticks (worldOf r) = ticks w /\
  selects (worldOf r) = selects w /\ requests (worldOf r) = requests w /\
  eventsOf r = [] /\ StatsD.mb (valueOf r) = StatsD.mb s.
Proof.
  cbv zeta. unfold StatsD.ingest. destruct (String.eqb line ""); [now cbn|].
  destruct (StatsD.parseStatsDLine line) as [metric|]; now cbn.
Qed.

Lemma foldM_silent {A : Type} (l : list A)
    (body : StatsD.StatsDScraper -> A -> M StatsD.StatsDScraper) :
  (forall s x w,
     heap (worldOf (body s x w)) = heap w /\ ticks (worldOf (body s x w)) = ticks w /\
     selects (worldOf (body s x w)) = selects w /\
     requests (worldOf (body s x w)) = requests w /\
     eventsOf (body s x w) = [] /\ StatsD.mb (valueOf (body s x w)) = StatsD.mb s) ->
  forall s w,
    heap (worldOf (foldM l body s w)) = heap w /\
    ticks (worldOf (foldM l body s w)) = ticks w /\
    selects (worldOf (foldM l body s w)) = selects w /\
    requests (worldOf (foldM l body s w)) = requests w /\
    eventsOf (foldM l body s w) = [] /\
    StatsD.mb (valueOf (foldM l body s w)) = StatsD.mb s.
Proof.
  intros Hbody. induction l as [|x l IH]; intros s w; [now cbn|].
  rewrite foldM_cons, valueOf_bind, worldOf_bind, eventsOf_bind.
  destruct (Hbody s x w) as (H1 & H2 & H3 & H4 & H5 & H6).
  destruct (IH (valueOf (body s x w)) (worldOf (body s x w)))
    as (I1 & I2 & I3 & I4 & I5 & I6).
  rewrite H5, I5. repeat split; congruence.
Qed.
End RunFacts.

(** What a run of lines of one kind makes of a cell that is there. *)
Lemma run_on_cell (name : string) (ms : list StatsD.StatsDMetric) :
  forall (table : gmap string StatsD.StatsDMetric) (cell : StatsD.StatsDMetric),
  table !! name = Some cell ->
  fold_left (fun table m => StatsD.aggregateAt name m table) ms table !! name =
  Some (fold_left (fun cell m => StatsD.update m cell) ms cell).
Proof.
  induction ms as [|m ms IH]; intros table cell Hk; [exact Hk|].
  cbn [fold_left]. apply IH. unfold StatsD.aggregateAt. rewrite Hk.
  apply lookup_insert_eq.
Qed.

Lemma run_from_nothing (name : string) (first : StatsD.StatsDMetric)
    (rest : list StatsD.StatsDMetric) (table : gmap string StatsD.StatsDMetric) :
  table !! name = None ->
  fold_left (fun table m => StatsD.aggregateAt name m table) (first :: rest) table !! name =
  Some (fold_left (fun cell m => StatsD.update m cell) rest (StatsD.firstCell first)).
Proof.
  intros Hk. cbn [fold_left]. apply run_on_cell. now apply aggregateAt_first.
Qed.

Lemma counter_updates (rest : list StatsD.StatsDMetric) :
  Forall (fun m => StatsD.Type' m = "c") rest ->
  forall cell,
  StatsD.Value (fold_left (fun cell m => StatsD.update m cell) rest cell) =
  fold_left (fun acc m => PrimFloat.add acc (PrimFloat.div (StatsD.Value m) (StatsD.SampleRate m)))
    rest (StatsD.Value cell).
Proof.
  induction 1 as [|m rest Hm Hrest IH]; intros cell; [reflexivity|].
  cbn [fold_left]. rewrite IH. f_equal. unfold StatsD.update. rewrite Hm. reflexivity.
Qed.

Lemma gauge_updates (rest : list StatsD.StatsDMetric) :
  Forall (fun m => StatsD.Type' m = "g") rest ->
  forall cell,
  StatsD.Value (fold_left (fun cell m => StatsD.update m cell) rest cell) =
  match last rest with Some m => StatsD.Value m | None => StatsD.Value cell end.
Proof.
  induction rest as [|m rest IH] using rev_ind; intros Hall cell; [reflexivity|].
  apply Forall_app in Hall. destruct Hall as [Hrest Hm].
  apply Forall_cons in Hm. destruct Hm as [Hm _].
  rewrite fold_left_app, last_snoc. cbn [fold_left].
  unfold StatsD.update. rewrite Hm. reflexivity.
Qed.

Lemma timer_updates (rest : list StatsD.StatsDMetric) :
  Forall (fun m => StatsD.Type' m = "ms" \/ StatsD.Type' m = "h") rest ->
  forall cell,
  0 <= StatsD.Count cell ->
  StatsD.Count cell + Z.of_nat (length rest) <= max_int64 ->
  let cell' := fold_left (fun cell m => StatsD.update m cell) rest cell in
  StatsD.Count cell' = StatsD.Count cell + Z.of_nat (length rest) /\
  StatsD.Sum cell' =
    fold_left (fun acc m => PrimFloat.add acc (StatsD.Value m)) rest (StatsD.Sum cell) /\
  StatsD.Min cell' =
    fold_left (fun acc m => if PrimFloat.ltb (StatsD.Value m) acc then StatsD.Value m else acc)
      rest (StatsD.Min cell) /\
  StatsD.Max cell' =
    fold_left (fun acc m => if PrimFloat.ltb acc (StatsD.Value m) then StatsD.Value m else acc)
      rest (StatsD.Max cell).
Proof.
  induction 1 as [|m rest Hm Hrest IH]; intros cell H0 Hmax.
  - cbn. split; [lia|]. repeat split.
  - cbn [length] in Hmax. cbv zeta. cbn [fold_left].
    assert (Hu : StatsD.update m cell =
      {| StatsD.Name := StatsD.Name cell; StatsD.Value := StatsD.Value cell;
         StatsD.Type' := StatsD.Type' cell; StatsD.SampleRate := StatsD.SampleRate cell;
         StatsD.Tags := StatsD.Tags cell;
         StatsD.Count := StatsD.Count cell + 1;
         StatsD.Sum := PrimFloat.add (StatsD.Sum cell) (StatsD.Value m);
         StatsD.Min := if PrimFloat.ltb (StatsD.Value m) (StatsD.Min cell)
                       then StatsD.Value m else StatsD.Min cell;
         StatsD.Max := if PrimFloat.ltb (StatsD.Max cell) (StatsD.Value m)
                       then StatsD.Value m else StatsD.Max cell |}).
    { unfold StatsD.update.
      rewrite (wrap64_id (StatsD.Count cell + 1))
        by (unfold min_int64, max_int64 in *; lia).
      destruct Hm as [-> | ->]; reflexivity. }
    rewrite Hu.
    match goal with |- context [fold_left _ rest ?c] => set (cell1 := c) end.
    assert (H01 : 0 <= StatsD.Count cell1) by (subst cell1; cbn; lia).
    assert (Hm1 : StatsD.Count cell1 + Z.of_nat (length rest) <= max_int64)
      by (subst cell1; cbn [StatsD.Count]; lia).
    destruct (IH cell1 H01 Hm1) as (Hc & Hs & Hmin & Hmx).
    rewrite Hc, Hs, Hmin, Hmx. subst cell1.
    cbn [StatsD.Count StatsD.Sum StatsD.Min StatsD.Max length].
    split; [lia|]. repeat split.
Qed.

(** X12. A counter cell holds the value of its first line as it is, plus
    [value / sampleRate] of every later line: after a run of counter lines
    of one name without tags, read by a scraper that had no cell of that
    name, the cell holds exactly that sum, in the order of the lines. *)
Theorem counter_cell_first_plus_scaled_rest `{Platform} `{Surroundings}
    (name : string) (lines : list string) (first : StatsD.StatsDMetric)
    (rest : list StatsD.StatsDMetric) (s : StatsD.StatsDScraper) (w : World) :
  Forall2 (fun line m => StatsD.parseStatsDLine line = Some m) lines (first :: rest) ->
  Forall (fun m => StatsD.Name m = name /\ StatsD.Tags m = ∅ /\ StatsD.Type' m = "c")
    (first :: rest) ->
  StatsD.metrics s !! name = None ->
  StatsD.Value <$> (StatsD.metrics (valueOf (foldM lines StatsD.ingest s w)) !! name) =
  Some (fold_left
          (fun acc m => PrimFloat.add acc (PrimFloat.div (StatsD.Value m) (StatsD.SampleRate m)))
          rest (StatsD.Value first)).
Proof.
  intros Hp Hall Hk.
  rewrite (ingest_run name lines (first :: rest) Hp)
    by (eapply Forall_impl; [exact Hall | cbn beta; tauto]).
  rewrite (run_from_nothing name first rest _ Hk). cbn [fmap option_fmap option_map].
  f_equal. apply Forall_cons in Hall. destruct Hall as [_ Hrest].
  rewrite counter_updates by (eapply Forall_impl; [exact Hrest | cbn beta; tauto]).
  reflexivity.
Qed.

Lemma counter_cell_first_plus_scaled_rest_witness :
  let line v :=
    {| StatsD.Name := "requests"; StatsD.Value := v; StatsD.Type' := "c";
       StatsD.SampleRate := 0.5%float; StatsD.Tags := ∅; StatsD.Count := 0;
       StatsD.Sum := 0%float; StatsD.Min := 0%float; StatsD.Max := 0%float |} in
  StatsD.Value <$>
    (StatsD.metrics
       (valueOf (foldM ["requests:5|c|@0.5"; "requests:3|c|@0.5"; "requests:1|c|@0.5"]
                   (StatsD.ingest (H := Reference.platform) (H0 := Reference.quiet))
                   (StatsD.fed (H := Reference.platform) (H0 := Reference.quiet) [])
                   emptyWorld)) !! "requests") =
  Some (fold_left
          (fun acc m => PrimFloat.add acc (PrimFloat.div (StatsD.Value m) (StatsD.SampleRate m)))
          [line 3%float; line 1%float] 5%float).
Proof.
  intros line.
  apply (counter_cell_first_plus_scaled_rest (H := Reference.platform) (H0 := Reference.quiet)
           "requests" ["requests:5|c|@0.5"; "requests:3|c|@0.5"; "requests:1|c|@0.5"]
           (line 5%float) [line 3%float; line 1%float]
           (StatsD.fed (H := Reference.platform) (H0 := Reference.quiet) []) emptyWorld).
  - repeat constructor; vm_compute; reflexivity.
  - repeat constructor.
  - reflexivity.
Defined.

(** X13. A gauge cell holds the value of the last line: after a run of
    gauge lines of one name without tags, read by a scraper that had no
    cell of that name, the value of the cell is the value of the last
    line of the run. *)
Theorem gauge_cell_last_value `{Platform} `{Surroundings}
    (name : string) (lines : list string) (first : StatsD.StatsDMetric)
    (rest : list StatsD.StatsDMetric) (s : StatsD.StatsDScraper) (w : World) :
  Forall2 (fun line m => StatsD.parseStatsDLine line = Some m) lines (first :: rest) ->
  Forall (fun m => StatsD.Name m = name /\ StatsD.Tags m = ∅ /\ StatsD.Type' m = "g")
    (first :: rest) ->
  StatsD.metrics s !! name = None ->
  StatsD.Value <$> (StatsD.metrics (valueOf (foldM lines StatsD.ingest s w)) !! name) =
  StatsD.Value <$> last (first :: rest).
Proof.
  intros Hp Hall Hk.
  rewrite (ingest_run name lines (first :: rest) Hp)
    by (eapply Forall_impl; [exact Hall | cbn beta; tauto]).
  rewrite (run_from_nothing name first rest _ Hk). cbn [fmap option_fmap option_map].
  apply Forall_cons in Hall. destruct Hall as [_ Hrest].
  rewrite gauge_updates by (eapply Forall_impl; [exact Hrest | cbn beta; tauto]).
  destruct rest as [|m rest] using rev_ind; [reflexivity|].
  rewrite last_snoc. change (first :: rest ++ [m]) with ((first :: rest) ++ [m]).
  now rewrite last_snoc.
Qed.

Lemma gauge_cell_last_value_witness :
  let line v :=
    {| StatsD.Name := "pool.open"; StatsD.Value := v; StatsD.Type' := "g";
       StatsD.SampleRate := 1%float; StatsD.Tags := ∅; StatsD.Count := 0;
       StatsD.Sum := 0%float; StatsD.Min := 0%float; StatsD.Max := 0%float |} in
  StatsD.Value <$>
    (StatsD.metrics
       (valueOf (foldM ["pool.open:8|g"; "pool.open:2|g"; "pool.open:5|g"]
                   (StatsD.ingest (H := Reference.platform) (H0 := Reference.quiet))
                   (StatsD.fed (H := Reference.platform) (H0 := Reference.quiet) [])
                   emptyWorld)) !! "pool.open") =
  StatsD.Value <$> last [line 8%float; line 2%float; line 5%float].
Proof.
  intros line.
  apply (gauge_cell_last_value (H := Reference.platform) (H0 := Reference.quiet)
           "pool.open" ["pool.open:8|g"; "pool.open:2|g"; "pool.open:5|g"]
           (line 8%float) [line 2%float; line 5%float]
           (StatsD.fed (H := Reference.platform) (H0 := Reference.quiet) []) emptyWorld).
  - repeat constructor; vm_compute; reflexivity.
  - repeat constructor.
  - reflexivity.
Defined.

(** X14. A timer cell summarises its lines: after a run of [n] timer or
    histogram lines ([ms] or [h], mixed as they come) of one name without
    tags, read by a scraper that had no cell of that name, the count of
    the cell is [n], its sum is the values added in the order of the
    lines, and its minimum and maximum are the first value moved by every
    later value that compares below, or above, it. *)
Theorem timer_cell_summary `{Platform} `{Surroundings}
    (name : string) (lines : list string) (first : StatsD.StatsDMetric)
    (rest : list StatsD.StatsDMetric) (s : StatsD.StatsDScraper) (w : World) :
  Forall2 (fun line m => StatsD.parseStatsDLine line = Some m) lines (first :: rest) ->
  Forall (fun m => StatsD.Name m = name /\ StatsD.Tags m = ∅ /\
                   (StatsD.Type' m = "ms" \/ StatsD.Type' m = "h")) (first :: rest) ->
  StatsD.metrics s !! name = None ->
  Z.of_nat (length lines) <= max_int64 ->
  exists cell,
    StatsD.metrics (valueOf (foldM lines StatsD.ingest s w)) !! name = Some cell /\
    StatsD.Count cell = Z.of_nat (length lines) /\
    StatsD.Sum cell =
      fold_left (fun acc m => PrimFloat.add acc (StatsD.Value m)) rest (StatsD.Value first) /\
    StatsD.Min cell =
      fold_left (fun acc m => if PrimFloat.ltb (StatsD.Value m) acc then StatsD.Value m else acc)
        rest (StatsD.Value first) /\
    StatsD.Max cell =
      fold_left (fun acc m => if PrimFloat.ltb acc (StatsD.Value m) then StatsD.Value m else acc)
        rest (StatsD.Value first).
Proof.
  intros Hp Hall Hk Hlen.
  rewrite (ingest_run name lines (first :: rest) Hp)
    by (eapply Forall_impl; [exact Hall | cbn beta; tauto]).
  rewrite (run_from_nothing name first rest _ Hk).
  eexists. split; [reflexivity|].
  apply Forall_cons in Hall. destruct Hall as [_ Hrest].
  assert (Hl : length lines = S (length rest)).
  { apply Forall2_length in Hp. exact Hp. }
  destruct (timer_updates rest) with (cell := StatsD.firstCell first) as (Hc & Hs & Hmin & Hmx).
  - eapply Forall_impl; [exact Hrest | cbn beta; tauto].
  - cbn. lia.
  - cbn [StatsD.firstCell StatsD.Count]. lia.
  - rewrite Hc, Hs, Hmin, Hmx. cbn [StatsD.firstCell StatsD.Count StatsD.Sum StatsD.Min StatsD.Max].
    split; [lia|]. repeat split.
Qed.

Lemma timer_cell_summary_witness :
  let line ty v :=
    {| StatsD.Name := "latency"; StatsD.Value := v; StatsD.Type' := ty;
       StatsD.SampleRate := 1%float; StatsD.Tags := ∅; StatsD.Count := 0;
       StatsD.Sum := 0%float; StatsD.Min := 0%float; StatsD.Max := 0%float |} in
  exists cell,
    StatsD.metrics
      (valueOf (foldM ["latency:20|ms"; "latency:10|h"; "latency:30|ms"]
                  (StatsD.ingest (H := Reference.platform) (H0 := Reference.quiet))
                  (StatsD.fed (H := Reference.platform) (H0 := Reference.quiet) [])
                  emptyWorld)) !! "latency" = Some cell /\
    StatsD.Count cell = 3 /\
    StatsD.Sum cell =
      fold_left (fun acc m => PrimFloat.add acc (StatsD.Value m))
        [line "h" 10%float; line "ms" 30%float] 20%float /\
    StatsD.Min cell =
      fold_left (fun acc m => if PrimFloat.ltb (StatsD.Value m) acc then StatsD.Value m else acc)
        [line "h" 10%float; line "ms" 30%float] 20%float /\
    StatsD.Max cell =
      fold_left (fun acc m => if PrimFloat.ltb acc (StatsD.Value m) then StatsD.Value m else acc)
        [line "h" 10%float; line "ms" 30%float] 20%float.
Proof.
  intros line.
  apply (timer_cell_summary (H := Reference.platform) (H0 := Reference.quiet)
           "latency" ["latency:20|ms"; "latency:10|h"; "latency:30|ms"]
           (line "ms" 20%float) [line "h" 10%float; line "ms" 30%float]
           (StatsD.fed (H := Reference.platform) (H0 := Reference.quiet) []) emptyWorld).
  - repeat constructor; vm_compute; reflexivity.
  - constructor; [repeat split; auto|].
    constructor; [repeat split; auto|].
    constructor; [repeat split; auto|]. constructor.
  - reflexivity.
  - vm_compute. discriminate.
Defined.

(** X15. The kind of a cell is fixed at its first observation, and a cell
    is never removed: whatever datagrams the listener reads afterwards, a
    cell that is in the table stays under its key with its name, its type
    and its tags (and its sample rate, which no line ever sets).  A line of
    another type that reaches the cell changes values only. *)
Theorem cell_identity_fixed_at_first_observation `{Platform} `{Surroundings}
    (datagrams : list string) (s : StatsD.StatsDScraper) (w : World)
    (k : string) (cell : StatsD.StatsDMetric) :
  StatsD.metrics s !! k = Some cell ->
  exists cell',
    StatsD.metrics (valueOf (StatsD.listen datagrams s w)) !! k = Some cell' /\
    StatsD.Name cell' = StatsD.Name cell /\ StatsD.Type' cell' = StatsD.Type' cell /\
    StatsD.Tags cell' = StatsD.Tags cell /\
    StatsD.SampleRate cell' = StatsD.SampleRate cell.
Proof.
  unfold StatsD.listen. apply foldM_identity. intros s' data w'.
  unfold StatsD.parseAndAggregate. apply foldM_identity. intros s'' line w''.
  apply ingest_identity.
Qed.

Lemma cell_identity_fixed_at_first_observation_witness :
  exists cell',
    StatsD.metrics
      (valueOf (StatsD.listen (H := Reference.platform) (H0 := Reference.quiet)
                  ["requests:7|g"]
                  (StatsD.fed (H := Reference.platform) (H0 := Reference.quiet)
                     ["requests:5|c"])
                  emptyWorld)) !! "requests" = Some cell' /\
    StatsD.Name cell' = "requests" /\ StatsD.Type' cell' = "c" /\
    StatsD.Tags cell' = ∅ /\ StatsD.SampleRate cell' = 0%float.
Proof.
  apply (cell_identity_fixed_at_first_observation (H := Reference.platform)
           (H0 := Reference.quiet) ["requests:7|g"]
           (StatsD.fed (H := Reference.platform) (H0 := Reference.quiet) ["requests:5|c"])
           emptyWorld "requests"
           {| StatsD.Name := "requests"; StatsD.Value := 5%float; StatsD.Type' := "c";
              StatsD.SampleRate := 0%float; StatsD.Tags := ∅; StatsD.Count := 1;
              StatsD.Sum := 5%float; StatsD.Min := 5%float; StatsD.Max := 5%float |}).
  vm_compute. reflexivity.
Defined.

(** X16. Reading a datagram touches the table only: [parseAndAggregate]
    leaves every collection of metrics as it is, reads no clock, sends
    nothing and writes no log entry, not even for the lines it drops; the
    builder of the scraper stays the same. *)
Theorem parseAndAggregate_is_silent `{Platform} `{Surroundings}
    (data : string) (s : StatsD.StatsDScraper) (w : World) :
  let r := StatsD.parseAndAggregate data s w in
  heap (worldOf r) = heap w /\ ticks (worldOf r) = ticks w /\
  selects (worldOf r) = selects w /\ requests (worldOf r) = requests w /\
  eventsOf r = [] /\ StatsD.mb (valueOf r) = StatsD.mb s.
Proof.
  cbv zeta. unfold StatsD.parseAndAggregate. apply foldM_silent. apply ingest_silent.
Qed.

(** X17. With at most one tag the cell of a metric does not depend on the
    order of any [range]: whatever the surroundings, [aggregate] updates
    the same table in the same way. *)
Theorem aggregate_with_one_tag_is_determined (S1 S2 : Surroundings)
    (metric : StatsD.StatsDMetric) (s : StatsD.StatsDScraper) (w1 w2 : World) :
  (size (StatsD.Tags metric) <= 1)%nat ->
  valueOf (StatsD.aggregate (H0 := S1) metric s w1) =
  valueOf (StatsD.aggregate (H0 := S2) metric s w2).
Proof.
  intros Hsize. unfold StatsD.aggregate. rewrite !valueOf_bind.
  unfold rangeMap. cbn [valueOf worldOf fst snd ret].
  rewrite <- length_map_to_list in Hsize.
  destruct (map_to_list (StatsD.Tags metric)) as [|x [|y l]]; [reflexivity | reflexivity |].
  cbn [length] in Hsize. lia.
Qed.

Lemma aggregate_with_one_tag_is_determined_witness :
  let metric :=
    {| StatsD.Name := "latency"; StatsD.Value := 10%float; StatsD.Type' := "ms";
       StatsD.SampleRate := 1%float; StatsD.Tags := {["env" := "prod"]};
       StatsD.Count := 0; StatsD.Sum := 0%float; StatsD.Min := 0%float;
       StatsD.Max := 0%float |} in
  valueOf (StatsD.aggregate (H0 := Reference.quiet) metric
             (StatsD.fed (H := Reference.platform) (H0 := Reference.quiet) []) emptyWorld) =
  valueOf (StatsD.aggregate (H0 := Reference.shuffling) metric
             (StatsD.fed (H := Reference.platform) (H0 := Reference.quiet) []) emptyWorld).
Proof.
  intros metric.
  apply (aggregate_with_one_tag_is_determined Reference.quiet Reference.shuffling metric
           (StatsD.fed (H := Reference.platform) (H0 := Reference.quiet) [])
           emptyWorld emptyWorld).
  vm_compute. lia.
Defined.
(** * The log adapter: records, errors and rows that do not scan *)

Lemma lookup_putIf (cond : bool) (k v k' : string) (attrs : gmap string string) :
  Logs.putIf cond k v attrs !! k' =
  if cond && String.eqb k k' then Some v else attrs !! k'.
Proof.
  unfold Logs.putIf. destruct cond; [|reflexivity]. cbn [andb].
  destruct (String.eqb_spec k k') as [->|Hne].
  - apply lookup_insert_eq.
  - now apply lookup_insert_ne.
Qed.

(** The attributes made of the [extra] column do not reach the keys that
    do not start like them. *)
Lemma lookup_extras (c : ascii) (k : string) (attrs extra : gmap string string) :
  c <> "e"%char ->
  map_fold (fun key value attrs => <["extra." +:+ key := value]> attrs) attrs extra
    !! String c k = attrs !! String c k.
Proof.
  intros Hc.
  apply (map_fold_weak_ind
           (fun (r : gmap string string) (_ : gmap string string) =>
              r !! String c k = attrs !! String c k)); [reflexivity|].
  intros i x m r _ Hr. rewrite lookup_insert_ne; [exact Hr|].
  change ("extra." +:+ i) with (String "e" ("xtra." +:+ i)). congruence.
Qed.

Section RecordFacts.
Context `{Platform} `{Logs.Codec} `{Surroundings}.

(** The record [RecordEventLog] appends for a row that scans. *)
Lemma scanRow_record (r : Logs.Row) (s : Logs.LogScraper) (n : Z) (w : World) :
  Logs.scans r = true ->
  exists lr,
    Logs.logRecords (Logs.logs (Logs.lb (fst (valueOf (Logs.scanRow (s, n) r w))))) =
      Logs.logRecords (Logs.logs (Logs.lb s)) ++ [lr] /\
    LogRows.inRecord r lr.
Proof.
  unfold Logs.scans, Logs.scanRow, Logs.Scan. destruct (Logs.dttm r) as [t|] eqn:Ht; [|discriminate].
  intros _. rewrite valueOf_bind. cbn [valueOf fst snd ret Logs.lb].
  unfold Logs.RecordEventLog. rewrite valueOf_bind. cbn [valueOf fst snd ret Logs.logs Logs.logRecords].
  eexists. split; [reflexivity|].
  unfold LogRows.inRecord. rewrite Ht.
  cbn [Logs.Timestamp Logs.SeverityNumber Logs.SeverityText Logs.Body Logs.Attributes
       Logs.sDttm Logs.sDagID Logs.sTaskID Logs.sEvent Logs.sOwner Logs.sExecutionDate
       Logs.sExtra fmap option_fmap option_map].
  repeat split.
  - rewrite lookup_extras by discriminate. rewrite !lookup_putIf.
    cbn [String.eqb Ascii.eqb Bool.eqb andb]. rewrite !andb_false_r.
    apply lookup_insert_eq.
  - rewrite lookup_extras by discriminate. rewrite !lookup_putIf.
    cbn [String.eqb Ascii.eqb Bool.eqb andb]. rewrite ?andb_false_r, ?andb_true_r.
    destruct (Logs.nonEmpty (default "" (Logs.dag_id r))); [reflexivity|].
    now rewrite lookup_insert_ne.
  - rewrite lookup_extras by discriminate. rewrite !lookup_putIf.
    cbn [String.eqb Ascii.eqb Bool.eqb andb]. rewrite ?andb_false_r, ?andb_true_r.
    destruct (Logs.nonEmpty (default "" (Logs.task_id r))); [reflexivity|].
    now rewrite lookup_insert_ne.
  - rewrite lookup_extras by discriminate. rewrite !lookup_putIf.
    cbn [String.eqb Ascii.eqb Bool.eqb andb]. rewrite ?andb_false_r, ?andb_true_r.
    destruct (Logs.nonEmpty (default "" (Logs.event r))); [reflexivity|].
    now rewrite lookup_insert_ne.
  - rewrite lookup_extras by discriminate. rewrite !lookup_putIf.
    cbn [String.eqb Ascii.eqb Bool.eqb andb]. rewrite ?andb_false_r, ?andb_true_r.
    destruct (Logs.nonEmpty (default "" (Logs.owner r))); [reflexivity|].
    now rewrite lookup_insert_ne.
Qed.

(** A row that does not scan leaves the builder and the watermark. *)
Lemma scanRow_unscannable (r : Logs.Row) (s : Logs.LogScraper) (n : Z) (w : World) :
  Logs.scans r = false ->
  valueOf (Logs.scanRow (s, n) r w) = (s, n).
Proof.
  unfold Logs.scans, Logs.scanRow, Logs.Scan. destruct (Logs.dttm r) as [t|]; [discriminate|].
  intros _. now rewrite valueOf_bind.
Qed.

(** The records the loop appends: one for each row that scans, in the
    order of the rows. *)
Lemma scanRows_records (rows : list Logs.Row) :
  forall (s : Logs.LogScraper) (n : Z) (w : World),
  exists news,
    Logs.logRecords (Logs.logs (Logs.lb (fst (valueOf (foldM rows Logs.scanRow (s, n) w))))) =
      Logs.logRecords (Logs.logs (Logs.lb s)) ++ news /\
    Forall2 LogRows.inRecord (List.filter Logs.scans rows) news /\
    Logs.resourceAttributes (Logs.logs (Logs.lb (fst (valueOf (foldM rows Logs.scanRow (s, n) w))))) =
      Logs.resourceAttributes (Logs.logs (Logs.lb s)).
Proof.
  induction rows as [|r rows IH]; intros s n w.
  - exists []. cbn. rewrite app_nil_r. repeat split. constructor.
  - rewrite foldM_cons, valueOf_bind. cbn [List.filter].
    destruct (Logs.scans r) eqn:Hr.
    + destruct (scanRow_record r s n w Hr) as (lr & Hlr & Hin).
      assert (Hattrs : Logs.resourceAttributes
                (Logs.logs (Logs.lb (fst (valueOf (Logs.scanRow (s, n) r w))))) =
              Logs.resourceAttributes (Logs.logs (Logs.lb s))).
      { clear -Hr. unfold Logs.scans, Logs.scanRow, Logs.Scan in *.
        destruct (Logs.dttm r) as [t|]; [|discriminate].
        rewrite valueOf_bind. cbn [valueOf fst snd ret Logs.lb].
        unfold Logs.RecordEventLog. rewrite valueOf_bind. reflexivity. }
      destruct (valueOf (Logs.scanRow (s, n) r w)) as [s1 n1] eqn:Hst. cbn [fst] in Hlr, Hattrs.
      destruct (IH s1 n1 (worldOf (Logs.scanRow (s, n) r w))) as (news & Hnews & Hall & Hres).
      exists (lr :: news). rewrite Hnews, Hlr, <- app_assoc. repeat split.
      * now constructor.
      * congruence.
    + rewrite (scanRow_unscannable r s n w Hr). apply IH.
Qed.
End RecordFacts.

Lemma valueOf_ret {A : Type} (a : A) (w : World) : valueOf (ret a w) = a.
Proof. reflexivity. Qed.

(** What a scrape returns. *)
Lemma log_scrape_records_of `{Platform} `{Logs.Codec} `{Surroundings}
    (db : Logs.Database) (s : Logs.LogScraper) (w : World) :
  let r := valueOf (Logs.Scrape db s w) in
  Forall2 LogRows.inRecord (List.filter Logs.scans (LogRows.seen db s))
    (Logs.logRecords (fst (fst r))) /\
  Logs.resourceAttributes (fst (fst r)) =
    Logs.resourceAttributes (Logs.logs Logs.NewLogsBuilder) /\
  snd (fst r) = LogRows.scrapeError db /\
  Logs.lb (snd r) = {| Logs.logs := fst (fst r) |}.
Proof.
  cbv zeta. unfold Logs.Scrape, LogRows.seen, LogRows.scrapeError.
  destruct (Logs.refused db) as [err|].
  { cbn. repeat split. constructor. }
  cbn [Logs.lastScrapedLogID]. unfold Logs.delivered.
  set (s0 := {| Logs.lb := Logs.NewLogsBuilder;
                Logs.lastScrapedLogID := Logs.lastScrapedLogID s |}).
  destruct (Logs.broken db) as [[n e]|]; cbn [fst snd].
  - rewrite valueOf_bind.
    destruct (scanRows_records (firstn n (Logs.selectLogs (Logs.table db) (Logs.lastScrapedLogID s)))
                s0 0 w) as (news & Hnews & Hall & Hres).
    destruct (valueOf (foldM _ Logs.scanRow (s0, 0) w)) as [s1 n1]. cbn [fst] in Hnews, Hres.
    rewrite valueOf_ret. cbn [fst snd]. unfold Logs.Emit. rewrite Hnews, Hres.
    subst s0. cbn [Logs.lb Logs.logs Logs.logRecords app].
    destruct s1 as [[l1] w1]. cbn [Logs.lb]. repeat split. exact Hall.
  - rewrite valueOf_bind.
    destruct (scanRows_records (Logs.selectLogs (Logs.table db) (Logs.lastScrapedLogID s))
                s0 0 w) as (news & Hnews & Hall & Hres).
    destruct (valueOf (foldM _ Logs.scanRow (s0, 0) w)) as [s1 n1]. cbn [fst] in Hnews, Hres.
    rewrite valueOf_bind, valueOf_ret. cbn [fst snd]. unfold Logs.Emit. rewrite Hnews, Hres.
    subst s0. cbn [Logs.lb Logs.logs Logs.logRecords app].
    destruct s1 as [[l1] w1]. cbn [Logs.lb]. repeat split. exact Hall.
Qed.

(** X18. What a scrape of the log table returns.  The records are those of
    this scrape only, whatever the builder held before: one for each row
    the loop sees that scans, in the order of the rows, each with the time
    of its row, the severity of its event, the body, the source
    [database] and the attributes of the columns that are not empty, which
    no entry of the [extra] column can overwrite.  The error is [nil]
    unless the query is refused or the iteration breaks off; it then wraps
    the cause, and the records of the rows seen before the break are
    returned with it. *)
Theorem log_scrape_result `{Platform} `{Logs.Codec} `{Surroundings}
    (db : Logs.Database) (s : Logs.LogScraper) (w : World) :
  let r := valueOf (Logs.Scrape db s w) in
  Forall2 LogRows.inRecord (List.filter Logs.scans (LogRows.seen db s))
    (Logs.logRecords (fst (fst r))) /\
  Logs.resourceAttributes (fst (fst r)) =
    Logs.resourceAttributes (Logs.logs Logs.NewLogsBuilder) /\
  snd (fst r) = LogRows.scrapeError db /\
  Logs.lb (snd r) = {| Logs.logs := fst (fst r) |}.
Proof. exact (log_scrape_records_of db s w). Qed.

(** The watermark is at least the id of every row seen that scans. *)
Lemma highest_covers (rows : list Logs.Row) :
  forall (w : Z) (r : Logs.Row),
  r ∈ rows -> Logs.scans r = true -> Logs.id r <= Logs.highest rows w.
Proof.
  unfold Logs.highest. induction rows as [|r' rows IH]; intros w r Hin Hr.
  - now apply elem_of_nil in Hin.
  - cbn [fold_left]. apply elem_of_cons in Hin. destruct Hin as [<- | Hin].
    + rewrite Hr. etransitivity; [|apply (highest_ge rows)]. lia.
    + now apply IH.
Qed.

Lemma highest_unscannable (rows : list Logs.Row) (w : Z) :
  Forall (fun r => Logs.scans r = false) rows -> Logs.highest rows w = w.
Proof.
  unfold Logs.highest. induction 1 as [|r rows Hr Hrows IH]; [reflexivity|].
  cbn [fold_left]. now rewrite Hr.
Qed.

Lemma delivered_above (db : Logs.Database) (arg : Z) :
  Forall (fun r => arg < Logs.id r) (fst (Logs.delivered db arg)).
Proof.
  assert (Hsel : Forall (fun r => arg < Logs.id r) (Logs.selectLogs (Logs.table db) arg)).
  { destruct (selectLogs_answer arg (Logs.table db)) as [Hall _].
    eapply Forall_impl; [exact Hall|]. cbn beta. tauto. }
  unfold Logs.delivered. destruct (Logs.broken db) as [[n e]|]; cbn [fst]; [|exact Hsel].
  now apply Forall_take.
Qed.

(** X19. No row is recorded twice: a row that a scrape has seen and
    scanned has an id at or below the watermark the scrape leaves, so
    every row a later scrape is given, against whatever the table has
    become, has a higher id; this holds as well when the iteration of the
    first scrape broke off after the row. *)
Theorem log_rows_not_delivered_again `{Platform} `{Logs.Codec} `{Surroundings}
    (db db' : Logs.Database) (s : Logs.LogScraper) (w : World) (r r' : Logs.Row) :
  r ∈ LogRows.seen db s ->
  Logs.scans r = true ->
  let s' := snd (valueOf (Logs.Scrape db s w)) in
  r' ∈ fst (Logs.delivered db' (Logs.lastScrapedLogID s')) ->
  Logs.id r <= Logs.lastScrapedLogID s' /\ Logs.id r < Logs.id r'.
Proof.
  intros Hin Hr s' Hin'. subst s'.
  assert (Hle : Logs.id r <= Logs.lastScrapedLogID (snd (valueOf (Logs.Scrape db s w)))).
  { rewrite Scrape_watermark. unfold LogRows.seen in Hin.
    destruct (Logs.refused db) as [err|]; [now apply elem_of_nil in Hin|].
    now apply highest_covers. }
  split; [exact Hle|].
  pose proof (delivered_above db' (Logs.lastScrapedLogID (snd (valueOf (Logs.Scrape db s w)))))
    as Habove.
  rewrite Forall_forall in Habove. specialize (Habove r' Hin'). lia.
Qed.

Lemma log_rows_not_delivered_again_witness :
  let r := Logs.mkRow 9 (Some 9000000) (Some "etl") None (Some "running") None
             (Some "airflow") None in
  let r' := Logs.mkRow 12 (Some 12000000) (Some "etl") None (Some "success") None
              (Some "airflow") None in
  let later :=
    {| Logs.table := r' :: Logs.table Reference.threeRows;
       Logs.refused := None; Logs.broken := None |} in
  let s' :=
    snd (valueOf (Logs.Scrape (H := Reference.platform) (H0 := Reference.noJson)
                    (H1 := Reference.quiet) Reference.threeRows Logs.NewLogScraper
                    emptyWorld)) in
  Logs.id r <= Logs.lastScrapedLogID s' /\ Logs.id r < Logs.id r'.
Proof.
  intros r r' later.
  apply (log_rows_not_delivered_again (H := Reference.platform) (H0 := Reference.noJson)
           (H1 := Reference.quiet) Reference.threeRows later Logs.NewLogScraper
           emptyWorld r r').
  - vm_compute. apply list_elem_of_In. right. right. left. reflexivity.
  - reflexivity.
  - vm_compute. apply list_elem_of_In. left. reflexivity.
Defined.

(** X20. Rows that do not scan hold the scraper back: when none of the
    rows a scrape is given scans (their [dttm] is [NULL]), the scrape
    returns no record and leaves the watermark where it was, so the next
    scrape asks the same question; against an unchanged table this goes on
    for ever, whatever rows lie beyond the 1000 the query returns. *)
Theorem log_unscannable_page_stalls `{Platform} `{Logs.Codec} `{Surroundings}
    (db : Logs.Database) (s : Logs.LogScraper) (worlds : list World) (w : World) :
  Logs.refused db = None ->
  Forall (fun r => Logs.scans r = false)
    (fst (Logs.delivered db (Logs.lastScrapedLogID s))) ->
  let s' := LogRows.scrapes db worlds s in
  Logs.lastScrapedLogID s' = Logs.lastScrapedLogID s /\
  Logs.logRecords (fst (fst (valueOf (Logs.Scrape db s' w)))) = [] /\
  fst (Logs.delivered db (Logs.lastScrapedLogID s')) =
    fst (Logs.delivered db (Logs.lastScrapedLogID s)).
Proof.
  intros Href Hall. cbv zeta.
  assert (Hsame : Logs.lastScrapedLogID (LogRows.scrapes db worlds s) =
                  Logs.lastScrapedLogID s).
  { unfold LogRows.scrapes. revert s Hall.
    induction worlds as [|w1 worlds IH]; intros s Hall; [reflexivity|].
    cbn [fold_left].
    assert (Hstep : Logs.lastScrapedLogID (snd (valueOf (Logs.Scrape db s w1))) =
                    Logs.lastScrapedLogID s).
    { rewrite Scrape_watermark, Href. now apply highest_unscannable. }
    rewrite IH; [exact Hstep|]. now rewrite Hstep. }
  split; [exact Hsame|]. split; [|now rewrite Hsame].
  destruct (log_scrape_records_of db (LogRows.scrapes db worlds s) w) as [Hrec _].
  unfold LogRows.seen in Hrec. rewrite Href, Hsame in Hrec.
  assert (Hnone : List.filter Logs.scans
                    (fst (Logs.delivered db (Logs.lastScrapedLogID s))) = []).
  { clear -Hall. induction Hall as [|r rows Hr Hrows IH]; [reflexivity|].
    cbn [List.filter]. now rewrite Hr. }
  rewrite Hnone in Hrec. now apply Forall2_nil_inv_l in Hrec.
Qed.

Lemma forallb_unscannable (rows : list Logs.Row) :
  forallb (fun r => negb (Logs.scans r)) rows = true ->
  Forall (fun r => Logs.scans r = false) rows.
Proof.
  intros Hall. apply Forall_forall. intros r Hin.
  rewrite forallb_forall in Hall. apply negb_true_iff, Hall. now apply list_elem_of_In.
Qed.

Lemma log_unscannable_page_stalls_witness :
  let s' :=
    LogRows.scrapes (H := Reference.platform) (H0 := Reference.noJson)
      (H1 := Reference.quiet) Samples.nullPage [emptyWorld; emptyWorld; emptyWorld]
      Logs.NewLogScraper in
  Logs.lastScrapedLogID s' = 0 /\
  Logs.logRecords
    (fst (fst (valueOf (Logs.Scrape (H := Reference.platform) (H0 := Reference.noJson)
                          (H1 := Reference.quiet) Samples.nullPage s' emptyWorld)))) = [] /\
  fst (Logs.delivered Samples.nullPage (Logs.lastScrapedLogID s')) =
    fst (Logs.delivered Samples.nullPage 0).
Proof.
  apply (log_unscannable_page_stalls (H := Reference.platform) (H0 := Reference.noJson)
           (H1 := Reference.quiet) Samples.nullPage Logs.NewLogScraper
           [emptyWorld; emptyWorld; emptyWorld] emptyWorld).
  - reflexivity.
  - apply forallb_unscannable. vm_compute. reflexivity.
Defined.

Section ReceiverFacts.
Context `{Platform} `{Logs.Codec} `{Surroundings} `{Receiver.Consumer}.

Lemma scrapeLogs_scraper (db : Logs.Database) (s : Logs.LogScraper) (w : World) :
  snd (valueOf (Receiver.scrapeLogs db s w)) = snd (valueOf (Logs.Scrape db s w)).
Proof.
  unfold Receiver.scrapeLogs. rewrite valueOf_bind.
  destruct (valueOf (Logs.Scrape db s w)) as [[logs [err|]] s1]; cbn [snd].
  - now rewrite valueOf_bind.
  - destruct (Receiver.LogRecordCount logs =? 0); [reflexivity|].
    destruct (Receiver.ConsumeLogs logs); [now rewrite valueOf_bind | reflexivity].
Qed.

Lemma scrapeLogs_handed (db : Logs.Database) (s : Logs.LogScraper) (w : World) :
  fst (valueOf (Receiver.scrapeLogs db s w)) =
  let r := valueOf (Logs.Scrape db s w) in
  match snd (fst r) with
  | Some _ => None
  | None => if Receiver.LogRecordCount (fst (fst r)) =? 0 then None else Some (fst (fst r))
  end.
Proof.
  unfold Receiver.scrapeLogs. rewrite valueOf_bind. cbv zeta.
  destruct (valueOf (Logs.Scrape db s w)) as [[logs [err|]] s1]; cbn [fst snd].
  - now rewrite valueOf_bind.
  - destruct (Receiver.LogRecordCount logs =? 0); [reflexivity|].
    destruct (Receiver.ConsumeLogs logs); [now rewrite valueOf_bind | reflexivity].
Qed.
End ReceiverFacts.

(** X21. Records are lost when the iteration breaks off: if [rows.Err()]
    reports an error after some rows, the receiver hands nothing to the
    consumer, not even the records of the rows read before the break;
    yet the watermark has moved past every one of those rows that
    scanned, so no later scrape is given them again. *)
Theorem scrapeLogs_loses_rows_on_iteration_error `{Platform} `{Logs.Codec} `{Surroundings}
    `{Receiver.Consumer} (db db' : Logs.Database) (s : Logs.LogScraper) (w : World)
    (n : nat) (e : error) (row row' : Logs.Row) :
  Logs.refused db = None ->
  Logs.broken db = Some (n, e) ->
  row ∈ firstn n (Logs.selectLogs (Logs.table db) (Logs.lastScrapedLogID s)) ->
  Logs.scans row = true ->
  let r := valueOf (Receiver.scrapeLogs db s w) in
  row' ∈ fst (Logs.delivered db' (Logs.lastScrapedLogID (snd r))) ->
  fst r = None /\ Logs.id row <= Logs.lastScrapedLogID (snd r) /\
  Logs.id row < Logs.id row'.
Proof.
  intros Href Hbroken Hin Hscan r Hin'. subst r.
  rewrite scrapeLogs_scraper in *. rewrite scrapeLogs_handed. cbv zeta.
  destruct (log_scrape_records_of db s w) as (_ & _ & Herr & _).
  rewrite Herr. unfold LogRows.scrapeError. rewrite Href, Hbroken.
  split; [reflexivity|].
  assert (Hle : Logs.id row <= Logs.lastScrapedLogID (snd (valueOf (Logs.Scrape db s w)))).
  { rewrite Scrape_watermark, Href. apply highest_covers; [|exact Hscan].
    unfold Logs.delivered. now rewrite Hbroken. }
  split; [exact Hle|].
  pose proof (delivered_above db' (Logs.lastScrapedLogID (snd (valueOf (Logs.Scrape db s w)))))
    as Habove.
  rewrite Forall_forall in Habove. specialize (Habove row' Hin'). lia.
Qed.

Lemma scrapeLogs_loses_rows_on_iteration_error_witness :
  let row := Logs.mkRow 5 (Some 5000000) (Some "etl") None (Some "running") None
               (Some "airflow") None in
  let row' := Logs.mkRow 7 (Some 7000000) (Some "etl") None (Some "running") None
                (Some "airflow") None in
  let r :=
    valueOf (Receiver.scrapeLogs (H := Reference.platform) (H0 := Reference.noJson)
               (H1 := Reference.quiet) (H2 := Samples.accepting)
               Samples.breaking Logs.NewLogScraper emptyWorld) in
  fst r = None /\ Logs.id row <= Logs.lastScrapedLogID (snd r) /\
  Logs.id row < Logs.id row'.
Proof.
  intros row row'.
  apply (scrapeLogs_loses_rows_on_iteration_error (H := Reference.platform)
           (H0 := Reference.noJson) (H1 := Reference.quiet) (H2 := Samples.accepting)
           Samples.breaking Reference.threeRows Logs.NewLogScraper emptyWorld
           1%nat (errorString "connection reset") row row').
  - reflexivity.
  - reflexivity.
  - vm_compute. apply list_elem_of_In. left. reflexivity.
  - reflexivity.
  - vm_compute. apply list_elem_of_In. left. reflexivity.
Defined.

(** X22. The receiver hands the logs of a scrape to the consumer exactly
    when the scrape returned no error and at least one record, and then
    the very logs the scrape returned; whether the consumer accepts them
    or not, the scraper, and so the watermark, is as the scrape left it:
    what the consumer refuses is not asked for again. *)
Theorem scrapeLogs_hands_over_once `{Platform} `{Logs.Codec} `{Surroundings}
    (accepting refusing : Receiver.Consumer)
    (db : Logs.Database) (s : Logs.LogScraper) (w : World) :
  let scraped := valueOf (Logs.Scrape db s w) in
  let r1 := valueOf (Receiver.scrapeLogs (H2 := accepting) db s w) in
  let r2 := valueOf (Receiver.scrapeLogs (H2 := refusing) db s w) in
  r1 = r2 /\
  snd r1 = snd scraped /\
  fst r1 =
    (if decide (LogRows.scrapeError db = None /\
                List.filter Logs.scans (LogRows.seen db s) <> [])
     then Some (fst (fst scraped)) else None).
Proof.
  cbv zeta.
  assert (Hboth : forall c : Receiver.Consumer,
            valueOf (Receiver.scrapeLogs (H2 := c) db s w) =
            ((if decide (LogRows.scrapeError db = None /\
                         List.filter Logs.scans (LogRows.seen db s) <> [])
              then Some (fst (fst (valueOf (Logs.Scrape db s w)))) else None),
             snd (valueOf (Logs.Scrape db s w)))).
  { intros c. apply injective_projections; cbn [fst snd];
      [|apply (scrapeLogs_scraper (H2 := c))].
    rewrite (scrapeLogs_handed (H2 := c)). cbv zeta.
    destruct (log_scrape_records_of db s w) as (Hrec & _ & Herr & _).
    rewrite Herr. apply Forall2_length in Hrec.
    unfold Receiver.LogRecordCount. rewrite <- Hrec.
    destruct (LogRows.scrapeError db) as [e|].
    - rewrite decide_False; [reflexivity | intros [Hf _]; discriminate].
    - destruct (List.filter Logs.scans (LogRows.seen db s)) as [|x l].
      + cbn. rewrite decide_False; [reflexivity | intros [_ Hf]; now apply Hf].
      + cbn [length]. rewrite decide_True by (split; [reflexivity | discriminate]).
        destruct (Z.eqb_spec (Z.of_nat (S (length l))) 0); [lia | reflexivity]. }
  rewrite (Hboth accepting), (Hboth refusing). repeat split.
Qed.
(** * Polling: the pages of the log table *)

Lemma filter_perm {A : Type} (P : A -> bool) (l l' : list A) :
  l ≡ₚ l' -> List.filter P l ≡ₚ List.filter P l'.
Proof.
  induction 1 as [|x l l' Hl IH|x y l|l l' l'' H1 IH1 H2 IH2]; cbn [List.filter].
  - reflexivity.
  - destruct (P x); [now constructor | exact IH].
  - destruct (P x), (P y); try reflexivity. apply Permutation_swap.
  - now transitivity (List.filter P l').
Qed.

Lemma filter_all {A : Type} (P : A -> bool) (l : list A) :
  Forall (fun x => P x = true) l -> List.filter P l = l.
Proof.
  induction 1 as [|x l Hx Hl IH]; [reflexivity|]. cbn [List.filter]. now rewrite Hx, IH.
Qed.

Lemma filter_none {A : Type} (P : A -> bool) (l : list A) :
  Forall (fun x => P x = false) l -> List.filter P l = [].
Proof.
  induction 1 as [|x l Hx Hl IH]; [reflexivity|]. cbn [List.filter]. now rewrite Hx, IH.
Qed.

Lemma sorted_drop (n : nat) (l : list Logs.Row) :
  StronglySorted Logs.byId l -> StronglySorted Logs.byId (drop n l).
Proof.
  intros Hs. revert n. induction Hs as [|r l Hs IH Hall]; intros [|n]; cbn [drop].
  - constructor.
  - constructor.
  - now constructor.
  - apply IH.
Qed.

(** Two lists of rows in the order of their ids, with the same rows, each
    id once, are the same list. *)
Lemma sorted_unique (l1 : list Logs.Row) :
  forall l2 : list Logs.Row,
  StronglySorted Logs.byId l1 -> StronglySorted Logs.byId l2 ->
  NoDup (List.map Logs.id l1) -> l1 ≡ₚ l2 -> l1 = l2.
Proof.
  induction l1 as [|a l1 IH]; intros l2 H1 H2 Hnd Hp.
  - apply Permutation_nil_l in Hp. now subst.
  - destruct l2 as [|b l2]; [now apply Permutation_nil_r in Hp|].
    apply StronglySorted_inv in H1. destruct H1 as [H1 Ha].
    apply StronglySorted_inv in H2. destruct H2 as [H2 Hb].
    cbn [List.map] in Hnd. apply NoDup_cons in Hnd. destruct Hnd as [Hna Hnd].
    assert (Hab : a = b).
    { destruct (decide (Logs.id a = Logs.id b)) as [Hid|Hid].
      - assert (Hin : b ∈ a :: l1) by (rewrite Hp; left).
        apply elem_of_cons in Hin. destruct Hin as [-> | Hin]; [reflexivity|].
        exfalso. apply Hna. rewrite Hid. apply list_elem_of_In, in_map, list_elem_of_In, Hin.
      - exfalso.
        assert (Hina : a ∈ b :: l2) by (rewrite <- Hp; left).
        assert (Hinb : b ∈ a :: l1) by (rewrite Hp; left).
        apply elem_of_cons in Hina. destruct Hina as [-> | Hina]; [now apply Hid|].
        apply elem_of_cons in Hinb. destruct Hinb as [-> | Hinb]; [now apply Hid|].
        rewrite Forall_forall in Ha, Hb.
        specialize (Ha b Hinb). specialize (Hb a Hina). unfold Logs.byId in *. lia. }
    subst b. f_equal. apply IH; try assumption.
    now apply Permutation_cons_inv in Hp.
Qed.

Lemma NoDup_ids_filter (P : Logs.Row -> bool) (l : list Logs.Row) :
  NoDup (List.map Logs.id l) -> NoDup (List.map Logs.id (List.filter P l)).
Proof.
  induction l as [|r l IH]; intros Hnd; [constructor|].
  cbn [List.map] in Hnd. apply NoDup_cons in Hnd. destruct Hnd as [Hr Hnd].
  cbn [List.filter]. destruct (P r); [|now apply IH].
  cbn [List.map]. apply NoDup_cons. split; [|now apply IH].
  intros Hin. apply Hr. apply list_elem_of_In in Hin. apply in_map_iff in Hin.
  destruct Hin as (x & Hx & Hin). apply List.filter_In in Hin.
  apply list_elem_of_In, in_map_iff. exists x. tauto.
Qed.

Lemma NoDup_ids_perm (l l' : list Logs.Row) :
  l ≡ₚ l' -> NoDup (List.map Logs.id l) -> NoDup (List.map Logs.id l').
Proof.
  intros Hp Hnd. rewrite <- (Permutation_map Logs.id Hp). exact Hnd.
Qed.

(** The highest id is the old watermark or the id of a row. *)
Lemma highest_is (rows : list Logs.Row) :
  forall w : Z,
  Logs.highest rows w = w \/ exists r, r ∈ rows /\ Logs.highest rows w = Logs.id r.
Proof.
  unfold Logs.highest. induction rows as [|r rows IH]; intros w; [now left|].
  cbn [fold_left]. destruct (Logs.scans r).
  - destruct (IH (Z.max w (Logs.id r))) as [Heq | (r' & Hin & Heq)].
    + rewrite Heq. destruct (Z.max_spec w (Logs.id r)) as [[_ ->] | [_ ->]].
      * right. exists r. split; [left | reflexivity].
      * now left.
    + right. exists r'. split; [now right | exact Heq].
  - destruct (IH w) as [Heq | (r' & Hin & Heq)]; [now left|].
    right. exists r'. split; [now right | exact Heq].
Qed.

Lemma filter_narrow (wm wm' : Z) (l : list Logs.Row) :
  wm <= wm' ->
  List.filter (fun r => wm' <? Logs.id r) l =
  List.filter (fun r => wm' <? Logs.id r) (List.filter (fun r => wm <? Logs.id r) l).
Proof.
  intros Hge. induction l as [|r l IH]; [reflexivity|]. cbn [List.filter].
  destruct (Z.ltb_spec wm' (Logs.id r)) as [Hlt|Hnlt].
  - destruct (Z.ltb_spec wm (Logs.id r)); [|lia]. cbn [List.filter].
    destruct (Z.ltb_spec wm' (Logs.id r)); [|lia]. now rewrite IH.
  - destruct (Z.ltb_spec wm (Logs.id r)); [|exact IH]. cbn [List.filter].
    destruct (Z.ltb_spec wm' (Logs.id r)); [lia | exact IH].
Qed.

Section Pages.
Variable table : list Logs.Row.
Hypothesis ids_once : NoDup (List.map Logs.id table).
Hypothesis all_scan : Forall (fun r => Logs.scans r = true) table.

(** The rows above a watermark, in the order of their ids. *)
Lemma above_sorted (wm : Z) :
  let above := Logs.orderById (List.filter (fun r => wm <? Logs.id r) table) in
  StronglySorted Logs.byId above /\ NoDup (List.map Logs.id above) /\
  Forall (fun r => wm < Logs.id r /\ Logs.scans r = true) above.
Proof.
  cbv zeta. split; [apply orderById_sorted|]. split.
  - eapply NoDup_ids_perm; [symmetry; apply orderById_perm|].
    now apply NoDup_ids_filter.
  - rewrite orderById_perm. apply Forall_forall. intros r Hin.
    apply list_elem_of_In, List.filter_In in Hin. destruct Hin as [Hin Hlt].
    split; [now apply Z.ltb_lt|].
    rewrite Forall_forall in all_scan. now apply all_scan, list_elem_of_In.
Qed.

(** After a page the rows above the new watermark are the rows after the
    page. *)
Lemma next_page (wm : Z) :
  let above := Logs.orderById (List.filter (fun r => wm <? Logs.id r) table) in
  let wm' := Logs.highest (take 1000 above) wm in
  Logs.orderById (List.filter (fun r => wm' <? Logs.id r) table) = drop 1000 above.
Proof.
  cbv zeta.
  set (above := Logs.orderById (List.filter (fun r => wm <? Logs.id r) table)).
  set (wm' := Logs.highest (take 1000 above) wm).
  destruct (above_sorted wm) as (Hsorted & Hnd & Hall). fold above in Hsorted, Hnd, Hall.
  assert (Hge : wm <= wm') by apply highest_ge.
  assert (Hpage : Forall (fun r => (wm' <? Logs.id r) = false) (take 1000 above)).
  { apply Forall_forall. intros r Hin. apply Z.ltb_ge.
    apply highest_covers; [exact Hin|].
    rewrite Forall_forall in Hall. apply Hall.
    rewrite <- (take_drop 1000 above). apply elem_of_app. now left. }
  assert (Hrest : Forall (fun r => (wm' <? Logs.id r) = true) (drop 1000 above)).
  { apply Forall_forall. intros r Hin. apply Z.ltb_lt.
    assert (Hr : wm < Logs.id r).
    { rewrite Forall_forall in Hall. apply Hall.
      rewrite <- (take_drop 1000 above). apply elem_of_app. now right. }
    destruct (highest_is (take 1000 above) wm) as [Heq | (r0 & Hin0 & Heq)].
    - subst wm'. rewrite Heq. exact Hr.
    - subst wm'. rewrite Heq.
      rewrite <- (take_drop 1000 above) in Hsorted, Hnd.
      assert (Hle : Logs.id r0 <= Logs.id r).
      { clear -Hsorted Hin0 Hin.
        induction (take 1000 above) as [|x l IH]; [now apply elem_of_nil in Hin0|].
        cbn [app] in Hsorted. apply StronglySorted_inv in Hsorted.
        destruct Hsorted as [Hs Hx]. apply elem_of_cons in Hin0.
        destruct Hin0 as [-> | Hin0]; [|now apply IH].
        rewrite Forall_forall in Hx. apply Hx, elem_of_app. now right. }
      assert (Hne : Logs.id r0 <> Logs.id r).
      { rewrite List.map_app in Hnd. apply NoDup_app in Hnd.
        destruct Hnd as (_ & Hdisj & _). intros Heqid.
        apply (Hdisj (Logs.id r0)).
        - apply list_elem_of_In, in_map, list_elem_of_In, Hin0.
        - rewrite Heqid. apply list_elem_of_In, in_map, list_elem_of_In, Hin. }
      lia. }
  apply sorted_unique.
  - apply orderById_sorted.
  - now apply sorted_drop.
  - eapply NoDup_ids_perm; [symmetry; apply orderById_perm|].
    now apply NoDup_ids_filter.
  - rewrite orderById_perm.
    rewrite (filter_narrow wm wm' table Hge).
    rewrite (filter_perm _ _ above) by (symmetry; apply orderById_perm).
    rewrite <- (take_drop 1000 above) at 1.
    rewrite List.filter_app, (filter_none _ _ Hpage), (filter_all _ _ Hrest).
    reflexivity.
Qed.
End Pages.

Lemma worldOf_ret {A : Type} (a : A) (w : World) : worldOf (ret a w) = w.
Proof. reflexivity. Qed.

Section PollFacts.
Context `{Platform} `{Logs.Codec} `{Surroundings} `{Receiver.Consumer}.
Variable table : list Logs.Row.
Hypothesis ids_once : NoDup (List.map Logs.id table).
Hypothesis all_scan : Forall (fun r => Logs.scans r = true) table.

(** The loop of [poll] over [k] ticks against the table. *)
Lemma poll_pages (k : nat) :
  forall (handed : list Logs.PLogs) (s : Logs.LogScraper) (w : World),
  let db := {| Logs.table := table; Logs.refused := None; Logs.broken := None |} in
  let above :=
    Logs.orderById (List.filter (fun r => Logs.lastScrapedLogID s <? Logs.id r) table) in
  let st :=
    valueOf (foldM (replicate k db)
               (fun '(handed, s) db =>
                  r <- Receiver.scrapeLogs db s ;;
                  ret (handed ++ option_list (fst r), snd r))
               (handed, s) w) in
  exists news,
    fst st = handed ++ news /\
    Forall2 LogRows.inRecord (take (1000 * k) above)
      (concat (List.map Logs.logRecords news)) /\
    Logs.orderById
      (List.filter (fun r => Logs.lastScrapedLogID (snd st) <? Logs.id r) table) =
      drop (1000 * k) above.
Proof.
  induction k as [|k IH]; intros handed s w; cbv zeta.
  - exists []. rewrite app_nil_r. cbn. repeat split. constructor.
  - cbn [replicate]. rewrite foldM_cons, valueOf_bind.
    set (db := {| Logs.table := table; Logs.refused := None; Logs.broken := None |}).
    set (above :=
      Logs.orderById (List.filter (fun r => Logs.lastScrapedLogID s <? Logs.id r) table)).
    match goal with |- context [foldM _ ?f _ _] => set (step := f) end.
    rewrite !(valueOf_bind (Receiver.scrapeLogs db s)),
      !(worldOf_bind (Receiver.scrapeLogs db s)).
    rewrite !valueOf_ret, !worldOf_ret.
    pose proof (scrapeLogs_scraper db s w) as Hs.
    pose proof (scrapeLogs_handed db s w) as Hh. cbv zeta in Hh.
    destruct (log_scrape_records_of db s w) as (Hrec & _ & Herr & _).
    unfold LogRows.scrapeError, LogRows.seen in Herr, Hrec. cbn [Logs.refused Logs.broken db] in Herr, Hrec.
    unfold Logs.delivered in Hrec. cbn [Logs.broken db fst Logs.table] in Hrec.
    unfold Logs.selectLogs in Hrec. fold above in Hrec.
    destruct (above_sorted table ids_once all_scan (Logs.lastScrapedLogID s))
      as (_ & _ & Hall). fold above in Hall.
    rewrite filter_all in Hrec
      by (apply Forall_take; eapply Forall_impl; [exact Hall | cbn beta; tauto]).
    rewrite Herr in Hh.
    assert (Hwm : Logs.lastScrapedLogID (snd (valueOf (Receiver.scrapeLogs db s w))) =
                  Logs.highest (take 1000 above) (Logs.lastScrapedLogID s)).
    { rewrite Hs, Scrape_watermark. reflexivity. }
    pose proof (next_page table ids_once all_scan (Logs.lastScrapedLogID s)) as Hnext.
    cbv zeta in Hnext. fold above in Hnext. rewrite <- Hwm in Hnext.
    destruct (IH (handed ++ option_list (fst (valueOf (Receiver.scrapeLogs db s w))))
                (snd (valueOf (Receiver.scrapeLogs db s w)))
                (worldOf (Receiver.scrapeLogs db s w)))
      as (news & Hnews & Hrecs & Hrest).
    cbv zeta in Hnews, Hrecs, Hrest. fold db step in Hnews, Hrecs, Hrest.
    rewrite Hnext in Hrecs, Hrest.
    exists (option_list (fst (valueOf (Receiver.scrapeLogs db s w))) ++ news).
    split; [now rewrite Hnews, app_assoc|]. split.
    + replace (1000 * S k)%nat with (1000 + 1000 * k)%nat by lia.
      rewrite <- take_take_drop, List.map_app, concat_app.
      apply Forall2_app; [|exact Hrecs].
      rewrite Hh.
      destruct (Receiver.LogRecordCount (fst (fst (valueOf (Logs.Scrape db s w)))) =? 0)
        eqn:Hcount.
      * cbn. apply Z.eqb_eq in Hcount. unfold Receiver.LogRecordCount in Hcount.
        destruct (Logs.logRecords (fst (fst (valueOf (Logs.Scrape db s w)))));
          [exact Hrec | cbn in Hcount; lia].
      * cbn. rewrite app_nil_r. exact Hrec.
    + rewrite Hrest, drop_drop. f_equal. lia.
Qed.
End PollFacts.

(** X23. Polling hands over every row once, page by page: against a table
    whose rows all scan and have ids of their own, and that stays as it is
    (no query refused, no iteration broken), [k] ticks of [poll] hand to
    the consumer, in the order of the ids and each once, the records of
    the first [1000 * k] rows above the watermark the scraper started
    with, whatever the consumer answers. *)
Theorem poll_hands_over_each_row_once `{Platform} `{Logs.Codec} `{Surroundings}
    `{Receiver.Consumer} (table : list Logs.Row) (k : nat) (s : Logs.LogScraper)
    (w : World) :
  NoDup (List.map Logs.id table) ->
  Forall (fun r => Logs.scans r = true) table ->
  let db := {| Logs.table := table; Logs.refused := None; Logs.broken := None |} in
  let handed := fst (valueOf (Receiver.poll (replicate k db) s w)) in
  Forall2 LogRows.inRecord
    (take (1000 * k)
       (Logs.orderById
          (List.filter (fun r => Logs.lastScrapedLogID s <? Logs.id r) table)))
    (concat (List.map Logs.logRecords handed)).
Proof.
  intros Hids Hscan. cbv zeta. unfold Receiver.poll.
  rewrite valueOf_bind, valueOf_bind. cbn [valueOf ret fst].
  destruct (poll_pages table Hids Hscan k [] s w) as (news & Hnews & Hrecs & _).
  cbv zeta in Hnews, Hrecs. rewrite Hnews. exact Hrecs.
Qed.

Lemma poll_hands_over_each_row_once_witness :
  let handed :=
    fst (valueOf (Receiver.poll (H := Reference.platform) (H0 := Reference.noJson)
                    (H1 := Reference.quiet) (H2 := Samples.accepting)
                    (replicate 2 Reference.threeRows) Logs.NewLogScraper emptyWorld)) in
  Forall2 LogRows.inRecord
    (take (1000 * 2)
       (Logs.orderById
          (List.filter (fun r => Logs.lastScrapedLogID Logs.NewLogScraper <? Logs.id r)
             (Logs.table Reference.threeRows))))
    (concat (List.map Logs.logRecords handed)).
Proof.
  apply (poll_hands_over_each_row_once (H := Reference.platform) (H0 := Reference.noJson)
           (H1 := Reference.quiet) (H2 := Samples.accepting)
           (Logs.table Reference.threeRows) 2 Logs.NewLogScraper emptyWorld).
  - apply NoDup_ListNoDup. repeat constructor; cbn; intuition discriminate.
  - repeat constructor.
Defined.
(** * The REST adapter: health tracking, requests and an unreachable server *)

Section TrackingFacts.
Context `{Surroundings}.

(** The tracker after [WithScrapeTracking]: one more scrape recorded,
    with the error the function returned. *)
Lemma WithScrapeTracking_tracker {A : Type} (h : Health.ScraperHealth)
    (fn : M (A * option error)) (w : World) :
  exists (now : Time) (duration : Duration),
    snd (valueOf (Health.WithScrapeTracking h fn w)) =
    fst (Health.RecordScrape now duration
           (snd (valueOf (fn (worldOf (timeNow w))))) h).
Proof.
  unfold Health.WithScrapeTracking. rewrite !valueOf_bind, ?worldOf_bind.
  match goal with |- context [Health.RecordScrape ?n ?d ?e h] =>
    exists n, d; destruct (Health.RecordScrape n d e h) as [h' evs] eqn:Hrec end.
  rewrite !valueOf_bind. reflexivity.
Qed.
End TrackingFacts.

(** X24. The REST scraper never reports a failed scrape, to its caller or
    to its own health tracker: whatever the server answers, [Scrape]
    returns the collection of its builder and no error, and the tracker
    records a success: it is healthy afterwards, with no consecutive
    failure, with the failures it had counted before and the last error
    it had before. *)
Theorem rest_scrape_never_reports_failure `{Platform} `{Surroundings} `{REST.Network}
    `{REST.Decoder} `{Builder.HealthRecorders} (s : REST.RESTAPIScraper) (w : World) :
  let r := valueOf (REST.Scrape s w) in
  fst r = (Builder.metrics (REST.mb s), None) /\
  Health.IsHealthy (REST.health (snd r)) = true /\
  Health.consecutiveErrors (REST.health (snd r)) = 0 /\
  Health.failedScrapes (REST.health (snd r)) = Health.failedScrapes (REST.health s) /\
  Health.GetLastError (REST.health (snd r)) = Health.GetLastError (REST.health s) /\
  Health.successfulScrapes (REST.health (snd r)) =
    wrap64 (Health.successfulScrapes (REST.health s) + 1).
Proof.
  cbv zeta. unfold REST.Scrape. rewrite valueOf_bind.
  match goal with |- context [Health.WithScrapeTracking ?h ?fn w] =>
    pose proof (WithScrapeTracking_value h fn w) as Hv;
    destruct (WithScrapeTracking_tracker h fn w) as (now & d & Ht);
    destruct (valueOf (Health.WithScrapeTracking h fn w)) as [[handle err] h'] end.
  cbn [fst snd] in Hv, Ht. rewrite !valueOf_bind in Hv, Ht.
  cbn [valueOf ret fst snd Builder.Emit] in Hv, Ht.
  inversion Hv; subst handle err. subst h'.
  rewrite !valueOf_bind. cbn [valueOf ret fst snd REST.setHealth REST.health].
  repeat split.
Qed.

Section ExecutorFacts.
Context `{Platform} {St : Type}.
Variable ctx : Retry.Context.
Variable cfg : Retry.RetryConfig.
Variable operation : string.
Variable fn : St -> option error * St.

(** A count that a call raises by one at most is raised by the number of
    iterations at most. *)
Lemma attemptsFrom_measure (count : St -> nat) :
  (forall s, (count (snd (fn s)) <= S (count s))%nat) ->
  forall (n : nat) (attempt : Z) (lastErr : option error) (s : St),
    (count (Retry.final (Retry.attemptsFrom ctx cfg operation fn n attempt lastErr s))
     <= count s + n)%nat.
Proof.
  intros Hfn. induction n as [|n IH]; intros attempt lastErr s; [cbn; lia|].
  cbn [Retry.attemptsFrom].
  specialize (Hfn s). destruct (fn s) as [[e|] s'] eqn:Hfs; cbn [snd] in Hfn.
  - destruct (0 <? attempt); [destruct (ctx attempt)|]; cbn [Retry.final Retry.after];
      try lia; specialize (IH (attempt + 1) (Some e) s'); lia.
  - destruct (0 <? attempt); [destruct (ctx attempt)|]; cbn [Retry.final]; lia.
Qed.

(** When every call fails, the executor returns an error, unless it was
    given nothing to do. *)
Lemma attemptsFrom_fails :
  (forall s, fst (fn s) <> None) ->
  forall (n : nat) (attempt : Z) (lastErr : option error) (s : St),
    (n = 0%nat -> lastErr <> None) ->
    Retry.result (Retry.attemptsFrom ctx cfg operation fn n attempt lastErr s) <> None.
Proof.
  intros Hfn. induction n as [|n IH]; intros attempt lastErr s Hn; [now apply Hn|].
  cbn [Retry.attemptsFrom].
  specialize (Hfn s). destruct (fn s) as [[e|] s'] eqn:Hfs; cbn [fst] in Hfn; [|now elim Hfn].
  destruct (0 <? attempt); [destruct (ctx attempt)|]; cbn [Retry.result Retry.after];
    try discriminate; apply IH; discriminate.
Qed.
End ExecutorFacts.

Section RetryMFacts.
Context `{Platform} `{Surroundings} {V : Type}.
Variable cfg : Retry.RetryConfig.
Variable operation : string.
Variable fn : V -> World -> option error * V * World.

(** What holds of the world before and is kept by every call holds
    afterwards, if it does not depend on the count of the [select]s. *)
Lemma retryM_invariant (P : World -> Prop) (v : V) (w : World) :
  (forall v w, P w -> P (snd (fn v w))) ->
  (forall w n, P w ->
     P {| heap := heap w; ticks := ticks w; selects := n; ranges := ranges w;
          requests := requests w |}) ->
  P w -> P (worldOf (retryM cfg operation fn v w)).
Proof.
  intros Hfn Hsel Hw. unfold retryM, worldOf.
  match goal with |- context [Retry.RetryWithBackoff ?c ?g ?o ?f ?s] =>
    pose proof (attemptsFrom_invariant c g o f (fun st => P (snd st))) as Hinv;
    set (out := Retry.RetryWithBackoff c g o f s) end.
  assert (Hfin : P (snd (Retry.final out))).
  { subst out. unfold Retry.RetryWithBackoff. apply Hinv; [|exact Hw].
    intros [v1 w1] Hw1. cbn [snd] in Hw1.
    specialize (Hfn v1 w1 Hw1). destruct (fn v1 w1) as [[err v2] w2]. exact Hfn. }
  destruct (Retry.final out) as [v' w']. cbn [fst snd] in *. now apply Hsel.
Qed.

Lemma retryM_requests_length (v : V) (w : World) :
  (forall v w, (length (requests (snd (fn v w))) <= S (length (requests w)))%nat) ->
  (length (requests (worldOf (retryM cfg operation fn v w)))
   <= length (requests w) + Z.to_nat (Retry.MaxAttempts cfg))%nat.
Proof.
  intros Hfn. unfold retryM, worldOf.
  match goal with |- context [Retry.RetryWithBackoff ?c ?g ?o ?f ?s] =>
    pose proof (attemptsFrom_measure c g o f (fun st => length (requests (snd st)))) as Hm;
    set (out := Retry.RetryWithBackoff c g o f s) end.
  assert (Hfin : (length (requests (snd (Retry.final out)))
                  <= length (requests w) + Z.to_nat (Retry.MaxAttempts cfg))%nat).
  { subst out. unfold Retry.RetryWithBackoff.
    match goal with |- context [Retry.attemptsFrom ?c ?g ?o ?f ?n ?a ?e ?s] =>
      specialize (Hm (fun st => ltac:(destruct st as [v1 w1]; cbn [snd];
                    specialize (Hfn v1 w1); destruct (fn v1 w1) as [[err v2] w2];
                    exact Hfn)) n a e s) end.
    exact Hm. }
  destruct (Retry.final out) as [v' w']. cbn [fst snd requests] in *. exact Hfin.
Qed.

Lemma retryM_fails (v : V) (w : World) :
  (forall v w, fst (fst (fn v w)) <> None) ->
  1 <= Retry.MaxAttempts cfg ->
  fst (valueOf (retryM cfg operation fn v w)) <> None.
Proof.
  intros Hfn HN. unfold retryM, valueOf.
  match goal with |- context [Retry.RetryWithBackoff ?c ?g ?o ?f ?s] =>
    pose proof (attemptsFrom_fails c g o f) as Hf;
    set (out := Retry.RetryWithBackoff c g o f s) end.
  assert (Hres : Retry.result out <> None).
  { subst out. unfold Retry.RetryWithBackoff. apply Hf.
    - intros [v1 w1]. specialize (Hfn v1 w1). destruct (fn v1 w1) as [[err v2] w2]. exact Hfn.
    - lia. }
  destruct (Retry.final out) as [v' w']. cbn [fst snd]. exact Hres.
Qed.
End RetryMFacts.

Section RequestFacts.
Context `{Platform} `{Surroundings} `{REST.Network}.

Lemma request_world (url body : string) (w : World) :
  let w' := snd (REST.request url body w) in
  heap w' = heap w /\ ticks w' = ticks w /\ ranges w' = ranges w /\
  (requests w' = requests w \/ requests w' = requests w ++ [url]).
Proof.
  cbv zeta. unfold REST.request. destruct (REST.NewRequest url); [cbn; auto|].
  destruct (REST.Do (requests w) url) as [err|resp]; [cbn; auto|].
  destruct (negb _); [destruct (_ || _)|]; cbn; auto.
Qed.

Lemma doRequest_world (s : REST.RESTAPIScraper) (path : string) (w : World) :
  worldOf (REST.doRequest s path w) =
  worldOf (retryM (REST.retryConfig s) ("GET " +:+ path)
             (REST.request (REST.Endpoint (REST.cfg s) +:+ path)) "" w).
Proof. unfold REST.doRequest. now rewrite worldOf_bind. Qed.

Lemma fetch_world {A : Type} (decode : string -> error + A) (s : REST.RESTAPIScraper)
    (path : string) (w : World) :
  worldOf (REST.fetch decode s path w) = worldOf (REST.doRequest s path w).
Proof.
  unfold REST.fetch. rewrite worldOf_bind.
  now destruct (snd (valueOf (REST.doRequest s path w))).
Qed.

Lemma fetch_heap {A : Type} (decode : string -> error + A) (s : REST.RESTAPIScraper)
    (path : string) (w : World) :
  heap (worldOf (REST.fetch decode s path w)) = heap w.
Proof.
  rewrite fetch_world, doRequest_world.
  apply (retryM_invariant _ _ _ (fun w' => heap w' = heap w)); [| |reflexivity].
  - intros v w1 Hw1. destruct (request_world (REST.Endpoint (REST.cfg s) +:+ path) v w1)
      as (Hh & _). congruence.
  - intros w1 n Hw1. exact Hw1.
Qed.

(** On a network that answers no request every fetch fails. *)
Lemma fetch_down {A : Type} (decode : string -> error + A) (s : REST.RESTAPIScraper)
    (path : string) (w : World) :
  (forall reqs url, exists e, REST.Do reqs url = inl e) ->
  1 <= Retry.MaxAttempts (REST.retryConfig s) ->
  exists e, valueOf (REST.fetch decode s path w) = inl e.
Proof.
  intros Hdown HN. unfold REST.fetch. rewrite valueOf_bind.
  assert (Herr : snd (valueOf (REST.doRequest s path w)) <> None).
  { unfold REST.doRequest. rewrite valueOf_bind. cbn [valueOf ret fst snd].
    apply retryM_fails; [|exact HN].
    intros v w1. unfold REST.request. destruct (REST.NewRequest _); [discriminate|].
    destruct (Hdown (requests w1) (REST.Endpoint (REST.cfg s) +:+ path)) as [e ->].
    discriminate. }
  destruct (snd (valueOf (REST.doRequest s path w))) as [e|]; [|now elim Herr].
  now exists e.
Qed.
End RequestFacts.

(** X25. One call of [doRequest] sends at most [MaxAttempts] requests, all
    of them to the endpoint followed by the path; it reads no clock and
    leaves every collection of metrics as it is. *)
Theorem doRequest_sends_at_most_max_attempts `{Platform} `{Surroundings} `{REST.Network}
    (s : REST.RESTAPIScraper) (path : string) (w : World) :
  let w' := worldOf (REST.doRequest s path w) in
  exists k : nat,
    Z.of_nat k <= Z.max 0 (Retry.MaxAttempts (REST.retryConfig s)) /\
    requests w' = requests w ++ replicate k (REST.Endpoint (REST.cfg s) +:+ path) /\
    heap w' = heap w /\ ticks w' = ticks w.
Proof.
  cbv zeta. rewrite doRequest_world.
  set (url := REST.Endpoint (REST.cfg s) +:+ path).
  set (m := retryM (REST.retryConfig s) ("GET " +:+ path) (REST.request url) "").
  assert (Hinv : (exists k, requests (worldOf (m w)) = requests w ++ replicate k url) /\
                 heap (worldOf (m w)) = heap w /\ ticks (worldOf (m w)) = ticks w).
  { subst m.
    apply (retryM_invariant _ _ _
             (fun w' => (exists k, requests w' = requests w ++ replicate k url) /\
                        heap w' = heap w /\ ticks w' = ticks w)).
    - intros v w1 ((k & Hk) & Hh & Ht).
      destruct (request_world url v w1) as (Hh1 & Ht1 & _ & [Hr | Hr]).
      + split; [exists k; congruence | split; congruence].
      + split; [|split; congruence].
        exists (S k). rewrite Hr, Hk, <- app_assoc. f_equal.
        change [url] with (replicate 1 url). rewrite <- replicate_add.
        f_equal. lia.
    - intros w1 n Hw1. exact Hw1.
    - split; [exists 0%nat; cbn; now rewrite app_nil_r | split; reflexivity]. }
  destruct Hinv as ((k & Hk) & Hh & Ht).
  exists k. split; [|auto].
  assert (Hlen : (length (requests (worldOf (m w)))
                  <= length (requests w) + Z.to_nat (Retry.MaxAttempts (REST.retryConfig s)))%nat).
  { subst m. apply retryM_requests_length. intros v w1.
    destruct (request_world url v w1) as (_ & _ & _ & [-> | ->]);
      [lia | rewrite length_app; cbn; lia]. }
  rewrite Hk, length_app, length_replicate in Hlen. lia.
Qed.

Section AppendsWhen.
Context (b : Builder.MetricsBuilder).

(** A step that appends nothing, followed by what its value allows. *)
Lemma Appends_bind_when {A B : Type} (Q : A -> Prop) (m : M A) (k : A -> M B) rs :
  Appends b m [] ->
  (forall w, Q (valueOf (m w))) ->
  (forall a, Q a -> Appends b (k a) rs) ->
  Appends b (bind m k) rs.
Proof.
  intros Hm HQ Hk w Hr. rewrite worldOf_bind.
  destruct (Hm w Hr) as (Hr1 & news1 & Hc1 & Hrd1).
  destruct news1 as [|x news1]; [|discriminate]. rewrite app_nil_r in Hc1.
  destruct (Hk (valueOf (m w)) (HQ w) (worldOf (m w)) Hr1) as (Hr2 & news2 & Hc2 & Hrd2).
  split; [exact Hr2|]. exists news2. now rewrite Hc2, Hc1.
Qed.
End AppendsWhen.

Section DownFacts.
Context `{Platform} `{Surroundings} `{REST.Network} `{REST.Decoder}.
Variable s : REST.RESTAPIScraper.
Hypothesis down : forall reqs url, exists e, REST.Do reqs url = inl e.
Hypothesis attempts : 1 <= Retry.MaxAttempts (REST.retryConfig s).

(** A fetch on this network, followed by what is done with its error. *)
Lemma Appends_fetch_down {A B : Type} (decode : string -> error + A) (path : string)
    (k : error + A -> M B) :
  (forall e, Appends (REST.mb s) (k (inl e)) []) ->
  Appends (REST.mb s) (bind (REST.fetch decode s path) k) [].
Proof.
  intros Hk.
  apply (Appends_bind_when (REST.mb s) (fun r => exists e, r = inl e)).
  - apply Appends_silent. intros w. apply fetch_heap.
  - intros w. now apply fetch_down.
  - intros r [e ->]. apply Hk.
Qed.

Lemma scrapeComprehensive_down (now : Time) :
  Appends (REST.mb s) (REST.scrapeComprehensive s now) [].
Proof.
  unfold REST.scrapeComprehensive.
  apply (Appends_bind (REST.mb s) _ _ [] []).
  { unfold REST.scrapeHealthMetrics, REST.getHealth.
    apply Appends_fetch_down. intros err1. apply Appends_emit. }
  intros _. apply (Appends_bind (REST.mb s) _ _ [] []).
  { unfold REST.scrapeDAGMetrics, REST.getDags.
    apply Appends_fetch_down. intros err2. apply Appends_emit. }
  intros _. unfold REST.getPools. apply Appends_fetch_down. intros err3.
  apply (Appends_bind (REST.mb s) _ _ [] []); [apply Appends_ret|].
  intros _. apply (Appends_bind (REST.mb s) _ _ [] []).
  { unfold REST.scrapeConnectionMetrics, REST.getConnections.
    apply Appends_fetch_down. intros err4. apply Appends_emit. }
  intros _. unfold REST.scrapeConfigMetrics, REST.getVariables, REST.getImportErrors.
  apply Appends_fetch_down. intros err5.
  apply (Appends_bind (REST.mb s) _ _ [] []); [apply Appends_ret|]. intros _.
  apply Appends_fetch_down. intros err6. apply Appends_ret.
Qed.
End DownFacts.

(** X26. With the server unreachable the scrape records no metric of
    Airflow and still counts as a success: when no request gets an answer
    and the policy allows an attempt, [scrapeComprehensive] appends
    nothing to the collection of the builder, and [Scrape] returns no
    error and leaves the health tracker healthy, with one more successful
    scrape. *)
Theorem rest_scrape_with_server_unreachable `{Platform} `{Surroundings} `{REST.Network}
    `{REST.Decoder} `{Builder.HealthRecorders} (s : REST.RESTAPIScraper) (now : Time)
    (w : World) :
  (forall reqs url, exists e, REST.Do reqs url = inl e) ->
  1 <= Retry.MaxAttempts (REST.retryConfig s) ->
  Appends (REST.mb s) (REST.scrapeComprehensive s now) [] /\
  snd (fst (valueOf (REST.Scrape s w))) = None /\
  Health.IsHealthy (REST.health (snd (valueOf (REST.Scrape s w)))) = true /\
  Health.successfulScrapes (REST.health (snd (valueOf (REST.Scrape s w)))) =
    wrap64 (Health.successfulScrapes (REST.health s) + 1).
Proof.
  intros Hdown HN. split; [now apply scrapeComprehensive_down|].
  unfold REST.Scrape. rewrite valueOf_bind.
  match goal with |- context [Health.WithScrapeTracking ?h ?fn w] =>
    pose proof (WithScrapeTracking_value h fn w) as Hv;
    destruct (WithScrapeTracking_tracker h fn w) as (t & d & Ht);
    destruct (valueOf (Health.WithScrapeTracking h fn w)) as [[handle err] h'] end.
  cbn [fst snd] in Hv, Ht. rewrite !valueOf_bind in Hv, Ht.
  cbn [valueOf ret fst snd Builder.Emit] in Hv, Ht.
  inversion Hv; subst handle err. subst h'.
  rewrite !valueOf_bind. cbn [valueOf ret fst snd REST.setHealth REST.health].
  repeat split.
Qed.

Lemma rest_scrape_with_server_unreachable_witness :
  let s := valueOf (REST.NewRESTAPIScraper Samples.airflowApi emptyWorld) in
  let w := worldOf (REST.NewRESTAPIScraper Samples.airflowApi emptyWorld) in
  Appends (REST.mb s)
    (REST.scrapeComprehensive (H := Reference.platform) (H0 := Reference.quiet)
       (H1 := Samples.unreachable) (H2 := Reference.emptyLists) s 1000000) [] /\
  snd (fst (valueOf (REST.Scrape (H := Reference.platform) (H0 := Reference.quiet)
                       (H1 := Samples.unreachable) (H2 := Reference.emptyLists)
                       (H3 := Samples.oneGauge) s w))) = None /\
  Health.IsHealthy
    (REST.health
       (snd (valueOf (REST.Scrape (H := Reference.platform) (H0 := Reference.quiet)
                        (H1 := Samples.unreachable) (H2 := Reference.emptyLists)
                        (H3 := Samples.oneGauge) s w)))) = true /\
  Health.successfulScrapes
    (REST.health
       (snd (valueOf (REST.Scrape (H := Reference.platform) (H0 := Reference.quiet)
                        (H1 := Samples.unreachable) (H2 := Reference.emptyLists)
                        (H3 := Samples.oneGauge) s w)))) =
    wrap64 (Health.successfulScrapes (REST.health s) + 1).
Proof.
  intros s w.
  apply (rest_scrape_with_server_unreachable (H := Reference.platform)
           (H0 := Reference.quiet) (H1 := Samples.unreachable) (H2 := Reference.emptyLists)
           (H3 := Samples.oneGauge) s 1000000 w).
  - intros reqs url. eexists. reflexivity.
  - vm_compute. discriminate.
Defined.

(** ** Counting by key *)

Lemma occurrences_snoc (keys : list string) (k0 k : string) :
  Tally.occurrences (keys ++ [k0]) k =
  Tally.occurrences keys k + (if String.eqb k k0 then 1 else 0).
Proof.
  unfold Tally.occurrences. rewrite List.filter_app, length_app. cbn [List.filter].
  destruct (String.eqb k k0); cbn [length]; lia.
Qed.

Lemma occurrences_nonneg (keys : list string) (k : string) : 0 <= Tally.occurrences keys k.
Proof. unfold Tally.occurrences. lia. Qed.

Lemma occurrences_le (keys : list string) (k : string) :
  Tally.occurrences keys k <= Z.of_nat (length keys).
Proof.
  unfold Tally.occurrences. pose proof (filter_length_le (String.eqb k) keys). lia.
Qed.

Lemma occurrences_pos (keys : list string) (k : string) :
  0 < Tally.occurrences keys k <-> k ∈ keys.
Proof.
  unfold Tally.occurrences. induction keys as [|k0 keys IH].
  - cbn. split; [lia | intros Hin; now apply elem_of_nil in Hin].
  - cbn [List.filter]. rewrite elem_of_cons.
    destruct (String.eqb_spec k k0) as [->|Hne].
    + cbn [length]. split; [auto | lia].
    + rewrite IH. split; [auto | intros [Heq | Hin]; [contradiction | exact Hin]].
Qed.

(** The map after [m[k]++] for every key: each key that occurs is there
    with the number of its occurrences. *)
Lemma tally_lookup (keys : list string) (k : string) :
  Z.of_nat (length keys) <= max_int64 ->
  fold_left (fun m key => REST.increment key m) keys ∅ !! k =
  if Tally.occurrences keys k =? 0 then None else Some (Tally.occurrences keys k).
Proof.
  induction keys as [|k0 keys IH] using rev_ind; intros Hlen; [reflexivity|].
  rewrite length_app in Hlen. cbn [length] in Hlen.
  rewrite fold_left_app. cbn [fold_left]. unfold REST.increment at 1.
  rewrite occurrences_snoc.
  pose proof (occurrences_nonneg keys k) as H0.
  pose proof (occurrences_le keys k0) as Hle.
  destruct (String.eqb_spec k k0) as [->|Hne].
  - rewrite lookup_insert_eq, IH by lia.
    assert (Hd : default 0 (if Tally.occurrences keys k0 =? 0 then None
                            else Some (Tally.occurrences keys k0)) =
                 Tally.occurrences keys k0).
    { destruct (Z.eqb_spec (Tally.occurrences keys k0) 0) as [Hz|Hz]; cbn; lia. }
    rewrite Hd, wrap64_id by (unfold min_int64, max_int64 in *; lia).
    destruct (Z.eqb_spec (Tally.occurrences keys k0 + 1) 0); [lia | reflexivity].
  - rewrite lookup_insert_ne by congruence. rewrite IH by lia. now rewrite Z.add_0_r.
Qed.

Lemma tally_entries (keys : list string) :
  Z.of_nat (length keys) <= max_int64 ->
  map_to_list (fold_left (fun m key => REST.increment key m) keys ∅) ≡ₚ
  (fun k => (k, Tally.occurrences keys k)) <$> remove_dups keys.
Proof.
  intros Hlen. apply NoDup_Permutation.
  - apply NoDup_map_to_list.
  - apply NoDup_fmap_2; [|apply NoDup_remove_dups].
    intros k1 k2 Heq. now inversion Heq.
  - intros [k n]. rewrite elem_of_map_to_list, tally_lookup by exact Hlen.
    rewrite list_elem_of_fmap. split.
    + intros Hk. exists k. rewrite elem_of_remove_dups, <- occurrences_pos.
      pose proof (occurrences_nonneg keys k).
      destruct (Z.eqb_spec (Tally.occurrences keys k) 0); [discriminate|].
      inversion Hk. split; [reflexivity | lia].
    + intros (k' & Heq & Hin). inversion Heq; subst k' n.
      rewrite elem_of_remove_dups in Hin. apply occurrences_pos in Hin.
      destruct (Z.eqb_spec (Tally.occurrences keys k) 0); [lia | reflexivity].
Qed.

Lemma connByType_types (connections : list REST.Connection.t) :
  forall m : gmap string Z,
  fold_left
    (fun connByType conn =>
       if String.eqb (REST.Connection.ConnType conn) "" then connByType
       else REST.increment (REST.Connection.ConnType conn) connByType)
    connections m =
  fold_left (fun m key => REST.increment key m) (Tally.types connections) m.
Proof.
  unfold Tally.types. induction connections as [|conn connections IH]; intros m; [reflexivity|].
  cbn [fold_left List.map List.filter].
  destruct (String.eqb (REST.Connection.ConnType conn) ""); cbn [negb fold_left]; apply IH.
Qed.

(** X27. The connections are counted by type: when the API returns a list
    of connections, [scrapeConnectionMetrics] appends one metric
    [airflow.connections.count] for each type that occurs, with the number
    of the connections of that type, and nothing else; connections
    without a type are not counted.  The order of the metrics is that of
    the [range] over the counts. *)
Theorem connections_counted_by_type `{Platform} `{Surroundings} `{REST.Network}
    `{REST.Decoder} (s : REST.RESTAPIScraper) (ts : Z) (w : World)
    (connections : list REST.Connection.t) :
  valueOf (REST.getConnections s w) = inr connections ->
  Z.of_nat (length connections) <= max_int64 ->
  Builder.ready (REST.mb s) w = true ->
  exists news,
    Builder.content (Builder.metrics (REST.mb s))
      (worldOf (REST.scrapeConnectionMetrics s ts w)) =
      Builder.content (Builder.metrics (REST.mb s)) w ++ news /\
    List.map pmetric.reading news ≡ₚ
      Tally.connectionReading (Tally.types connections) <$>
        remove_dups (Tally.types connections).
Proof.
  intros Hget Hlen Hready.
  unfold REST.scrapeConnectionMetrics. rewrite worldOf_bind, Hget.
  set (w1 := worldOf (REST.getConnections s w)).
  assert (Hheap : heap w1 = heap w) by apply fetch_heap.
  rewrite connByType_types.
  set (m := fold_left (fun m key => REST.increment key m) (Tally.types connections) ∅).
  rewrite worldOf_bind.
  set (entries := valueOf (rangeMap m w1)).
  set (w2 := worldOf (rangeMap m w1)).
  assert (Hready2 : Builder.ready (REST.mb s) w2 = true).
  { unfold Builder.ready in *. subst w2. cbn [rangeMap worldOf fst snd heap].
    now rewrite Hheap. }
  assert (Hcontent2 : Builder.content (Builder.metrics (REST.mb s)) w2 =
                      Builder.content (Builder.metrics (REST.mb s)) w).
  { unfold Builder.content. subst w2. cbn [rangeMap worldOf fst snd heap].
    now rewrite Hheap. }
  destruct (Appends_forEach (REST.mb s) entries
              (fun '(connType, count) =>
                 now <- timeNow ;;
                 Builder.RecordConnectionCount (REST.mb s) count connType now)
              (fun entry =>
                 [("airflow.connections.count", pmetric.IntValue (snd entry),
                   <["connection.type" := pmetric.AStr (fst entry)]> ∅)])) with (w := w2)
    as (_ & news & Hnews & Hread).
  { intros [connType count].
    apply Appends_then; [apply Appends_timeNow | intros now]. apply Appends_append. }
  { exact Hready2. }
  exists news. split; [now rewrite Hnews, Hcontent2|].
  rewrite Hread. subst entries. cbn [rangeMap valueOf fst].
  assert (Hlen' : Z.of_nat (length (Tally.types connections)) <= max_int64).
  { unfold Tally.types.
    pose proof (filter_length_le (fun t => negb (String.eqb t ""))
                  (List.map REST.Connection.ConnType connections)) as Hf.
    rewrite length_map in Hf. lia. }
  rewrite sortBy_perm. subst m. rewrite (tally_entries _ Hlen').
  induction (remove_dups (Tally.types connections)) as [|k ks IH]; [reflexivity|].
  cbn [fmap list_fmap flat_map app fst snd]. unfold Tally.connectionReading at 1.
  constructor. exact IH.
Qed.

Lemma connections_counted_by_type_witness :
  let s := valueOf (REST.NewRESTAPIScraper Samples.airflowApi emptyWorld) in
  let w := worldOf (REST.NewRESTAPIScraper Samples.airflowApi emptyWorld) in
  exists news,
    Builder.content (Builder.metrics (REST.mb s))
      (worldOf (REST.scrapeConnectionMetrics (H := Reference.platform)
                  (H0 := Reference.quiet) (H1 := Reference.answering 200)
                  (H2 := Samples.withConnections) s 7 w)) =
      Builder.content (Builder.metrics (REST.mb s)) w ++ news /\
    List.map pmetric.reading news ≡ₚ
      Tally.connectionReading (Tally.types Samples.fourConnections) <$>
        remove_dups (Tally.types Samples.fourConnections).
Proof.
  intros s w.
  apply (connections_counted_by_type (H := Reference.platform) (H0 := Reference.quiet)
           (H1 := Reference.answering 200) (H2 := Samples.withConnections) s 7 w
           Samples.fourConnections).
  - vm_compute. reflexivity.
  - vm_compute. discriminate.
  - vm_compute. reflexivity.
Defined.
(** * The database adapter and its wrapper: refused queries, failed start *)

Section RefusedFacts.
Context `{Platform} `{Surroundings} `{Database.SqlServer}.
Variable s : Database.DatabaseScraper.
Hypothesis attempts : 1 <= Retry.MaxAttempts (Database.retryConfig s).

Lemma retryM_heap {V : Type} (operation : string)
    (fn : V -> World -> option error * V * World) (v : V) (w : World) :
  (forall v w, heap (snd (fn v w)) = heap w) ->
  heap (worldOf (retryM (Database.retryConfig s) operation fn v w)) = heap w.
Proof.
  intros Hfn.
  apply (retryM_invariant _ _ _ (fun w' => heap w' = heap w)); [| |reflexivity].
  - intros v1 w1 Hw1. rewrite Hfn. exact Hw1.
  - intros w1 n Hw1. exact Hw1.
Qed.

(** A query that is refused at every attempt, followed by what is done
    with its error. *)
Lemma Appends_query_refused {A B : Type} (operation name : string)
    (server : list string -> error + Database.Rows A)
    (k : option error * option (Database.Rows A) -> M B) :
  (forall reqs, exists e, server reqs = inl e) ->
  (forall e v, Appends (Database.mb s) (k (Some e, v)) []) ->
  Appends (Database.mb s)
    (bind (retryM (Database.retryConfig s) operation (Database.query name server) None) k) [].
Proof.
  intros Hrefused Hk.
  apply (Appends_bind_when (Database.mb s) (fun r => fst r <> None)).
  - apply Appends_silent. intros w. apply retryM_heap. intros v w1. apply query_heap.
  - intros w. apply retryM_fails; [|exact attempts].
    intros v w1. unfold Database.query. destruct (Hrefused (requests w1)) as [e ->].
    discriminate.
  - intros [[e|] v] Hr; [apply Hk | now elim Hr].
Qed.

Lemma Appends_warnIfFailed (msg : string) (err : option error) :
  Appends (Database.mb s) (Database.warnIfFailed msg err) [].
Proof. destruct err; [apply Appends_emit | apply Appends_ret]. Qed.

Lemma Scrape_refused :
  (forall reqs, exists e, Database.queryTaskInstances reqs = inl e) ->
  (forall reqs, exists e, Database.queryDAGRuns reqs = inl e) ->
  (forall reqs, exists e, Database.querySchedulerMetrics reqs = inl e) ->
  (forall reqs, exists e, Database.querySLAMisses reqs = inl e) ->
  Appends (Database.mb s) (Database.Scrape s) [].
Proof.
  intros Hti Hdr Hsm Hsla. unfold Database.Scrape.
  apply Appends_then; [apply Appends_timeNow | intros t].
  apply (Appends_bind (Database.mb s) _ _ [] []).
  { unfold Database.scrapeTaskInstanceStats, Database.scrapeRows.
    apply Appends_query_refused; [exact Hti | intros e v; apply Appends_ret]. }
  intros err1. apply Appends_then; [apply Appends_warnIfFailed | intros _].
  apply (Appends_bind (Database.mb s) _ _ [] []).
  { unfold Database.scrapeDAGRunStats, Database.scrapeRows.
    apply Appends_query_refused; [exact Hdr | intros e v; apply Appends_ret]. }
  intros err2. apply Appends_then; [apply Appends_warnIfFailed | intros _].
  apply (Appends_bind (Database.mb s) _ _ [] []).
  { unfold Database.scrapeSchedulerMetrics.
    apply (Appends_bind_when (Database.mb s) (fun r => fst r <> None)).
    - apply Appends_silent. intros w. apply retryM_heap. intros v w1.
      now destruct (Database.querySchedulerMetrics (requests w1)).
    - intros w. apply retryM_fails; [|exact attempts].
      intros v w1. destruct (Hsm (requests w1)) as [e ->]. discriminate.
    - intros [[e|] v] Hr; [apply Appends_ret | now elim Hr]. }
  intros err3. apply Appends_then; [apply Appends_warnIfFailed | intros _].
  apply (Appends_bind (Database.mb s) _ _ [] []).
  { unfold Database.scrapeSLAMisses.
    apply Appends_query_refused; [exact Hsla | intros e v; apply Appends_ret]. }
  intros err4. apply Appends_then; [apply Appends_warnIfFailed | intros _].
  apply Appends_then; [apply Appends_ret | intros handle]. apply Appends_ret.
Qed.
End RefusedFacts.

(** X28. The database scraper reports no error even when the database
    answers nothing: when each of its four queries is refused at every
    attempt (and the policy allows one), [Scrape] appends nothing to the
    collection of the builder, and it returns that collection and [nil],
    as it does whatever the queries return. *)
Theorem database_scrape_with_queries_refused `{Platform} `{Surroundings}
    `{Database.SqlServer} (s : Database.DatabaseScraper) (w : World) :
  1 <= Retry.MaxAttempts (Database.retryConfig s) ->
  (forall reqs, exists e, Database.queryTaskInstances reqs = inl e) ->
  (forall reqs, exists e, Database.queryDAGRuns reqs = inl e) ->
  (forall reqs, exists e, Database.querySchedulerMetrics reqs = inl e) ->
  (forall reqs, exists e, Database.querySLAMisses reqs = inl e) ->
  Appends (Database.mb s) (Database.Scrape s) [] /\
  valueOf (Database.Scrape s w) = (Builder.metrics (Database.mb s), None).
Proof.
  intros HN Hti Hdr Hsm Hsla. split; [now apply Scrape_refused|].
  apply Database_Scrape_value.
Qed.

Lemma database_scrape_with_queries_refused_witness :
  let s := valueOf (Database.NewDatabaseScraper emptyWorld) in
  let w := worldOf (Database.NewDatabaseScraper emptyWorld) in
  Appends (Database.mb s)
    (Database.Scrape (H := Reference.platform) (H0 := Reference.quiet)
       (H1 := Samples.refusing) s) [] /\
  valueOf (Database.Scrape (H := Reference.platform) (H0 := Reference.quiet)
             (H1 := Samples.refusing) s w) = (Builder.metrics (Database.mb s), None).
Proof.
  intros s w.
  apply (database_scrape_with_queries_refused (H := Reference.platform)
           (H0 := Reference.quiet) (H1 := Samples.refusing) s w).
  - vm_compute. discriminate.
  - intros reqs. eexists. reflexivity.
  - intros reqs. eexists. reflexivity.
  - intros reqs. eexists. reflexivity.
  - intros reqs. eexists. reflexivity.
Defined.

Section WrapperFacts.
Context `{Platform} `{Surroundings} `{Database.SqlServer} `{Wrapper.SqlDriver}
        `{Builder.HealthRecorders}.

(** [Start] fails when no attempt connects. *)
Lemma Start_fails (cfg : Wrapper.DatabaseConfig) (s : Database.DatabaseScraper) (w : World) :
  1 <= Retry.MaxAttempts (Database.retryConfig s) ->
  (Wrapper.Open (Wrapper.connStr cfg) <> None \/
   forall reqs, Wrapper.PingContext reqs <> None) ->
  valueOf (Wrapper.Start cfg s w) <> None.
Proof.
  intros HN Hdriver. unfold Wrapper.Start. rewrite valueOf_bind.
  assert (Hr : fst (valueOf (retryM (Database.retryConfig s) "database connection"
                               (Wrapper.connect cfg) false w)) <> None).
  { apply retryM_fails; [|exact HN]. intros v w1. unfold Wrapper.connect.
    destruct (Wrapper.Open (Wrapper.connStr cfg)) as [e|] eqn:Hopen; [discriminate|].
    destruct Hdriver as [Hno | Hping]; [now elim Hno|].
    specialize (Hping (requests w1)).
    destruct (Wrapper.PingContext (requests w1)); [discriminate | now elim Hping]. }
  destruct (fst (valueOf (retryM _ _ _ _ w))) as [e|]; [discriminate | now elim Hr].
Qed.

(** A scrape of a wrapper whose start has failed. *)
Lemma Scrape_not_started (cfg : Wrapper.DatabaseConfig) (x : Wrapper.DatabaseScraperWrapper)
    (w : World) :
  Wrapper.once x = true -> Wrapper.started x = false ->
  Wrapper.Scrape cfg x w =
  ((fresh (dom (heap w)), None, x),
   setHeap (<[fresh (dom (heap w)) := []]> (heap w)) w, []).
Proof.
  intros Honce Hstarted. unfold Wrapper.Scrape. rewrite Honce.
  unfold bind at 1. cbn [ret]. rewrite Hstarted. reflexivity.
Qed.

Lemma Start_heap (cfg : Wrapper.DatabaseConfig) (s : Database.DatabaseScraper) (w : World) :
  heap (worldOf (Wrapper.Start cfg s w)) = heap w.
Proof.
  unfold Wrapper.Start. rewrite worldOf_bind.
  set (rm := retryM (Database.retryConfig s) "database connection"
               (Wrapper.connect cfg) false).
  assert (Hrm : heap (worldOf (rm w)) = heap w).
  { subst rm.
    apply (retryM_invariant _ _ _ (fun w' => heap w' = heap w)); [| |reflexivity].
    - intros v w1 Hw1. unfold Wrapper.connect.
      destruct (Wrapper.Open _); [exact Hw1|].
      destruct (Wrapper.PingContext _); exact Hw1.
    - intros w1 n Hw1. exact Hw1. }
  destruct (fst (valueOf (rm w))); exact Hrm.
Qed.

(** The first scrape of a wrapper whose start fails. *)
Lemma Scrape_start_fails (cfg : Wrapper.DatabaseConfig)
    (x : Wrapper.DatabaseScraperWrapper) (w : World) :
  Wrapper.once x = false -> Wrapper.started x = false ->
  valueOf (Wrapper.Start cfg (Wrapper.scraper x) w) <> None ->
  let r := Wrapper.Scrape cfg x w in
  exists now,
    snd (valueOf r) =
      {| Wrapper.scraper := Wrapper.scraper x;
         Wrapper.health :=
           fst (Health.RecordScrape now 0 (valueOf (Wrapper.Start cfg (Wrapper.scraper x) w))
                  (Wrapper.health x));
         Wrapper.once := true; Wrapper.started := false |} /\
    snd (fst (valueOf r)) = None /\
    heap w !! fst (fst (valueOf r)) = None /\
    heap (worldOf r) !! fst (fst (valueOf r)) = Some [].
Proof.
  intros Honce Hstarted Hfail. cbv zeta.
  pose proof (Start_heap cfg (Wrapper.scraper x) w) as Hheap.
  unfold Wrapper.Scrape. rewrite Honce.
  destruct (Wrapper.Start cfg (Wrapper.scraper x) w) as [[err w0] evs0] eqn:Hs.
  cbn [valueOf worldOf fst snd] in Hfail, Hheap |- *.
  destruct err as [e|]; [|now elim Hfail].
  exists (wallclock (ticks w0)).
  unfold bind, timeNow, emit, log, ret. rewrite Hs.
  cbn [valueOf worldOf fst snd Health.RecordScrape Wrapper.started Wrapper.health
       Wrapper.scraper negb].
  rewrite Hstarted.
  cbn [valueOf worldOf fst snd negb Builder.alloc setHeap heap].
  rewrite Hheap. repeat split.
  - apply not_elem_of_dom, is_fresh.
  - apply lookup_insert_eq.
Qed.
End WrapperFacts.

(** X29. A failed start is never made good.  When the first [Scrape] of a
    wrapper cannot start its scraper (no attempt connects), it records one
    failed scrape of duration 0 in the health tracker, leaves the wrapper
    not started, and returns a new, empty collection and no error; from
    then on every [Scrape] does the same without asking the driver or the
    database again: it sends nothing, writes no log entry and leaves the
    wrapper as it is. *)
Theorem wrapper_failed_start_is_permanent `{Platform} `{Surroundings}
    `{Database.SqlServer} `{Wrapper.SqlDriver} `{Builder.HealthRecorders}
    (cfg : Wrapper.DatabaseConfig) (scraper : Database.DatabaseScraper) (w : World) :
  1 <= Retry.MaxAttempts (Database.retryConfig scraper) ->
  (Wrapper.Open (Wrapper.connStr cfg) <> None \/
   forall reqs, Wrapper.PingContext reqs <> None) ->
  let r := Wrapper.Scrape cfg (Wrapper.NewDatabaseScraperWrapper scraper) w in
  let x := snd (valueOf r) in
  snd (fst (valueOf r)) = None /\
  heap w !! fst (fst (valueOf r)) = None /\
  heap (worldOf r) !! fst (fst (valueOf r)) = Some [] /\
  Wrapper.started x = false /\
  Health.failedScrapes (Wrapper.health x) = 1 /\
  Health.lastScrapeDuration (Wrapper.health x) = 0 /\
  forall w' : World,
    Wrapper.Scrape cfg x w' =
    ((fresh (dom (heap w')), None, x),
     setHeap (<[fresh (dom (heap w')) := []]> (heap w')) w', []).
Proof.
  intros HN Hdriver. cbv zeta.
  pose proof (Start_fails cfg scraper w HN Hdriver) as Hfail.
  destruct (Scrape_start_fails cfg (Wrapper.NewDatabaseScraperWrapper scraper) w
              eq_refl eq_refl Hfail) as (now & Hx & Herr & Hfresh & Hempty).
  cbv zeta in Hx, Herr, Hfresh, Hempty.
  split; [exact Herr|]. split; [exact Hfresh|]. split; [exact Hempty|].
  rewrite Hx. cbn [Wrapper.started Wrapper.health Wrapper.NewDatabaseScraperWrapper
                   Wrapper.scraper].
  destruct (valueOf (Wrapper.Start cfg scraper w)) as [e|]; [|now elim Hfail].
  split; [reflexivity|]. split; [reflexivity|]. split; [reflexivity|].
  intros w'. now apply Scrape_not_started.
Qed.

Lemma wrapper_failed_start_is_permanent_witness :
  let scraper := valueOf (Database.NewDatabaseScraper emptyWorld) in
  let w := worldOf (Database.NewDatabaseScraper emptyWorld) in
  let r :=
    Wrapper.Scrape (H := Reference.platform) (H0 := Reference.quiet)
      (H1 := Samples.refusing) (H2 := Samples.noPing) (H3 := Samples.oneGauge)
      Samples.airflowDb (Wrapper.NewDatabaseScraperWrapper scraper) w in
  let x := snd (valueOf r) in
  snd (fst (valueOf r)) = None /\
  heap w !! fst (fst (valueOf r)) = None /\
  heap (worldOf r) !! fst (fst (valueOf r)) = Some [] /\
  Wrapper.started x = false /\
  Health.failedScrapes (Wrapper.health x) = 1 /\
  Health.lastScrapeDuration (Wrapper.health x) = 0 /\
  forall w' : World,
    Wrapper.Scrape (H := Reference.platform) (H0 := Reference.quiet)
      (H1 := Samples.refusing) (H2 := Samples.noPing) (H3 := Samples.oneGauge)
      Samples.airflowDb x w' =
    ((fresh (dom (heap w')), None, x),
     setHeap (<[fresh (dom (heap w')) := []]> (heap w')) w', []).
Proof.
  intros scraper w.
  apply (wrapper_failed_start_is_permanent (H := Reference.platform)
           (H0 := Reference.quiet) (H1 := Samples.refusing) (H2 := Samples.noPing)
           (H3 := Samples.oneGauge) Samples.airflowDb scraper w).
  - vm_compute. discriminate.
  - right. intros reqs. discriminate.
Defined.
(** * The configuration: what [Validate] accepts and leaves behind *)

Lemma orDefault_positive (d fallback : Duration) :
  0 < fallback -> 0 < Config.orDefault d fallback.
Proof. unfold Config.orDefault. destruct (Z.leb_spec d 0); lia. Qed.

Lemma orDefault_keeps (d fallback : Duration) : 0 < d -> Config.orDefault d fallback = d.
Proof. unfold Config.orDefault. destruct (Z.leb_spec d 0); lia. Qed.

Lemma eqb_empty_false (s : string) : s <> "" -> String.eqb s "" = false.
Proof. intros Hs. now apply String.eqb_neq. Qed.

(** The block of the REST section. *)
Lemma validateRESTAPI_accepts (cfg cfg1 : Config.Config) :
  Config.validateRESTAPI cfg = (None, cfg1) ->
  Config.CollectionModes cfg1 = Config.CollectionModes cfg /\
  Config.DatabaseConfig cfg1 = Config.DatabaseConfig cfg /\
  Config.StatsDConfig cfg1 = Config.StatsDConfig cfg /\
  Config.LogConfig cfg1 = Config.LogConfig cfg /\
  Config.restReady cfg1.
Proof.
  unfold Config.validateRESTAPI, Config.restReady.
  destruct (Config.CollectionModes.RESTAPI (Config.CollectionModes cfg)) eqn:Hmode.
  - destruct (Config.RESTAPIConfig cfg) as [r|]; [|discriminate].
    destruct (String.eqb_spec (Config.RESTAPIConfig.Endpoint r) "") as [He|He]; [discriminate|].
    intros Heq. inversion Heq; subst cfg1; clear Heq. cbn. repeat split.
    intros _. eexists. split; [reflexivity|]. cbn. split; [exact He|].
    apply orDefault_positive. reflexivity.
  - intros Heq. inversion Heq; subst cfg1. repeat split. congruence.
Qed.

Lemma validateRESTAPI_ready (cfg : Config.Config) :
  Config.restReady cfg -> Config.validateRESTAPI cfg = (None, cfg).
Proof.
  unfold Config.validateRESTAPI, Config.restReady. intros Hready.
  destruct (Config.CollectionModes.RESTAPI (Config.CollectionModes cfg)); [|reflexivity].
  destruct (Hready eq_refl) as (r & Hr & He & Hi). rewrite Hr.
  rewrite (eqb_empty_false _ He), (orDefault_keeps _ _ Hi).
  destruct cfg as [modes rest db statsd logs]. cbn in Hr |- *. subst rest.
  now destruct r.
Qed.

(** The block of the database section. *)
Lemma validateDatabase_accepts (cfg cfg1 : Config.Config) :
  Config.validateDatabase cfg = (None, cfg1) ->
  Config.CollectionModes cfg1 = Config.CollectionModes cfg /\
  Config.RESTAPIConfig cfg1 = Config.RESTAPIConfig cfg /\
  Config.StatsDConfig cfg1 = Config.StatsDConfig cfg /\
  Config.LogConfig cfg1 = Config.LogConfig cfg /\
  Config.databaseReady cfg1.
Proof.
  unfold Config.validateDatabase, Config.databaseReady.
  destruct (Config.CollectionModes.Database (Config.CollectionModes cfg)) eqn:Hmode.
  - destruct (Config.DatabaseConfig cfg) as [d|]; [|discriminate].
    destruct (String.eqb_spec (Config.DatabaseConfig.Host d) "") as [He|He]; [discriminate|].
    intros Heq. inversion Heq; subst cfg1; clear Heq. cbn. repeat split.
    intros _. eexists. split; [reflexivity|]. cbn. split; [exact He|].
    split; [destruct (Z.eqb_spec (Config.DatabaseConfig.Port d) 0); [discriminate | assumption]|].
    split; [destruct (String.eqb_spec (Config.DatabaseConfig.SSLMode d) "");
            [discriminate | assumption]|].
    split; apply orDefault_positive; reflexivity.
  - intros Heq. inversion Heq; subst cfg1. repeat split. congruence.
Qed.

Lemma validateDatabase_ready (cfg : Config.Config) :
  Config.databaseReady cfg -> Config.validateDatabase cfg = (None, cfg).
Proof.
  unfold Config.validateDatabase, Config.databaseReady. intros Hready.
  destruct (Config.CollectionModes.Database (Config.CollectionModes cfg)); [|reflexivity].
  destruct (Hready eq_refl) as (d & Hd & He & Hp & Hs & Hi & Hq). rewrite Hd.
  rewrite (eqb_empty_false _ He), (eqb_empty_false _ Hs),
    (orDefault_keeps _ _ Hi), (orDefault_keeps _ _ Hq).
  destruct (Z.eqb_spec (Config.DatabaseConfig.Port d) 0) as [Hz|_]; [contradiction|].
  destruct cfg as [modes rest db statsd logs]. cbn in Hd |- *. subst db.
  now destruct d.
Qed.

(** The block of the StatsD section. *)
Lemma validateStatsD_accepts (cfg cfg1 : Config.Config) :
  Config.validateStatsD cfg = (None, cfg1) ->
  Config.CollectionModes cfg1 = Config.CollectionModes cfg /\
  Config.RESTAPIConfig cfg1 = Config.RESTAPIConfig cfg /\
  Config.DatabaseConfig cfg1 = Config.DatabaseConfig cfg /\
  Config.LogConfig cfg1 = Config.LogConfig cfg /\
  Config.statsdReady cfg1.
Proof.
  unfold Config.validateStatsD, Config.statsdReady.
  destruct (Config.CollectionModes.StatsD (Config.CollectionModes cfg)) eqn:Hmode.
  - destruct (Config.StatsDConfig cfg) as [t|]; [|discriminate].
    intros Heq. inversion Heq; subst cfg1; clear Heq. cbn. repeat split.
    intros _. eexists. split; [reflexivity|]. cbn.
    apply orDefault_positive. reflexivity.
  - intros Heq. inversion Heq; subst cfg1. repeat split. congruence.
Qed.

Lemma validateStatsD_ready (cfg : Config.Config) :
  Config.statsdReady cfg -> Config.validateStatsD cfg = (None, cfg).
Proof.
  unfold Config.validateStatsD, Config.statsdReady. intros Hready.
  destruct (Config.CollectionModes.StatsD (Config.CollectionModes cfg)); [|reflexivity].
  destruct (Hready eq_refl) as (t & Ht & Hi). rewrite Ht.
  rewrite (orDefault_keeps _ _ Hi).
  destruct cfg as [modes rest db statsd logs]. cbn in Ht |- *. subst statsd.
  now destruct t.
Qed.

(** The block of the logs section. *)
Lemma validateLogs_accepts (cfg cfg1 : Config.Config) :
  Config.validateLogs cfg = (None, cfg1) ->
  Config.CollectionModes cfg1 = Config.CollectionModes cfg /\
  Config.RESTAPIConfig cfg1 = Config.RESTAPIConfig cfg /\
  Config.DatabaseConfig cfg1 = Config.DatabaseConfig cfg /\
  Config.StatsDConfig cfg1 = Config.StatsDConfig cfg /\
  Config.logsReady cfg1.
Proof.
  unfold Config.validateLogs, Config.logsReady.
  destruct (Config.CollectionModes.Logs (Config.CollectionModes cfg)) eqn:Hmode.
  - destruct (Config.LogConfig cfg) as [l|]; [|discriminate].
    destruct (String.eqb_spec (Config.LogConfig.Host l) "") as [He|He]; [discriminate|].
    destruct (String.eqb_spec (Config.LogConfig.Database l) "") as [Hd|Hd]; [discriminate|].
    intros Heq. inversion Heq; subst cfg1; clear Heq. cbn. repeat split.
    intros _. eexists. split; [reflexivity|]. cbn. split; [exact He|]. split; [exact Hd|].
    split; [destruct (Z.eqb_spec (Config.LogConfig.Port l) 0); [discriminate | assumption]|].
    split; [destruct (String.eqb_spec (Config.LogConfig.SSLMode l) "");
            [discriminate | assumption]|].
    apply orDefault_positive. reflexivity.
  - intros Heq. inversion Heq; subst cfg1. repeat split. congruence.
Qed.

Lemma validateLogs_ready (cfg : Config.Config) :
  Config.logsReady cfg -> Config.validateLogs cfg = (None, cfg).
Proof.
  unfold Config.validateLogs, Config.logsReady. intros Hready.
  destruct (Config.CollectionModes.Logs (Config.CollectionModes cfg)); [|reflexivity].
  destruct (Hready eq_refl) as (l & Hl & He & Hd & Hp & Hs & Hi). rewrite Hl.
  rewrite (eqb_empty_false _ He), (eqb_empty_false _ Hd), (eqb_empty_false _ Hs),
    (orDefault_keeps _ _ Hi).
  destruct (Z.eqb_spec (Config.LogConfig.Port l) 0) as [Hz|_]; [contradiction|].
  destruct cfg as [modes rest db statsd logs]. cbn in Hl |- *. subst logs.
  now destruct l.
Qed.

(** What [Validate] leaves behind when it returns no error. *)
Lemma Validate_leaves_ready (cfg cfg' : Config.Config) :
  Config.Validate cfg = (None, cfg') ->
  Config.ready cfg' /\ Config.CollectionModes cfg' = Config.CollectionModes cfg.
Proof.
  unfold Config.Validate. cbv zeta.
  destruct (negb (Config.CollectionModes.RESTAPI (Config.CollectionModes cfg)) &&
            negb (Config.CollectionModes.Database (Config.CollectionModes cfg)) &&
            negb (Config.CollectionModes.StatsD (Config.CollectionModes cfg)) &&
            negb (Config.CollectionModes.Logs (Config.CollectionModes cfg))) eqn:Hnone;
    [discriminate|].
  destruct (Config.validateRESTAPI cfg) as [[e|] c1] eqn:H1; [discriminate|].
  cbn [Config.andThen].
  destruct (Config.validateDatabase c1) as [[e|] c2] eqn:H2; [discriminate|].
  cbn [Config.andThen].
  destruct (Config.validateStatsD c2) as [[e|] c3] eqn:H3; [discriminate|].
  cbn [Config.andThen]. intros H4.
  apply validateRESTAPI_accepts in H1. destruct H1 as (M1 & D1 & S1 & L1 & R1).
  apply validateDatabase_accepts in H2. destruct H2 as (M2 & R2 & S2 & L2 & D2).
  apply validateStatsD_accepts in H3. destruct H3 as (M3 & R3 & D3 & L3 & S3).
  apply validateLogs_accepts in H4. destruct H4 as (M4 & R4 & D4 & S4 & L4).
  assert (Hmodes : Config.CollectionModes cfg' = Config.CollectionModes cfg) by congruence.
  split; [|exact Hmodes].
  unfold Config.ready, Config.anyMode, Config.restReady, Config.databaseReady,
    Config.statsdReady in *.
  rewrite Hmodes. repeat split.
  - destruct (Config.CollectionModes.RESTAPI (Config.CollectionModes cfg)); [now left|].
    destruct (Config.CollectionModes.Database (Config.CollectionModes cfg));
      [now right; left|].
    destruct (Config.CollectionModes.StatsD (Config.CollectionModes cfg));
      [now right; right; left|].
    destruct (Config.CollectionModes.Logs (Config.CollectionModes cfg));
      [now right; right; right | discriminate].
  - intros Hm. rewrite R4, R3, R2. apply R1. congruence.
  - intros Hm. rewrite D4, D3. apply D2. congruence.
  - intros Hm. rewrite S4. apply S3. congruence.
  - unfold Config.logsReady in L4. intros Hm. apply L4. congruence.
Qed.

(** [Validate] leaves a configuration that is ready as it is. *)
Lemma Validate_keeps_ready (cfg : Config.Config) :
  Config.ready cfg -> Config.Validate cfg = (None, cfg).
Proof.
  intros (Hany & Hrest & Hdb & Hstatsd & Hlogs). unfold Config.Validate. cbv zeta.
  assert (Hnone :
    negb (Config.CollectionModes.RESTAPI (Config.CollectionModes cfg)) &&
    negb (Config.CollectionModes.Database (Config.CollectionModes cfg)) &&
    negb (Config.CollectionModes.StatsD (Config.CollectionModes cfg)) &&
    negb (Config.CollectionModes.Logs (Config.CollectionModes cfg)) = false).
  { unfold Config.anyMode in Hany.
    destruct Hany as [-> | [-> | [-> | ->]]]; cbn; rewrite ?andb_false_r; reflexivity. }
  rewrite Hnone, (validateRESTAPI_ready cfg Hrest). cbn [Config.andThen].
  rewrite (validateDatabase_ready cfg Hdb). cbn [Config.andThen].
  rewrite (validateStatsD_ready cfg Hstatsd). cbn [Config.andThen].
  apply (validateLogs_ready cfg Hlogs).
Qed.

(** X30. What [Validate] accepts.  When it returns no error, the
    configuration it leaves has at least one mode enabled and, for every
    enabled mode, its section with the names it must have (endpoint, host,
    database) and with positive intervals, a port other than 0 and an SSL
    mode, the modes being as they were.  A configuration that has all this
    already is accepted and left as it is, and no other is: validating
    twice changes nothing more than validating once. *)
Theorem Validate_accepts_and_completes (cfg : Config.Config) :
  (Config.ready cfg <-> Config.Validate cfg = (None, cfg)) /\
  forall cfg' : Config.Config,
    Config.Validate cfg = (None, cfg') ->
    Config.ready cfg' /\
    Config.CollectionModes cfg' = Config.CollectionModes cfg /\
    Config.Validate cfg' = (None, cfg').
Proof.
  split.
  - split; [apply Validate_keeps_ready|].
    intros Hv. now apply Validate_leaves_ready in Hv.
  - intros cfg' Hv. apply Validate_leaves_ready in Hv. destruct Hv as [Hready Hmodes].
    split; [exact Hready|]. split; [exact Hmodes|]. now apply Validate_keeps_ready.
Qed.
